(** * Prediction orchestration of the hospital risk-prediction backend

    A shallow embedding of the NestJS prediction module
    (predictions.service.ts, ml-service.client.ts, predictions.controller.ts),
    of the entities it reads and writes, and of the band classification of
    the ML service (model_service.py, as quoted in the module mapping
    document); further, of the patient service methods next to the one the
    prediction module calls (patients.service.ts: create, update, the
    clinical record listings) and of the age getter of the patient entity.

    Conventions of the embedding:
    - a JavaScript [number] holding an integer column is a [Z]; a score is
      the exact rational [Q] that the number is worth: in the backend the
      value of its decimal text, which is what the database receives, in
      the ML service the value of the double, against the values of the
      doubles written 0.3 and 0.7;
    - a property that may be [undefined] or [null] is a [Nullable];
    - the repositories are tables, lists of rows in insertion order; the
      column types of the prediction table act on an insert: a score is
      rounded to four decimals and a row that a column refuses makes the
      statement fail;
    - asynchronous methods are computations in the monad [M], which threads
      the mutable world (the prediction table and the requests that left
      through the HTTP client) and may throw;
    - what the code obtains from outside (the other tables, the answer of
      the remote service, the primary key and timestamp the database
      generates) is the environment [Env] of one request;
    - logger calls are left out. *)

From Stdlib Require Import List String ZArith QArith Bool Lia Permutation.
From Stdlib Require Import Sorted Qabs Ascii.
Import ListNotations.

Local Open Scope string_scope.
Local Open Scope list_scope.

(** ** JavaScript values *)

Inductive Nullable (A : Type) : Type :=
| Undefined
| Null
| Value (a : A).

Arguments Undefined {A}.
Arguments Null {A}.
Arguments Value {A} a.

(** [x ?? d] *)
Definition nullish {A : Type} (x d : Nullable A) : Nullable A :=
  match x with
  | Value _ => x
  | Undefined | Null => d
  end.

(** [x || d] on a string that may be missing: the empty string is falsy. *)
Definition or_else (x : Nullable string) (d : string) : string :=
  match x with
  | Value s => if String.eqb s "" then d else s
  | Undefined | Null => d
  end.

(** The result of [Math.ceil(a / b)] on integers. *)
Inductive JsNumber : Type :=
| Num (z : Z)
| Infinity
| NaN.

Definition Math_ceil_div (a b : Z) : JsNumber :=
  if (b =? 0)%Z then (if (a =? 0)%Z then NaN else Infinity)
  else Num (- ((- a) / b))%Z.

(** ** common/enums *)

Inductive PredictionType : Type :=
| READMISSION_RISK
| DIABETES_RISK.

Inductive RiskLevel : Type :=
| LOW
| MEDIUM
| HIGH.

Inductive SmokingStatus : Type :=
| NEVER
| FORMER
| CURRENT.

(** The enums are string enums: at run time a member is its string. *)
Definition PredictionType_value (t : PredictionType) : string :=
  match t with
  | READMISSION_RISK => "READMISSION_RISK"
  | DIABETES_RISK => "DIABETES_RISK"
  end.

Definition RiskLevel_value (l : RiskLevel) : string :=
  match l with
  | LOW => "LOW"
  | MEDIUM => "MEDIUM"
  | HIGH => "HIGH"
  end.

Definition SmokingStatus_value (s : SmokingStatus) : string :=
  match s with
  | NEVER => "NEVER"
  | FORMER => "FORMER"
  | CURRENT => "CURRENT"
  end.

Definition PredictionType_eqb (a b : PredictionType) : bool :=
  match a, b with
  | READMISSION_RISK, READMISSION_RISK => true
  | DIABETES_RISK, DIABETES_RISK => true
  | _, _ => false
  end.

(** ** Entities *)

(** Patient: only the primary key is read by the prediction module. *)
Module Patient.
Record t : Type := mk { id : string }.
End Patient.

(** ClinicalRecord: the columns read by the prediction module (recordDate,
    createdById, createdAt and notes are not). *)
Module ClinicalRecord.
Record t : Type := mk {
  id : string;
  patientId : string;
  age : Z;
  bmi : Nullable Q;
  bloodPressureSystolic : Nullable Z;
  bloodPressureDiastolic : Nullable Z;
  glucoseLevel : Nullable Q;
  cholesterol : Nullable Q;
  hba1c : Nullable Q;
  previousAdmissions : Z;
  lastStayDuration : Nullable Z;
  hasDiabetes : bool;
  hasHypertension : bool;
  hasHeartDisease : bool;
  smokingStatus : SmokingStatus
}.
End ClinicalRecord.

(** ** ml-service.client.ts: wire types *)

Module MLPredictionInput.
Record t : Type := mk {
  age : Z;
  bmi : Nullable Q;
  blood_pressure_systolic : Nullable Z;
  blood_pressure_diastolic : Nullable Z;
  glucose_level : Nullable Q;
  cholesterol : Nullable Q;
  hba1c : Nullable Q;
  previous_admissions : Z;
  last_stay_duration : Nullable Z;
  has_diabetes : bool;
  has_hypertension : bool;
  has_heart_disease : bool;
  smoking_status : string
}.
End MLPredictionInput.

(** The body of an answer as it is at run time: the interface is not
    checked, so a property may be missing ([Undefined]) or [null]; a
    property that is there has the declared type. *)
Module MLPredictionResponse.
Record t : Type := mk {
  success : Nullable bool;
  prediction_type : Nullable string;
  risk_score : Nullable Q;
  risk_level : Nullable string;
  model_version : Nullable string;
  model_algorithm : Nullable string;
  feature_importance : Nullable (list (string * Q));
  processing_time_ms : Nullable Z
}.
End MLPredictionResponse.

(** A body that is not [null]: an object, or text that is no JSON object
    (an HTML page, the empty string). *)
Inductive Payload : Type :=
| ObjectBody (o : MLPredictionResponse.t)
| TextBody (text : string).

(** [data.p]: reading a property of a text gives [undefined]. *)
Definition prop {A : Type} (p : MLPredictionResponse.t -> Nullable A)
  (data : Payload) : Nullable A :=
  match data with
  | ObjectBody o => p o
  | TextBody _ => Undefined
  end.

Module MLHealthResponse.
Record t : Type := mk {
  status : string;
  model_loaded : bool;
  model_version : string;
  uptime_seconds : Z
}.
End MLHealthResponse.

(** Prediction entity, and row of the prediction table.  [riskLevel] holds
    the string the service put there: the cast [as RiskLevel] is erased at
    run time.  The last two data columns are nullable. *)
Module Prediction.
Record t : Type := mk {
  id : string;
  patientId : string;
  clinicalRecordId : string;
  predictionType : PredictionType;
  riskScore : Q;
  riskLevel : string;
  modelVersion : string;
  modelAlgorithm : string;
  featuresUsed : MLPredictionInput.t;
  featureImportance : Nullable (list (string * Q));
  processingTimeMs : Nullable Z;
  requestedById : string;
  createdAt : Z
}.
End Prediction.

(** The object handed to [predictionRepository.create]: the entity without
    the generated columns, with what was read from the answer. *)
Module PredictionInit.
Record t : Type := mk {
  patientId : string;
  clinicalRecordId : string;
  predictionType : PredictionType;
  riskScore : Nullable Q;
  riskLevel : Nullable string;
  modelVersion : Nullable string;
  modelAlgorithm : Nullable string;
  featuresUsed : MLPredictionInput.t;
  featureImportance : Nullable (list (string * Q));
  processingTimeMs : Nullable Z;
  requestedById : string
}.
End PredictionInit.

Module RequestPredictionDto.
Record t : Type := mk {
  patientId : string;
  clinicalRecordId : string;
  predictionType : PredictionType
}.
End RequestPredictionDto.

(** ** Thrown values *)

(** The part of an error response that the client reads:
    [response.status] and [response.data?.detail]. *)
Record AxiosResponse : Type := {
  status : Z;
  detail : Nullable string
}.

Inductive Thrown : Type :=
| AxiosError (code : option string) (response : option AxiosResponse)
| TypeError (message : string)
| Error (message : string)
| NotFoundException (message : string)
| ServiceUnavailableException (message : string)
| QueryFailedError.

(** ** The world and the environment *)

(** A request that left through the HTTP client. *)
Inductive Outbound : Type :=
| POST_predict (prediction_type : string) (features : MLPredictionInput.t)
| GET_health
| GET_model_info.

Record World : Type := {
  predictions : list Prediction.t;
  sent : list Outbound
}.

(** How an awaited HTTP call ends. *)
Inductive HttpOutcome (A : Type) : Type :=
| Resolved (data : A)
| Rejected (error : Thrown).

Arguments Resolved {A} data.
Arguments Rejected {A} error.

(** The body of a resolved [POST /predict] is [None] when it is [null] or
    [undefined].  [QueryFailedError] is what a refused database statement
    throws; its message is left out. *)
Record Env : Type := {
  patients : list Patient.t;
  clinicalRecords : list ClinicalRecord.t;
  post_predict :
    string -> MLPredictionInput.t -> HttpOutcome (option Payload);
  get_health : HttpOutcome MLHealthResponse.t;
  get_model_info : HttpOutcome (list (string * string));
  uuid : string;
  now : Z
}.

(** ** The monad of asynchronous methods *)

Inductive Result (A : Type) : Type :=
| Ok (a : A)
| Throw (e : Thrown).

Arguments Ok {A} a.
Arguments Throw {A} e.

Definition M (A : Type) : Type := World -> Result A * World.

Definition ret {A : Type} (a : A) : M A := fun w => (Ok a, w).

Definition throw {A : Type} (e : Thrown) : M A := fun w => (Throw e, w).

Definition bind {A B : Type} (m : M A) (k : A -> M B) : M B :=
  fun w =>
    match m w with
    | (Ok a, w') => k a w'
    | (Throw e, w') => (Throw e, w')
    end.

Definition try_catch {A : Type} (m : M A) (handler : Thrown -> M A) : M A :=
  fun w =>
    match m w with
    | (Ok a, w') => (Ok a, w')
    | (Throw e, w') => handler e w'
    end.

Notation "x <- m ;; k" := (bind m (fun x => k))
  (at level 61, m at next level, right associativity).

(** One outbound request: it is recorded, then it resolves or rejects. *)
Definition await_http {A : Type} (req : Outbound) (o : HttpOutcome A) : M A :=
  fun w =>
    let w' := {| predictions := predictions w; sent := sent w ++ [req] |} in
    match o with
    | Resolved data => (Ok data, w')
    | Rejected error => (Throw error, w')
    end.

(** ** MLServiceClient *)

Module MLServiceClient.

Definition code_is (code : option string) (c : string) : bool :=
  match code with
  | Some s => String.eqb s c
  | None => false
  end.

(** [handleMLServiceError(error): never] *)
Definition handleMLServiceError {A : Type} (error : Thrown) : M A :=
  match error with
  | AxiosError code response =>
      if code_is code "ECONNREFUSED" then
        throw (ServiceUnavailableException
          "ML Service is not available. The prediction service may be starting up or offline.")
      else if code_is code "ETIMEDOUT" then
        throw (ServiceUnavailableException
          "ML Service request timed out. The prediction is taking too long.")
      else
        match response with
        | Some r =>
            throw (ServiceUnavailableException
              ("ML Service error: " ++ or_else (detail r) "Unknown error"))
        | None =>
            throw (ServiceUnavailableException
              "An unexpected error occurred with the ML Service")
        end
  | _ =>
      throw (ServiceUnavailableException
        "An unexpected error occurred with the ML Service")
  end.

(** Reading [response.data.risk_level] for the log line: a [TypeError] on a
    body that is [null] or [undefined]. *)
Definition read_data (data : option Payload) : M Payload :=
  match data with
  | Some d => ret d
  | None => throw (TypeError "Cannot read properties of null (reading 'risk_level')")
  end.

Definition predict (env : Env) (predictionType : string)
  (features : MLPredictionInput.t) : M Payload :=
  try_catch
    (response <- await_http (POST_predict predictionType features)
                   (post_predict env predictionType features) ;;
     data <- read_data response ;;
     ret data)
    (fun error => handleMLServiceError error).

Definition healthCheck (env : Env) : M MLHealthResponse.t :=
  try_catch
    (await_http GET_health (get_health env))
    (fun _ => throw (ServiceUnavailableException
       "ML Service is not available. Please try again later.")).

Definition getModelInfo (env : Env) : M (list (string * string)) :=
  try_catch
    (await_http GET_model_info (get_model_info env))
    (fun error => handleMLServiceError error).

End MLServiceClient.

(** ** PatientsService *)

Module PatientsService.

Definition findById (env : Env) (id : string) : M Patient.t :=
  match find (fun p => String.eqb (Patient.id p) id) (patients env) with
  | Some patient => ret patient
  | None => throw (NotFoundException ("Patient with ID " ++ id ++ " not found"))
  end.

End PatientsService.

(** ** Repository operations *)

Module Repository.

(** [order: { createdAt: 'DESC' }]: a stable insertion sort, newest first. *)
Fixpoint insert_desc (p : Prediction.t) (l : list Prediction.t)
  : list Prediction.t :=
  match l with
  | [] => [p]
  | q :: rest =>
      if (Prediction.createdAt q <? Prediction.createdAt p)%Z
      then p :: q :: rest
      else q :: insert_desc p rest
  end.

Fixpoint order_createdAt_desc (l : list Prediction.t) : list Prediction.t :=
  match l with
  | [] => []
  | p :: rest => insert_desc p (order_createdAt_desc rest)
  end.

(** [skip] and [take] become OFFSET and LIMIT.  A [take] of 0 is falsy and
    puts no LIMIT on the query, which then gives every row after the
    offset; a negative OFFSET or LIMIT is refused by the database
    ([None]). *)
Definition skip_take (skip take : Z) (l : list Prediction.t)
  : option (list Prediction.t) :=
  if (skip <? 0)%Z || (take <? 0)%Z then None
  else
    let rest := skipn (Z.to_nat skip) l in
    Some (if (take =? 0)%Z then rest else firstn (Z.to_nat take) rest).

(** [clinicalRecordRepository.findOne({ where: { id, patientId } })] *)
Definition findOne_clinicalRecord (env : Env) (id patientId : string)
  : option ClinicalRecord.t :=
  find (fun r => String.eqb (ClinicalRecord.id r) id
                 && String.eqb (ClinicalRecord.patientId r) patientId)
       (clinicalRecords env).

(** Column [DECIMAL(5,4)]: the value is rounded to four decimals, half
    away from zero, and refused when the result has more than one digit
    before the point. *)
Definition round4 (q : Q) : Q :=
  (Z.sgn (Qnum q)
   * ((2 * 10000 * Z.abs (Qnum q) + Zpos (Qden q)) / (2 * Zpos (Qden q))))%Z
  # 10000.

Definition decimal_5_4 (q : Q) : option Q :=
  if Qle_bool 10 (Qabs (round4 q)) then None else Some (round4 q).

(** Column of the enum type [risk_level]. *)
Definition risk_level_enum (s : string) : bool :=
  String.eqb s "LOW" || String.eqb s "MEDIUM" || String.eqb s "HIGH".

(** Column [VARCHAR(n)]: a longer string is refused, unless what exceeds
    [n] characters is spaces only, which are cut off. *)
Fixpoint all_spaces (s : string) : bool :=
  match s with
  | EmptyString => true
  | String c rest => Ascii.eqb c " "%char && all_spaces rest
  end.

Definition varchar (n : nat) (s : string) : option string :=
  if all_spaces (String.substring n (String.length s - n) s)
  then Some (String.substring 0 n s)
  else None.

(** Column [INTEGER]. *)
Definition int4 (z : Z) : bool :=
  (-2147483648 <=? z)%Z && (z <=? 2147483647)%Z.

(** A column that must not be NULL. *)
Definition not_null {A : Type} (x : Nullable A) : option A :=
  match x with
  | Value a => Some a
  | Undefined | Null => None
  end.

(** The entity after a successful [save]: the generated columns are filled
    in and a nullable column that was left [undefined] is [null]; [None]
    when the INSERT is refused: a required column is missing, the band is
    no member of the enum, the score does not fit, a string is too long or
    the processing time is no 32-bit integer.  The foreign keys hold:
    patient and clinical record have just been read, and the requesting
    user is the authenticated one. *)
Definition saved_entity (env : Env) (init : PredictionInit.t)
  : option Prediction.t :=
  match not_null (PredictionInit.riskScore init),
        not_null (PredictionInit.riskLevel init),
        not_null (PredictionInit.modelVersion init),
        not_null (PredictionInit.modelAlgorithm init) with
  | Some score, Some level, Some version, Some algorithm =>
      match decimal_5_4 score, varchar 50 version, varchar 50 algorithm with
      | Some _, Some _, Some _ =>
          if risk_level_enum level
             && match PredictionInit.processingTimeMs init with
                | Value ms => int4 ms
                | Undefined | Null => true
                end
          then
            Some {| Prediction.id := uuid env;
                    Prediction.patientId := PredictionInit.patientId init;
                    Prediction.clinicalRecordId :=
                      PredictionInit.clinicalRecordId init;
                    Prediction.predictionType :=
                      PredictionInit.predictionType init;
                    Prediction.riskScore := score;
                    Prediction.riskLevel := level;
                    Prediction.modelVersion := version;
                    Prediction.modelAlgorithm := algorithm;
                    Prediction.featuresUsed :=
                      PredictionInit.featuresUsed init;
                    Prediction.featureImportance :=
                      nullish (PredictionInit.featureImportance init) Null;
                    Prediction.processingTimeMs :=
                      nullish (PredictionInit.processingTimeMs init) Null;
                    Prediction.requestedById :=
                      PredictionInit.requestedById init;
                    Prediction.createdAt := now env |}
          else None
      | _, _, _ => None
      end
  | _, _, _, _ => None
  end.

(** The row that the table holds for an entity: the score rounded by its
    column, the two strings cut to their columns. *)
Definition stored (entity : Prediction.t) : Prediction.t :=
  {| Prediction.id := Prediction.id entity;
     Prediction.patientId := Prediction.patientId entity;
     Prediction.clinicalRecordId := Prediction.clinicalRecordId entity;
     Prediction.predictionType := Prediction.predictionType entity;
     Prediction.riskScore := round4 (Prediction.riskScore entity);
     Prediction.riskLevel := Prediction.riskLevel entity;
     Prediction.modelVersion :=
       String.substring 0 50 (Prediction.modelVersion entity);
     Prediction.modelAlgorithm :=
       String.substring 0 50 (Prediction.modelAlgorithm entity);
     Prediction.featuresUsed := Prediction.featuresUsed entity;
     Prediction.featureImportance := Prediction.featureImportance entity;
     Prediction.processingTimeMs := Prediction.processingTimeMs entity;
     Prediction.requestedById := Prediction.requestedById entity;
     Prediction.createdAt := Prediction.createdAt entity |}.

(** [create] followed by [save] of an entity without primary key: one
    INSERT.  The entity is returned as built, the table gets the row. *)
Definition save (env : Env) (init : PredictionInit.t) : M Prediction.t :=
  fun w =>
    match saved_entity env init with
    | Some prediction =>
        (Ok prediction,
         {| predictions := predictions w ++ [stored prediction];
            sent := sent w |})
    | None => (Throw QueryFailedError, w)
    end.

(** Reading the table. *)
Definition rows : M (list Prediction.t) := fun w => (Ok (predictions w), w).

(** [SELECT key, COUNT( * ) ... GROUP BY key]: one row for each key that
    occurs, with the number of its rows. *)
Definition group_count (keys : list string) : list (string * nat) :=
  map (fun k => (k, count_occ string_dec keys k)) (nodup string_dec keys).

End Repository.

(** ** PredictionsService *)

Module PredictionsService.

Definition prepareFeatures (record : ClinicalRecord.t) : MLPredictionInput.t :=
  {| MLPredictionInput.age := ClinicalRecord.age record;
     MLPredictionInput.bmi := nullish (ClinicalRecord.bmi record) Null;
     MLPredictionInput.blood_pressure_systolic :=
       nullish (ClinicalRecord.bloodPressureSystolic record) Null;
     MLPredictionInput.blood_pressure_diastolic :=
       nullish (ClinicalRecord.bloodPressureDiastolic record) Null;
     MLPredictionInput.glucose_level :=
       nullish (ClinicalRecord.glucoseLevel record) Null;
     MLPredictionInput.cholesterol :=
       nullish (ClinicalRecord.cholesterol record) Null;
     MLPredictionInput.hba1c := nullish (ClinicalRecord.hba1c record) Null;
     MLPredictionInput.previous_admissions :=
       ClinicalRecord.previousAdmissions record;
     MLPredictionInput.last_stay_duration :=
       nullish (ClinicalRecord.lastStayDuration record) Null;
     MLPredictionInput.has_diabetes := ClinicalRecord.hasDiabetes record;
     MLPredictionInput.has_hypertension :=
       ClinicalRecord.hasHypertension record;
     MLPredictionInput.has_heart_disease :=
       ClinicalRecord.hasHeartDisease record;
     MLPredictionInput.smoking_status :=
       SmokingStatus_value (ClinicalRecord.smokingStatus record) |}.

Definition requestPrediction (env : Env) (dto : RequestPredictionDto.t)
  (userId : string) : M Prediction.t :=
  let patientId := RequestPredictionDto.patientId dto in
  let clinicalRecordId := RequestPredictionDto.clinicalRecordId dto in
  let predictionType := RequestPredictionDto.predictionType dto in
  _ <- PatientsService.findById env patientId ;;
  match Repository.findOne_clinicalRecord env clinicalRecordId patientId with
  | None =>
      throw (NotFoundException
        ("Clinical record " ++ clinicalRecordId
           ++ " not found for patient " ++ patientId))
  | Some clinicalRecord =>
      let features := prepareFeatures clinicalRecord in
      mlResponse <- MLServiceClient.predict env
                      (PredictionType_value predictionType) features ;;
      prediction <- Repository.save env
        {| PredictionInit.patientId := patientId;
           PredictionInit.clinicalRecordId := clinicalRecordId;
           PredictionInit.predictionType := predictionType;
           PredictionInit.riskScore :=
             prop MLPredictionResponse.risk_score mlResponse;
           PredictionInit.riskLevel :=
             prop MLPredictionResponse.risk_level mlResponse;
           PredictionInit.modelVersion :=
             prop MLPredictionResponse.model_version mlResponse;
           PredictionInit.modelAlgorithm :=
             prop MLPredictionResponse.model_algorithm mlResponse;
           PredictionInit.featuresUsed := features;
           PredictionInit.featureImportance :=
             prop MLPredictionResponse.feature_importance mlResponse;
           PredictionInit.processingTimeMs :=
             prop MLPredictionResponse.processing_time_ms mlResponse;
           PredictionInit.requestedById := userId |} ;;
      ret prediction
  end.

Definition findById (id : string) : M Prediction.t :=
  all <- Repository.rows ;;
  match find (fun p => String.eqb (Prediction.id p) id) all with
  | Some prediction => ret prediction
  | None => throw (NotFoundException ("Prediction with ID " ++ id ++ " not found"))
  end.

Definition getPatientHistory (env : Env) (patientId : string)
  : M (list Prediction.t) :=
  _ <- PatientsService.findById env patientId ;;
  all <- Repository.rows ;;
  ret (Repository.order_createdAt_desc
         (filter (fun p => String.eqb (Prediction.patientId p) patientId) all)).

(** The object [findAll] returns: [{ data, meta: { page, limit, total,
    totalPages } }]. *)
Record PageMeta : Type := {
  meta_page : Z;
  meta_limit : Z;
  meta_total : nat;
  meta_totalPages : JsNumber
}.

Record Page : Type := {
  data : list Prediction.t;
  meta : PageMeta
}.

Definition findAll (page limit : Z) : M Page :=
  all <- Repository.rows ;;
  match Repository.skip_take ((page - 1) * limit) limit
          (Repository.order_createdAt_desc all) with
  | None => throw QueryFailedError
  | Some predictions =>
      let total := List.length all in
      ret {| data := predictions;
             meta := {| meta_page := page;
                        meta_limit := limit;
                        meta_total := total;
                        meta_totalPages :=
                          Math_ceil_div (Z.of_nat total) limit |} |}
  end.

(** One row of the [byType] query. *)
Record TypeRow : Type := {
  predictionType : PredictionType;
  count : nat;
  avgRiskScore : Q
}.

Definition avg (scores : list Q) : Q :=
  (fold_right Qplus 0 scores / inject_Z (Z.of_nat (List.length scores)))%Q.

Definition byType_rows (all : list Prediction.t) : list TypeRow :=
  flat_map
    (fun t =>
       let group :=
         filter (fun p => PredictionType_eqb (Prediction.predictionType p) t)
                all in
       match group with
       | [] => []
       | _ :: _ =>
           [{| predictionType := t;
               count := List.length group;
               avgRiskScore := avg (map Prediction.riskScore group) |}]
       end)
    [READMISSION_RISK; DIABETES_RISK].

Record Statistics : Type := {
  stat_total : nat;
  byRiskLevel : list (string * nat);
  byType : list TypeRow;
  highRiskCount : nat;
  recentPredictions : list Prediction.t
}.

Definition getStatistics : M Statistics :=
  all <- Repository.rows ;;
  ret {| stat_total := List.length all;
         byRiskLevel := Repository.group_count (map Prediction.riskLevel all);
         byType := byType_rows all;
         highRiskCount :=
           count_occ string_dec (map Prediction.riskLevel all)
             (RiskLevel_value HIGH);
         recentPredictions :=
           firstn 10 (Repository.order_createdAt_desc all) |}.

Definition checkMLServiceHealth (env : Env) : M MLHealthResponse.t :=
  MLServiceClient.healthCheck env.

Definition getModelInfo (env : Env) : M (list (string * string)) :=
  MLServiceClient.getModelInfo env.

End PredictionsService.

(** ** PredictionsController *)

Module PredictionsController.

(** [DefaultValuePipe]: the default stands in for a missing query value. *)
Definition DefaultValuePipe (d : Z) (value : option Z) : Z :=
  match value with
  | Some v => v
  | None => d
  end.

Definition requestPrediction (env : Env) (dto : RequestPredictionDto.t)
  (user_id : string) : M Prediction.t :=
  PredictionsService.requestPrediction env dto user_id.

Definition findAll (page limit : option Z) : M PredictionsService.Page :=
  PredictionsService.findAll (DefaultValuePipe 1 page)
    (Z.min (DefaultValuePipe 20 limit) 100).

Definition getStatistics : M PredictionsService.Statistics :=
  PredictionsService.getStatistics.

Definition checkMLHealth (env : Env) : M MLHealthResponse.t :=
  PredictionsService.checkMLServiceHealth env.

Definition getModelInfo (env : Env) : M (list (string * string)) :=
  PredictionsService.getModelInfo env.

Definition getPatientHistory (env : Env) (patientId : string)
  : M (list Prediction.t) :=
  PredictionsService.getPatientHistory env patientId.

Definition findById (id : string) : M Prediction.t :=
  PredictionsService.findById id.

(** The routes of the controller, with their parsed arguments. *)
Inductive Route : Type :=
| POST_predictions (dto : RequestPredictionDto.t) (user_id : string)
| GET_predictions (page limit : option Z)
| GET_statistics
| GET_ml_health
| GET_model_info_route
| GET_patient (patientId : string)
| GET_by_id (id : string).

Inductive Body : Type :=
| BPrediction (p : Prediction.t)
| BPage (p : PredictionsService.Page)
| BStatistics (s : PredictionsService.Statistics)
| BHealth (h : MLHealthResponse.t)
| BModelInfo (i : list (string * string))
| BHistory (l : list Prediction.t).

Definition dispatch (env : Env) (r : Route) : M Body :=
  match r with
  | POST_predictions dto user_id =>
      p <- requestPrediction env dto user_id ;; ret (BPrediction p)
  | GET_predictions page limit =>
      p <- findAll page limit ;; ret (BPage p)
  | GET_statistics => s <- getStatistics ;; ret (BStatistics s)
  | GET_ml_health => h <- checkMLHealth env ;; ret (BHealth h)
  | GET_model_info_route => i <- getModelInfo env ;; ret (BModelInfo i)
  | GET_patient patientId =>
      l <- getPatientHistory env patientId ;; ret (BHistory l)
  | GET_by_id id => p <- findById id ;; ret (BPrediction p)
  end.

(** A sequence of calls, each in the environment of its own moment. *)
Fixpoint serve (calls : list (Env * Route)) (w : World) : World :=
  match calls with
  | [] => w
  | (env, r) :: rest => serve rest (snd (dispatch env r w))
  end.

End PredictionsController.

(** ** ML service: the band of a score (model_service.py, [predict]) *)

Module ModelService.

Definition Qltb (x y : Q) : bool := negb (Qle_bool y x).

(** The values of the doubles that the literals [0.3] and [0.7] denote. *)
Definition double_0_3 : Q := 5404319552844595 # 18014398509481984.
Definition double_0_7 : Q := 3152519739159347 # 4503599627370496.

(** [risk_score] is the value of the double that [predict_proba] gave. *)
Definition risk_level (risk_score : Q) : RiskLevel :=
  if Qltb risk_score double_0_3 then LOW
  else if Qltb risk_score double_0_7 then MEDIUM
  else HIGH.

End ModelService.

(** ** Sample data: the end-to-end scenario of the specification *)

Module Scenario.

Definition observation : ClinicalRecord.t :=
  {| ClinicalRecord.id := "rec-1";
     ClinicalRecord.patientId := "pat-1";
     ClinicalRecord.age := 62;
     ClinicalRecord.bmi := Value 31.4;
     ClinicalRecord.bloodPressureSystolic := Value 150%Z;
     ClinicalRecord.bloodPressureDiastolic := Value 95%Z;
     ClinicalRecord.glucoseLevel := Value 180;
     ClinicalRecord.cholesterol := Null;
     ClinicalRecord.hba1c := Undefined;
     ClinicalRecord.previousAdmissions := 3;
     ClinicalRecord.lastStayDuration := Null;
     ClinicalRecord.hasDiabetes := true;
     ClinicalRecord.hasHypertension := true;
     ClinicalRecord.hasHeartDisease := false;
     ClinicalRecord.smokingStatus := FORMER |}.

(** A record of another patient. *)
Definition foreign : ClinicalRecord.t :=
  {| ClinicalRecord.id := "rec-2";
     ClinicalRecord.patientId := "pat-2";
     ClinicalRecord.age := 40;
     ClinicalRecord.bmi := Value 0;
     ClinicalRecord.bloodPressureSystolic := Null;
     ClinicalRecord.bloodPressureDiastolic := Null;
     ClinicalRecord.glucoseLevel := Null;
     ClinicalRecord.cholesterol := Null;
     ClinicalRecord.hba1c := Null;
     ClinicalRecord.previousAdmissions := 0;
     ClinicalRecord.lastStayDuration := Value 0%Z;
     ClinicalRecord.hasDiabetes := false;
     ClinicalRecord.hasHypertension := false;
     ClinicalRecord.hasHeartDisease := false;
     ClinicalRecord.smokingStatus := NEVER |}.

Definition answer (score : Q) (band : string) : MLPredictionResponse.t :=
  {| MLPredictionResponse.success := Value true;
     MLPredictionResponse.prediction_type := Value "READMISSION_RISK";
     MLPredictionResponse.risk_score := Value score;
     MLPredictionResponse.risk_level := Value band;
     MLPredictionResponse.model_version := Value "1.0.0";
     MLPredictionResponse.model_algorithm := Value "logistic_regression";
     MLPredictionResponse.feature_importance := Value [("age", 0.12)];
     MLPredictionResponse.processing_time_ms := Value 7%Z |}.

(** The body [{}]. *)
Definition empty_object : MLPredictionResponse.t :=
  {| MLPredictionResponse.success := Undefined;
     MLPredictionResponse.prediction_type := Undefined;
     MLPredictionResponse.risk_score := Undefined;
     MLPredictionResponse.risk_level := Undefined;
     MLPredictionResponse.model_version := Undefined;
     MLPredictionResponse.model_algorithm := Undefined;
     MLPredictionResponse.feature_importance := Undefined;
     MLPredictionResponse.processing_time_ms := Undefined |}.

Definition env (outcome : HttpOutcome (option Payload))
  (id : string) (time : Z) : Env :=
  {| patients := [Patient.mk "pat-1"; Patient.mk "pat-2"];
     clinicalRecords := [observation; foreign];
     post_predict := fun _ _ => outcome;
     get_health := Rejected (AxiosError (Some "ECONNREFUSED") None);
     get_model_info := Resolved [("algorithm", "logistic_regression")];
     uuid := id;
     now := time |}.

Definition replies (score : Q) (band : string) (id : string) (time : Z) : Env :=
  env (Resolved (Some (ObjectBody (answer score band)))) id time.

(** The entity that a run for [dto] returns on such an answer. *)
Definition entity (score : Q) (band : string) (id : string) (time : Z)
  (userId : string) : Prediction.t :=
  {| Prediction.id := id;
     Prediction.patientId := "pat-1";
     Prediction.clinicalRecordId := "rec-1";
     Prediction.predictionType := READMISSION_RISK;
     Prediction.riskScore := score;
     Prediction.riskLevel := band;
     Prediction.modelVersion := "1.0.0";
     Prediction.modelAlgorithm := "logistic_regression";
     Prediction.featuresUsed := PredictionsService.prepareFeatures observation;
     Prediction.featureImportance := Value [("age", 0.12)];
     Prediction.processingTimeMs := Value 7%Z;
     Prediction.requestedById := userId;
     Prediction.createdAt := time |}.

Definition dto : RequestPredictionDto.t :=
  {| RequestPredictionDto.patientId := "pat-1";
     RequestPredictionDto.clinicalRecordId := "rec-1";
     RequestPredictionDto.predictionType := READMISSION_RISK |}.

Definition fresh : World := {| predictions := []; sent := [] |}.

End Scenario.

(** ** Vocabulary of the statements *)

(** A measurement that the observation does not carry. *)
Definition absent {A : Type} (x : Nullable A) : Prop :=
  x = Undefined \/ x = Null.

(** The awaited call fails: it rejects (connection refused, time-out,
    error status, anything else thrown), or it resolves with a body that
    cannot be read. *)
Definition failure {A : Type} (o : HttpOutcome (option A)) : Prop :=
  match o with
  | Resolved (Some _) => False
  | Resolved None => True
  | Rejected _ => True
  end.

(** The run of a computation from a world: its result and the world left. *)
Definition result_of {A : Type} (m : M A) (w : World) : Result A := fst (m w).
Definition world_after {A : Type} (m : M A) (w : World) : World := snd (m w).

(** What a run hands to [create] for the record [cr] and the body [data]
    of the answer. *)
Definition built (dto : RequestPredictionDto.t) (userId : string)
  (cr : ClinicalRecord.t) (data : Payload) : PredictionInit.t :=
  {| PredictionInit.patientId := RequestPredictionDto.patientId dto;
     PredictionInit.clinicalRecordId :=
       RequestPredictionDto.clinicalRecordId dto;
     PredictionInit.predictionType := RequestPredictionDto.predictionType dto;
     PredictionInit.riskScore := prop MLPredictionResponse.risk_score data;
     PredictionInit.riskLevel := prop MLPredictionResponse.risk_level data;
     PredictionInit.modelVersion :=
       prop MLPredictionResponse.model_version data;
     PredictionInit.modelAlgorithm :=
       prop MLPredictionResponse.model_algorithm data;
     PredictionInit.featuresUsed := PredictionsService.prepareFeatures cr;
     PredictionInit.featureImportance :=
       prop MLPredictionResponse.feature_importance data;
     PredictionInit.processingTimeMs :=
       prop MLPredictionResponse.processing_time_ms data;
     PredictionInit.requestedById := userId |}.

(** A body of the shape of [MLPredictionResponse]: an object with every
    property of the interface. *)
Definition is_value {A : Type} (x : Nullable A) : bool :=
  match x with
  | Value _ => true
  | Undefined | Null => false
  end.

Definition well_formed (data : Payload) : bool :=
  match data with
  | TextBody _ => false
  | ObjectBody o =>
      is_value (MLPredictionResponse.success o)
      && is_value (MLPredictionResponse.prediction_type o)
      && is_value (MLPredictionResponse.risk_score o)
      && is_value (MLPredictionResponse.risk_level o)
      && is_value (MLPredictionResponse.model_version o)
      && is_value (MLPredictionResponse.model_algorithm o)
      && is_value (MLPredictionResponse.feature_importance o)
      && is_value (MLPredictionResponse.processing_time_ms o)
  end.

(** A failure in the words of the specification: unreachable, timed out or
    rejected (the call rejects), or a success with a body that is not of
    the expected shape. *)
Definition spec_failure (o : HttpOutcome (option Payload)) : Prop :=
  match o with
  | Rejected _ => True
  | Resolved None => True
  | Resolved (Some data) => well_formed data = false
  end.

(** The message of the last branch of [handleMLServiceError]. *)
Definition unexpected : string :=
  "An unexpected error occurred with the ML Service".

(** Unfolding of the monad. *)
Ltac run_monad :=
  unfold result_of, world_after, bind, ret, throw, try_catch, await_http,
    MLServiceClient.read_data, Repository.rows, Repository.save in *.

(** ** Vocabulary of the further properties *)

(** A list of predictions in the order [createdAt DESC]. *)
Definition newest_first (l : list Prediction.t) : Prop :=
  StronglySorted
    (fun a b => (Prediction.createdAt b <= Prediction.createdAt a)%Z) l.

(** The rows of a page that was returned, none when the call threw. *)
Definition data_of (r : Result PredictionsService.Page) : list Prediction.t :=
  match r with
  | Ok pg => PredictionsService.data pg
  | Throw _ => []
  end.

(** The bands in their order. *)
Definition RiskLevel_rank (l : RiskLevel) : nat :=
  match l with
  | LOW => 0
  | MEDIUM => 1
  | HIGH => 2
  end.

(** Two measurements that the feature mapping does not tell apart: the same
    value, or both absent. *)
Definition same_measurement {A : Type} (x y : Nullable A) : Prop :=
  nullish x Null = nullish y Null.

(** ** Patient entity: the age of a patient *)

(** What the getters of a [Date] give: year, month (0 to 11), day. *)
Record JsDate : Type := {
  getFullYear : Z;
  getMonth : Z;
  getDate : Z
}.

(** The getter [Patient.age] and the [calculateAge] of the pages, with
    [today = new Date()] and [birth = new Date(birthDate)]. *)
Definition calculateAge (today birth : JsDate) : Z :=
  let age := (getFullYear today - getFullYear birth)%Z in
  let monthDiff := (getMonth today - getMonth birth)%Z in
  if (monthDiff <? 0)%Z
     || ((monthDiff =? 0)%Z && (getDate today <? getDate birth)%Z)
  then (age - 1)%Z
  else age.

(** Calendar order on dates, and the same day [k] years later. *)
Definition earlier (a b : JsDate) : Prop :=
  (getFullYear a < getFullYear b)%Z
  \/ (getFullYear a = getFullYear b
      /\ ((getMonth a < getMonth b)%Z
          \/ (getMonth a = getMonth b /\ (getDate a < getDate b)%Z))).

Definition years_later (k : Z) (d : JsDate) : JsDate :=
  {| getFullYear := (getFullYear d + k)%Z;
     getMonth := getMonth d;
     getDate := getDate d |}.

(** ** PatientsService: creating and updating patients *)

Inductive Gender : Type :=
| MALE
| FEMALE
| OTHER.

(** Patient entity, and row of the patient table, with its columns; the
    two timestamps are left out. *)
Module PatientRow.
Record t : Type := mk {
  id : string;
  curp : Nullable string;
  firstName : string;
  lastName : string;
  birthDate : string;
  gender : Nullable Gender;
  bloodType : Nullable string;
  hospitalId : Nullable string;
  phone : Nullable string;
  emergencyContact : Nullable string;
  createdById : string
}.
End PatientRow.

(** An optional property is [Undefined] when the body does not have it. *)
Module CreatePatientDto.
Record t : Type := mk {
  curp : Nullable string;
  firstName : string;
  lastName : string;
  birthDate : string;
  gender : Nullable Gender;
  bloodType : Nullable string;
  hospitalId : Nullable string;
  phone : Nullable string;
  emergencyContact : Nullable string
}.
End CreatePatientDto.

(** [Partial<CreatePatientDto>]: a key is [None] when the body does not
    have it. *)
Module PartialCreatePatientDto.
Record t : Type := mk {
  curp : option (Nullable string);
  firstName : option string;
  lastName : option string;
  birthDate : option string;
  gender : option (Nullable Gender);
  bloodType : option (Nullable string);
  hospitalId : option (Nullable string);
  phone : option (Nullable string);
  emergencyContact : option (Nullable string)
}.
End PartialCreatePatientDto.

(** What these methods throw: a NotFoundException or a
    ConflictException. *)
Inductive Raised : Type :=
| Nest (e : Thrown)
| ConflictException (message : string).

Inductive Outcome (A : Type) : Type :=
| Returned (a : A)
| Raise (e : Raised).

Arguments Returned {A} a.
Arguments Raise {A} e.

Module PatientsTable.

(** [if (x)] on a string that may be missing. *)
Definition truthy (x : Nullable string) : bool :=
  match x with
  | Value s => negb (String.eqb s "")
  | Undefined | Null => false
  end.

(** [findOne({ where: { curp } })] *)
Definition findOne_curp (curp : string) (table : list PatientRow.t)
  : option PatientRow.t :=
  find (fun r => match PatientRow.curp r with
                 | Value s => String.eqb s curp
                 | Undefined | Null => false
                 end) table.

Definition findById (id : string) (table : list PatientRow.t)
  : Outcome PatientRow.t :=
  match find (fun r => String.eqb (PatientRow.id r) id) table with
  | Some patient => Returned patient
  | None =>
      Raise (Nest (NotFoundException
        ("Patient with ID " ++ id ++ " not found")))
  end.

(** [create(dto, userId)]; [new_id] is the primary key the database
    generates for the insert.  A nullable column that the body leaves out
    is [null] in the row and in the entity returned.  The body has passed
    the validation of [CreatePatientDto]. *)
Definition create (new_id : string) (dto : CreatePatientDto.t)
  (userId : string) (table : list PatientRow.t)
  : Outcome PatientRow.t * list PatientRow.t :=
  let existing :=
    match CreatePatientDto.curp dto with
    | Value c => if truthy (Value c) then findOne_curp c table else None
    | Undefined | Null => None
    end in
  match existing with
  | Some _ =>
      (Raise (ConflictException "A patient with this CURP already exists"),
       table)
  | None =>
      let patient :=
        {| PatientRow.id := new_id;
           PatientRow.curp := nullish (CreatePatientDto.curp dto) Null;
           PatientRow.firstName := CreatePatientDto.firstName dto;
           PatientRow.lastName := CreatePatientDto.lastName dto;
           PatientRow.birthDate := CreatePatientDto.birthDate dto;
           PatientRow.gender := nullish (CreatePatientDto.gender dto) Null;
           PatientRow.bloodType :=
             nullish (CreatePatientDto.bloodType dto) Null;
           PatientRow.hospitalId :=
             nullish (CreatePatientDto.hospitalId dto) Null;
           PatientRow.phone := nullish (CreatePatientDto.phone dto) Null;
           PatientRow.emergencyContact :=
             nullish (CreatePatientDto.emergencyContact dto) Null;
           PatientRow.createdById := userId |} in
      (Returned patient, table ++ [patient])
  end.

(** One key of [Object.assign(patient, dto)]. *)
Definition assigned {A : Type} (given : option A) (old : A) : A :=
  match given with
  | Some v => v
  | None => old
  end.

Definition assign (patient : PatientRow.t) (dto : PartialCreatePatientDto.t)
  : PatientRow.t :=
  {| PatientRow.id := PatientRow.id patient;
     PatientRow.curp :=
       assigned (PartialCreatePatientDto.curp dto) (PatientRow.curp patient);
     PatientRow.firstName :=
       assigned (PartialCreatePatientDto.firstName dto)
         (PatientRow.firstName patient);
     PatientRow.lastName :=
       assigned (PartialCreatePatientDto.lastName dto)
         (PatientRow.lastName patient);
     PatientRow.birthDate :=
       assigned (PartialCreatePatientDto.birthDate dto)
         (PatientRow.birthDate patient);
     PatientRow.gender :=
       assigned (PartialCreatePatientDto.gender dto)
         (PatientRow.gender patient);
     PatientRow.bloodType :=
       assigned (PartialCreatePatientDto.bloodType dto)
         (PatientRow.bloodType patient);
     PatientRow.hospitalId :=
       assigned (PartialCreatePatientDto.hospitalId dto)
         (PatientRow.hospitalId patient);
     PatientRow.phone :=
       assigned (PartialCreatePatientDto.phone dto)
         (PatientRow.phone patient);
     PatientRow.emergencyContact :=
       assigned (PartialCreatePatientDto.emergencyContact dto)
         (PatientRow.emergencyContact patient);
     PatientRow.createdById := PatientRow.createdById patient |}.

(** [dto.curp !== patient.curp], for a [dto.curp] that is the string [c]. *)
Definition differs (c : string) (x : Nullable string) : bool :=
  match x with
  | Value s => negb (String.eqb c s)
  | Undefined | Null => true
  end.

(** A column in the UPDATE: a property that is [undefined] is left out of
    the statement and the column keeps its value. *)
Definition column {A : Type} (old given : Nullable A) : Nullable A :=
  match given with
  | Undefined => old
  | Null | Value _ => given
  end.

(** The row of [old] after the UPDATE for the entity [patient]. *)
Definition written (old patient : PatientRow.t) : PatientRow.t :=
  {| PatientRow.id := PatientRow.id patient;
     PatientRow.curp := column (PatientRow.curp old) (PatientRow.curp patient);
     PatientRow.firstName := PatientRow.firstName patient;
     PatientRow.lastName := PatientRow.lastName patient;
     PatientRow.birthDate := PatientRow.birthDate patient;
     PatientRow.gender :=
       column (PatientRow.gender old) (PatientRow.gender patient);
     PatientRow.bloodType :=
       column (PatientRow.bloodType old) (PatientRow.bloodType patient);
     PatientRow.hospitalId :=
       column (PatientRow.hospitalId old) (PatientRow.hospitalId patient);
     PatientRow.phone :=
       column (PatientRow.phone old) (PatientRow.phone patient);
     PatientRow.emergencyContact :=
       column (PatientRow.emergencyContact old)
         (PatientRow.emergencyContact patient);
     PatientRow.createdById := PatientRow.createdById patient |}.

(** [save] of an entity that has its primary key: the row of that key is
    updated. *)
Definition save_existing (patient : PatientRow.t) (table : list PatientRow.t)
  : list PatientRow.t :=
  map (fun r =>
         if String.eqb (PatientRow.id r) (PatientRow.id patient)
         then written r patient else r) table.

Definition update (id : string) (dto : PartialCreatePatientDto.t)
  (table : list PatientRow.t)
  : Outcome PatientRow.t * list PatientRow.t :=
  match findById id table with
  | Raise e => (Raise e, table)
  | Returned patient =>
      let existing :=
        match PartialCreatePatientDto.curp dto with
        | Some (Value c) =>
            if truthy (Value c) && differs c (PatientRow.curp patient)
            then findOne_curp c table
            else None
        | Some Undefined | Some Null | None => None
        end in
      match existing with
      | Some _ =>
          (Raise (ConflictException "A patient with this CURP already exists"),
           table)
      | None =>
          let patient' := assign patient dto in
          (Returned patient', save_existing patient' table)
      end
  end.

End PatientsTable.

(** Patient ids are distinct and no two patients have the same CURP. *)
Definition curps_unique (table : list PatientRow.t) : Prop :=
  NoDup (map PatientRow.id table)
  /\ forall r1 r2 c,
       In r1 table -> In r2 table ->
       PatientRow.curp r1 = Value c -> PatientRow.curp r2 = Value c ->
       PatientRow.id r1 = PatientRow.id r2.

(** Sample patients. *)
Module Ward.

Definition maria : PatientRow.t :=
  {| PatientRow.id := "pat-1";
     PatientRow.curp := Value "CAST850101HJCRLA05";
     PatientRow.firstName := "Maria";
     PatientRow.lastName := "Gonzalez";
     PatientRow.birthDate := "1985-03-15";
     PatientRow.gender := Value FEMALE;
     PatientRow.bloodType := Null;
     PatientRow.hospitalId := Null;
     PatientRow.phone := Null;
     PatientRow.emergencyContact := Null;
     PatientRow.createdById := "user-1" |}.

Definition juan_dto : CreatePatientDto.t :=
  {| CreatePatientDto.curp := Value "GOLJ900202HJCNPN07";
     CreatePatientDto.firstName := "Juan";
     CreatePatientDto.lastName := "Gonzalez";
     CreatePatientDto.birthDate := "1990-02-02";
     CreatePatientDto.gender := Value MALE;
     CreatePatientDto.bloodType := Undefined;
     CreatePatientDto.hospitalId := Undefined;
     CreatePatientDto.phone := Undefined;
     CreatePatientDto.emergencyContact := Undefined |}.

Definition rename : PartialCreatePatientDto.t :=
  {| PartialCreatePatientDto.curp := None;
     PartialCreatePatientDto.firstName := Some "Maria Elena";
     PartialCreatePatientDto.lastName := None;
     PartialCreatePatientDto.birthDate := None;
     PartialCreatePatientDto.gender := None;
     PartialCreatePatientDto.bloodType := Some (Value "O+");
     PartialCreatePatientDto.hospitalId := None;
     PartialCreatePatientDto.phone := None;
     PartialCreatePatientDto.emergencyContact := None |}.

End Ward.

(** ** PatientsService: reading clinical records *)

(** A clinical record row with the column the listings order by;
    [recordDate] is the date as a day number. *)
Module DatedRecord.
Record t : Type := mk {
  recordDate : Z;
  record : ClinicalRecord.t
}.
End DatedRecord.

Module ClinicalRecords.

(** [order: { recordDate: 'DESC' }] *)
Fixpoint insert_desc (r : DatedRecord.t) (l : list DatedRecord.t)
  : list DatedRecord.t :=
  match l with
  | [] => [r]
  | q :: rest =>
      if (DatedRecord.recordDate q <? DatedRecord.recordDate r)%Z
      then r :: q :: rest
      else q :: insert_desc r rest
  end.

Fixpoint order_recordDate_desc (l : list DatedRecord.t)
  : list DatedRecord.t :=
  match l with
  | [] => []
  | r :: rest => insert_desc r (order_recordDate_desc rest)
  end.

(** [where: { patientId }] *)
Definition of_patient (patientId : string) (rows : list DatedRecord.t)
  : list DatedRecord.t :=
  filter (fun r => String.eqb (ClinicalRecord.patientId (DatedRecord.record r))
                     patientId) rows.

Definition getClinicalRecords (env : Env) (rows : list DatedRecord.t)
  (patientId : string) : M (list DatedRecord.t) :=
  _ <- PatientsService.findById env patientId ;;
  ret (order_recordDate_desc (of_patient patientId rows)).

(** The result is [None] for [null]. *)
Definition getLatestClinicalRecord (rows : list DatedRecord.t)
  (patientId : string) : M (option DatedRecord.t) :=
  ret (hd_error (order_recordDate_desc (of_patient patientId rows))).

Definition getClinicalRecordById (rows : list DatedRecord.t) (id : string)
  : M DatedRecord.t :=
  match find (fun r => String.eqb (ClinicalRecord.id (DatedRecord.record r)) id)
          rows with
  | Some record => ret record
  | None =>
      throw (NotFoundException
        ("Clinical record with ID " ++ id ++ " not found"))
  end.

End ClinicalRecords.

(** A list of records in the order [recordDate DESC]. *)
Definition latest_first (l : list DatedRecord.t) : Prop :=
  StronglySorted
    (fun a b => (DatedRecord.recordDate b <= DatedRecord.recordDate a)%Z) l.

(** * Properties *)

(** ** Comparison of scores *)


Lemma Qltb_ge (x y : Q) : ModelService.Qltb x y = false <-> (y <= x)%Q.
Proof.
  unfold ModelService.Qltb. rewrite negb_false_iff. apply Qle_bool_iff.
Qed.

(** ** The score column *)

Lemma round4_of_four_decimals (q : Q) (z : Z) :
  (q == z # 10000)%Q -> (Repository.round4 q == z # 10000)%Q.
Proof.
  destruct q as [n d]. unfold Qeq, Repository.round4. cbn [Qnum Qden].
  intros H.
  assert (Ha : (10000 * Z.abs n = Z.abs z * Zpos d)%Z).
  { apply (f_equal Z.abs) in H. rewrite !Z.abs_mul in H.
    cbn [Z.abs] in H. lia. }
  assert (Hm : ((2 * 10000 * Z.abs n + Zpos d) / (2 * Zpos d) = Z.abs z)%Z).
  { symmetry. apply (Z.div_unique _ _ _ (Zpos d)); lia. }
  rewrite Hm.
  assert (Hs : (Z.sgn n * Z.abs z = z)%Z).
  { destruct (Z.lt_trichotomy n 0) as [Hn | [Hn | Hn]].
    - rewrite (Z.sgn_neg n Hn). assert (z < 0)%Z by nia. lia.
    - subst n. assert (z = 0)%Z by nia. subst z. reflexivity.
    - rewrite (Z.sgn_pos n Hn). assert (0 < z)%Z by nia. lia. }
  rewrite Hs. reflexivity.
Qed.

(** Rounding moves a score by at most half a unit of the fourth decimal. *)
Lemma round4_close (q : Q) :
  exists k : Z,
    Repository.round4 q = k # 10000
    /\ (Qabs (q - (k # 10000)) <= 1 # 20000)%Q.
Proof.
  destruct q as [n d]. unfold Repository.round4. cbn [Qnum Qden].
  eexists. split; [reflexivity|].
  set (m := ((2 * 10000 * Z.abs n + Zpos d) / (2 * Zpos d))%Z).
  assert (Hdm := Z.div_mod (2 * 10000 * Z.abs n + Zpos d) (2 * Zpos d)).
  assert (Hr := Z.mod_pos_bound (2 * 10000 * Z.abs n + Zpos d) (2 * Zpos d)).
  fold m in Hdm.
  set (r := ((2 * 10000 * Z.abs n + Zpos d) mod (2 * Zpos d))%Z) in *.
  assert (Hd : (0 < Zpos d)%Z) by lia.
  apply Qabs_Qle_condition. unfold Qle, Qminus, Qplus, Qopp.
  cbn [Qnum Qden]. rewrite !Pos2Z.inj_mul.
  destruct (Z.lt_trichotomy n 0) as [Hn | [Hn | Hn]].
  - rewrite (Z.sgn_neg n Hn). rewrite (Z.abs_neq n) in * by lia. split; nia.
  - subst n. cbn [Z.sgn Z.abs] in *. split; nia.
  - rewrite (Z.sgn_pos n Hn). rewrite (Z.abs_eq n) in * by lia. split; nia.
Qed.

Lemma substring_none (n : nat) (s : string) : String.substring n 0 s = "".
Proof.
  revert n. induction s as [|c s IH]; intros [|n]; cbn; auto.
Qed.

Lemma substring_all (n : nat) (s : string) :
  (String.length s <= n)%nat -> String.substring 0 n s = s.
Proof.
  revert n. induction s as [|c s IH]; intros [|n] H; cbn in *;
    try reflexivity; try lia.
  rewrite IH by lia. reflexivity.
Qed.

Lemma varchar_fits (n : nat) (s : string) :
  (String.length s <= n)%nat -> Repository.varchar n s = Some s.
Proof.
  intros H. unfold Repository.varchar.
  replace (String.length s - n)%nat with 0%nat by lia.
  rewrite substring_none, substring_all by assumption. reflexivity.
Qed.

(** ** Feature mapping *)

Lemma nullish_absent {A : Type} (x : Nullable A) :
  absent x -> nullish x Null = Null.
Proof.
  intros [-> | ->]; reflexivity.
Qed.

Lemma nullish_defined {A : Type} (x : Nullable A) :
  nullish x Null <> Undefined.
Proof.
  destruct x; discriminate.
Qed.

(** C6: the feature mapping is a function of the observation alone (equal
    observations give equal vectors); each optional measurement that is
    absent is sent as [null], which is neither omitted ([undefined]) nor
    the number zero; the three flags and the smoking status carry the
    observation's values. *)
Theorem prepareFeatures_pure_and_null_marked (r : ClinicalRecord.t) :
  let f := PredictionsService.prepareFeatures r in
  (forall r', r' = r -> PredictionsService.prepareFeatures r' = f) /\
  (absent (ClinicalRecord.bmi r) -> MLPredictionInput.bmi f = Null) /\
  (absent (ClinicalRecord.bloodPressureSystolic r) ->
     MLPredictionInput.blood_pressure_systolic f = Null) /\
  (absent (ClinicalRecord.bloodPressureDiastolic r) ->
     MLPredictionInput.blood_pressure_diastolic f = Null) /\
  (absent (ClinicalRecord.glucoseLevel r) ->
     MLPredictionInput.glucose_level f = Null) /\
  (absent (ClinicalRecord.cholesterol r) ->
     MLPredictionInput.cholesterol f = Null) /\
  (absent (ClinicalRecord.hba1c r) -> MLPredictionInput.hba1c f = Null) /\
  (absent (ClinicalRecord.lastStayDuration r) ->
     MLPredictionInput.last_stay_duration f = Null) /\
  (MLPredictionInput.bmi f <> Undefined /\
   MLPredictionInput.blood_pressure_systolic f <> Undefined /\
   MLPredictionInput.blood_pressure_diastolic f <> Undefined /\
   MLPredictionInput.glucose_level f <> Undefined /\
   MLPredictionInput.cholesterol f <> Undefined /\
   MLPredictionInput.hba1c f <> Undefined /\
   MLPredictionInput.last_stay_duration f <> Undefined) /\
  (@Null Q <> Value 0 /\ @Null Z <> Value 0%Z) /\
  MLPredictionInput.has_diabetes f = ClinicalRecord.hasDiabetes r /\
  MLPredictionInput.has_hypertension f = ClinicalRecord.hasHypertension r /\
  MLPredictionInput.has_heart_disease f = ClinicalRecord.hasHeartDisease r /\
  MLPredictionInput.smoking_status f
    = SmokingStatus_value (ClinicalRecord.smokingStatus r).
Proof.
  cbn zeta. unfold PredictionsService.prepareFeatures. cbn.
  split; [intros r' ->; reflexivity|].
  repeat (split; [apply nullish_absent|]).
  split; [repeat split; apply nullish_defined|].
  split; [split; discriminate|].
  repeat split.
Qed.

Lemma prepareFeatures_pure_and_null_marked_witness :
  MLPredictionInput.cholesterol
    (PredictionsService.prepareFeatures Scenario.observation) = Null /\
  MLPredictionInput.hba1c
    (PredictionsService.prepareFeatures Scenario.observation) = Null /\
  MLPredictionInput.smoking_status
    (PredictionsService.prepareFeatures Scenario.observation) = "FORMER".
Proof.
  destruct (prepareFeatures_pure_and_null_marked Scenario.observation)
    as (_ & _ & _ & _ & _ & Hc & Hh & _ & _ & _ & _ & _ & _ & Hs).
  split; [apply Hc; right; reflexivity|].
  split; [apply Hh; left; reflexivity|].
  exact Hs.
Defined.

(** A measured zero stays a number: it is not turned into the marker. *)
Lemma prepareFeatures_keeps_zero :
  MLPredictionInput.bmi (PredictionsService.prepareFeatures Scenario.foreign)
    = Value 0
  /\ MLPredictionInput.last_stay_duration
       (PredictionsService.prepareFeatures Scenario.foreign) = Value 0%Z.
Proof.
  split; reflexivity.
Qed.

(** ** The inference client *)

Lemma handleMLServiceError_throws {A : Type} (error : Thrown) (w : World) :
  exists msg,
    @MLServiceClient.handleMLServiceError A error w
      = (Throw (ServiceUnavailableException msg), w).
Proof.
  destruct error as [code response | m | m | m | m |]; cbn;
    try (eexists; reflexivity).
  destruct (MLServiceClient.code_is code "ECONNREFUSED");
    [eexists; reflexivity|].
  destruct (MLServiceClient.code_is code "ETIMEDOUT");
    [eexists; reflexivity|].
  destruct response; eexists; reflexivity.
Qed.

(** What one call of [predict] does, by the way the awaited call ends. *)
Lemma predict_run (env : Env) (t : string) (f : MLPredictionInput.t)
  (w : World) :
  let w1 := {| predictions := predictions w;
               sent := sent w ++ [POST_predict t f] |} in
  MLServiceClient.predict env t f w =
  match post_predict env t f with
  | Resolved (Some d) => (Ok d, w1)
  | Resolved None =>
      MLServiceClient.handleMLServiceError
        (TypeError "Cannot read properties of null (reading 'risk_level')") w1
  | Rejected error => MLServiceClient.handleMLServiceError error w1
  end.
Proof.
  unfold MLServiceClient.predict. run_monad.
  destruct (post_predict env t f) as [[d|]|error]; reflexivity.
Qed.

Lemma predict_world (env : Env) (t : string) (f : MLPredictionInput.t)
  (w : World) :
  snd (MLServiceClient.predict env t f w)
  = {| predictions := predictions w; sent := sent w ++ [POST_predict t f] |}.
Proof.
  rewrite predict_run. cbn zeta.
  destruct (post_predict env t f) as [[d|]|error]; [reflexivity| |].
  - destruct (@handleMLServiceError_throws Payload
      (TypeError "Cannot read properties of null (reading 'risk_level')")
      {| predictions := predictions w; sent := sent w ++ [POST_predict t f] |})
      as [msg ->].
    reflexivity.
  - destruct (@handleMLServiceError_throws Payload error
      {| predictions := predictions w; sent := sent w ++ [POST_predict t f] |})
      as [msg ->].
    reflexivity.
Qed.

Lemma predict_failure (env : Env) (t : string) (f : MLPredictionInput.t)
  (w : World) :
  failure (post_predict env t f) ->
  exists msg,
    MLServiceClient.predict env t f w
    = (Throw (ServiceUnavailableException msg),
       {| predictions := predictions w;
          sent := sent w ++ [POST_predict t f] |}).
Proof.
  intros Hf. rewrite predict_run. cbn zeta.
  destruct (post_predict env t f) as [[d|]|error]; [destruct Hf| |];
    apply handleMLServiceError_throws.
Qed.

Lemma predict_throw_inv (env : Env) (t : string) (f : MLPredictionInput.t)
  (w w' : World) (e : Thrown) :
  MLServiceClient.predict env t f w = (Throw e, w') ->
  failure (post_predict env t f)
  /\ exists msg, e = ServiceUnavailableException msg.
Proof.
  rewrite predict_run. cbn zeta.
  destruct (post_predict env t f) as [[d|]|error]; [discriminate| |];
    intros H; (split; [exact I|]).
  - destruct (@handleMLServiceError_throws Payload
      (TypeError "Cannot read properties of null (reading 'risk_level')")
      {| predictions := predictions w; sent := sent w ++ [POST_predict t f] |})
      as [msg Hm].
    rewrite Hm in H. inversion H. eauto.
  - destruct (@handleMLServiceError_throws Payload error
      {| predictions := predictions w; sent := sent w ++ [POST_predict t f] |})
      as [msg Hm].
    rewrite Hm in H. inversion H. eauto.
Qed.

(** C5, as the code has it: whatever makes a call of [predict] fail
    (connection refused, time-out, an error status of the remote service,
    any other rejection, or a body that is null), the caller gets a
    ServiceUnavailableException, and a failing call throws nothing else;
    for an error status the [detail] text of the remote service is part of
    the message; a body that is not null is handed to the caller as it
    came, whatever its shape; and a call, failed or not, sends exactly one
    request and writes nothing to the prediction table. *)
Theorem predict_failure_service_unavailable_no_retry
  (env : Env) (t : string) (f : MLPredictionInput.t) (w : World) :
  (failure (post_predict env t f) ->
     exists msg,
       result_of (MLServiceClient.predict env t f) w
       = Throw (ServiceUnavailableException msg)) /\
  (forall e, result_of (MLServiceClient.predict env t f) w = Throw e ->
     failure (post_predict env t f)
     /\ exists msg, e = ServiceUnavailableException msg) /\
  (forall r,
     post_predict env t f
       = Rejected (AxiosError (Some "ECONNREFUSED") r) ->
     result_of (MLServiceClient.predict env t f) w
     = Throw (ServiceUnavailableException
         "ML Service is not available. The prediction service may be starting up or offline.")) /\
  (forall r,
     post_predict env t f = Rejected (AxiosError (Some "ETIMEDOUT") r) ->
     result_of (MLServiceClient.predict env t f) w
     = Throw (ServiceUnavailableException
         "ML Service request timed out. The prediction is taking too long.")) /\
  (forall code r d,
     post_predict env t f = Rejected (AxiosError code (Some r)) ->
     MLServiceClient.code_is code "ECONNREFUSED" = false ->
     MLServiceClient.code_is code "ETIMEDOUT" = false ->
     detail r = Value d -> d <> "" ->
     result_of (MLServiceClient.predict env t f) w
     = Throw (ServiceUnavailableException ("ML Service error: " ++ d))) /\
  (post_predict env t f = Resolved None ->
     result_of (MLServiceClient.predict env t f) w
     = Throw (ServiceUnavailableException unexpected)) /\
  (forall data,
     post_predict env t f = Resolved (Some data) ->
     result_of (MLServiceClient.predict env t f) w = Ok data) /\
  sent (world_after (MLServiceClient.predict env t f) w)
    = sent w ++ [POST_predict t f] /\
  predictions (world_after (MLServiceClient.predict env t f) w)
    = predictions w.
Proof.
  unfold result_of, world_after.
  split.
  { intros Hf. destruct (predict_failure env t f w Hf) as [msg ->].
    exists msg. reflexivity. }
  split.
  { intros e He.
    destruct (MLServiceClient.predict env t f w) as [r w'] eqn:E.
    cbn in He. subst r. exact (predict_throw_inv _ _ _ _ _ _ E). }
  split.
  { intros r Hr. rewrite predict_run, Hr. reflexivity. }
  split.
  { intros r Hr. rewrite predict_run, Hr. reflexivity. }
  split.
  { intros code r d Hr Hc Ht Hd Hne. rewrite predict_run, Hr. cbn.
    rewrite Hc, Ht, Hd. cbn.
    destruct (String.eqb d "") eqn:E; [|reflexivity].
    apply String.eqb_eq in E. contradiction. }
  split.
  { intros Hr. rewrite predict_run, Hr. reflexivity. }
  split.
  { intros data Hr. rewrite predict_run, Hr. reflexivity. }
  rewrite predict_world. split; reflexivity.
Qed.

Lemma predict_failure_service_unavailable_no_retry_witness :
  result_of
    (MLServiceClient.predict
       (Scenario.env
          (Rejected (AxiosError (Some "ERR_BAD_RESPONSE")
             (Some {| status := 500; detail := Value "Model not loaded" |})))
          "id-1" 1)
       "READMISSION_RISK"
       (PredictionsService.prepareFeatures Scenario.observation))
    Scenario.fresh
  = Throw (ServiceUnavailableException "ML Service error: Model not loaded").
Proof.
  destruct (predict_failure_service_unavailable_no_retry
    (Scenario.env
       (Rejected (AxiosError (Some "ERR_BAD_RESPONSE")
          (Some {| status := 500; detail := Value "Model not loaded" |})))
       "id-1" 1)
    "READMISSION_RISK"
    (PredictionsService.prepareFeatures Scenario.observation)
    Scenario.fresh) as (_ & _ & _ & _ & H & _).
  apply (H (Some "ERR_BAD_RESPONSE")
           {| status := 500; detail := Value "Model not loaded" |}
           "Model not loaded"); try reflexivity.
  discriminate.
Defined.

(** C5 as stated fails: a success payload that cannot be parsed as a
    prediction, here a page of HTML, is no failure of the call: it is
    returned to the caller. *)
Lemma predict_unparsable_body_returned :
  ~ (forall env t f w,
       spec_failure (post_predict env t f) ->
       exists msg,
         result_of (MLServiceClient.predict env t f) w
         = Throw (ServiceUnavailableException msg)).
Proof.
  intros H.
  destruct (H (Scenario.env (Resolved (Some (TextBody "<html></html>")))
                 "id-1" 1)
              "READMISSION_RISK"
              (PredictionsService.prepareFeatures Scenario.observation)
              Scenario.fresh eq_refl) as [msg Hm].
  vm_compute in Hm. discriminate Hm.
Qed.

(** ** The insert *)

(** What an accepted insert says about the values handed to it. *)
Lemma saved_entity_Some_inv (env : Env) (init : PredictionInit.t)
  (p : Prediction.t) :
  Repository.saved_entity env init = Some p ->
  PredictionInit.riskScore init = Value (Prediction.riskScore p)
  /\ PredictionInit.riskLevel init = Value (Prediction.riskLevel p)
  /\ PredictionInit.modelVersion init = Value (Prediction.modelVersion p)
  /\ PredictionInit.modelAlgorithm init = Value (Prediction.modelAlgorithm p)
  /\ Repository.risk_level_enum (Prediction.riskLevel p) = true
  /\ Repository.decimal_5_4 (Prediction.riskScore p)
     = Some (Repository.round4 (Prediction.riskScore p))
  /\ p = {| Prediction.id := uuid env;
            Prediction.patientId := PredictionInit.patientId init;
            Prediction.clinicalRecordId := PredictionInit.clinicalRecordId init;
            Prediction.predictionType := PredictionInit.predictionType init;
            Prediction.riskScore := Prediction.riskScore p;
            Prediction.riskLevel := Prediction.riskLevel p;
            Prediction.modelVersion := Prediction.modelVersion p;
            Prediction.modelAlgorithm := Prediction.modelAlgorithm p;
            Prediction.featuresUsed := PredictionInit.featuresUsed init;
            Prediction.featureImportance :=
              nullish (PredictionInit.featureImportance init) Null;
            Prediction.processingTimeMs :=
              nullish (PredictionInit.processingTimeMs init) Null;
            Prediction.requestedById := PredictionInit.requestedById init;
            Prediction.createdAt := now env |}.
Proof.
  unfold Repository.saved_entity.
  destruct (PredictionInit.riskScore init) as [| |score]; cbn; try discriminate.
  destruct (PredictionInit.riskLevel init) as [| |level]; cbn; try discriminate.
  destruct (PredictionInit.modelVersion init) as [| |version]; cbn;
    try discriminate.
  destruct (PredictionInit.modelAlgorithm init) as [| |algorithm]; cbn;
    try discriminate.
  destruct (Repository.decimal_5_4 score) as [r|] eqn:Ed; [|discriminate].
  destruct (Repository.varchar 50 version); [|discriminate].
  destruct (Repository.varchar 50 algorithm); [|discriminate].
  destruct (Repository.risk_level_enum level) eqn:El; [|discriminate].
  cbn [andb].
  destruct (match PredictionInit.processingTimeMs init with
            | Value ms => Repository.int4 ms
            | _ => true
            end); [|discriminate].
  intros H. inversion H; subst; clear H. cbn.
  repeat split; try reflexivity; try assumption.
  unfold Repository.decimal_5_4 in *.
  destruct (Qle_bool 10 (Qabs (Repository.round4 score)));
    [discriminate|reflexivity].
Qed.

(** The values that the database accepts. *)
Lemma saved_entity_Some (env : Env) (init : PredictionInit.t)
  (score : Q) (level version algorithm : string) :
  PredictionInit.riskScore init = Value score ->
  PredictionInit.riskLevel init = Value level ->
  PredictionInit.modelVersion init = Value version ->
  PredictionInit.modelAlgorithm init = Value algorithm ->
  (Qabs (Repository.round4 score) < 10)%Q ->
  Repository.risk_level_enum level = true ->
  (String.length version <= 50)%nat ->
  (String.length algorithm <= 50)%nat ->
  (forall ms, PredictionInit.processingTimeMs init = Value ms ->
              Repository.int4 ms = true) ->
  Repository.saved_entity env init
  = Some {| Prediction.id := uuid env;
            Prediction.patientId := PredictionInit.patientId init;
            Prediction.clinicalRecordId := PredictionInit.clinicalRecordId init;
            Prediction.predictionType := PredictionInit.predictionType init;
            Prediction.riskScore := score;
            Prediction.riskLevel := level;
            Prediction.modelVersion := version;
            Prediction.modelAlgorithm := algorithm;
            Prediction.featuresUsed := PredictionInit.featuresUsed init;
            Prediction.featureImportance :=
              nullish (PredictionInit.featureImportance init) Null;
            Prediction.processingTimeMs :=
              nullish (PredictionInit.processingTimeMs init) Null;
            Prediction.requestedById := PredictionInit.requestedById init;
            Prediction.createdAt := now env |}.
Proof.
  intros Hs Hl Hv Ha Hfit Henum Hlv Hla Hms.
  unfold Repository.saved_entity. rewrite Hs, Hl, Hv, Ha. cbn.
  unfold Repository.decimal_5_4.
  assert (Hq : Qle_bool 10 (Qabs (Repository.round4 score)) = false).
  { destruct (Qle_bool 10 (Qabs (Repository.round4 score))) eqn:E;
      [|reflexivity].
    apply Qle_bool_iff in E. exfalso. exact (Qlt_not_le _ _ Hfit E). }
  rewrite Hq, (varchar_fits 50 version Hlv), (varchar_fits 50 algorithm Hla).
  rewrite Henum. cbn [andb].
  destruct (PredictionInit.processingTimeMs init) as [| |ms] eqn:E;
    try reflexivity.
  rewrite (Hms ms eq_refl). reflexivity.
Qed.

(** ** The orchestration *)

Section Run.

Variable env : Env.
Variable dto : RequestPredictionDto.t.
Variable userId : string.

Let patientId := RequestPredictionDto.patientId dto.
Let clinicalRecordId := RequestPredictionDto.clinicalRecordId dto.
Let kind := PredictionType_value (RequestPredictionDto.predictionType dto).

(** The run, step by step. *)
Lemma requestPrediction_run (w : World) :
  PredictionsService.requestPrediction env dto userId w =
  match find (fun p => String.eqb (Patient.id p) patientId) (patients env) with
  | None =>
      (Throw (NotFoundException
         ("Patient with ID " ++ patientId ++ " not found")), w)
  | Some _ =>
      match Repository.findOne_clinicalRecord env clinicalRecordId patientId with
      | None =>
          (Throw (NotFoundException
             ("Clinical record " ++ clinicalRecordId
                ++ " not found for patient " ++ patientId)), w)
      | Some cr =>
          match MLServiceClient.predict env kind
                  (PredictionsService.prepareFeatures cr) w with
          | (Ok data, w1) =>
              match Repository.saved_entity env (built dto userId cr data) with
              | Some p =>
                  (Ok p,
                   {| predictions := predictions w1 ++ [Repository.stored p];
                      sent := sent w1 |})
              | None => (Throw QueryFailedError, w1)
              end
          | (Throw e, w1) => (Throw e, w1)
          end
      end
  end.
Proof.
  unfold PredictionsService.requestPrediction, PatientsService.findById.
  fold patientId clinicalRecordId. unfold bind at 1.
  destruct (find _ (patients env)); [|reflexivity].
  cbn.
  destruct (Repository.findOne_clinicalRecord env clinicalRecordId patientId)
    as [cr|]; [|reflexivity].
  run_monad. fold kind.
  destruct (MLServiceClient.predict env kind
              (PredictionsService.prepareFeatures cr) w) as [[data|e] w1];
    [|reflexivity].
  unfold built. fold patientId clinicalRecordId.
  destruct (Repository.saved_entity env _); reflexivity.
Qed.

(** A run that returns has resolved the record for the given patient,
    received an answer, and inserted one row built from both. *)
Lemma requestPrediction_Ok_inv (w w' : World) (p : Prediction.t) :
  PredictionsService.requestPrediction env dto userId w = (Ok p, w') ->
  exists cr data,
    Repository.findOne_clinicalRecord env clinicalRecordId patientId = Some cr
    /\ post_predict env kind (PredictionsService.prepareFeatures cr)
       = Resolved (Some data)
    /\ Repository.saved_entity env (built dto userId cr data) = Some p
    /\ predictions w' = predictions w ++ [Repository.stored p]
    /\ sent w'
       = sent w ++ [POST_predict kind (PredictionsService.prepareFeatures cr)].
Proof.
  rewrite requestPrediction_run.
  destruct (find _ (patients env)); [|discriminate].
  destruct (Repository.findOne_clinicalRecord env clinicalRecordId patientId)
    as [cr|]; [|discriminate].
  rewrite predict_run. cbn zeta.
  destruct (post_predict env kind (PredictionsService.prepareFeatures cr))
    as [[d|]|error] eqn:E.
  - destruct (Repository.saved_entity env (built dto userId cr d)) as [q|] eqn:Es;
      [|discriminate].
    intros H. inversion H; subst. exists cr, d. cbn.
    repeat split; try reflexivity; assumption.
  - destruct (@handleMLServiceError_throws Payload
      (TypeError "Cannot read properties of null (reading 'risk_level')")
      {| predictions := predictions w;
         sent := sent w
           ++ [POST_predict kind (PredictionsService.prepareFeatures cr)] |})
      as [msg ->].
    discriminate.
  - destruct (@handleMLServiceError_throws Payload error
      {| predictions := predictions w;
         sent := sent w
           ++ [POST_predict kind (PredictionsService.prepareFeatures cr)] |})
      as [msg ->].
    discriminate.
Qed.

(** A run that throws has written nothing. *)
Lemma requestPrediction_Throw_store (w w' : World) (e : Thrown) :
  PredictionsService.requestPrediction env dto userId w = (Throw e, w') ->
  predictions w' = predictions w.
Proof.
  rewrite requestPrediction_run.
  destruct (find _ (patients env));
    [|intros H; inversion H; reflexivity].
  destruct (Repository.findOne_clinicalRecord env clinicalRecordId patientId)
    as [cr|]; [|intros H; inversion H; reflexivity].
  pose proof (predict_world env kind
                (PredictionsService.prepareFeatures cr) w) as Hw.
  destruct (MLServiceClient.predict env kind
              (PredictionsService.prepareFeatures cr) w) as [[data|e1] w1].
  - destruct (Repository.saved_entity env (built dto userId cr data));
      [discriminate|].
    intros H. inversion H; subst. cbn in Hw. subst w'. reflexivity.
  - intros H. inversion H; subst. cbn in Hw. subst w'. reflexivity.
Qed.

(** A run for a known patient and a record of that patient whose call
    resolves with a body: the insert decides. *)
Lemma requestPrediction_resolved (w : World) (patient : Patient.t)
  (cr : ClinicalRecord.t) (data : Payload) :
  In patient (patients env) ->
  Patient.id patient = patientId ->
  Repository.findOne_clinicalRecord env clinicalRecordId patientId = Some cr ->
  post_predict env kind (PredictionsService.prepareFeatures cr)
    = Resolved (Some data) ->
  PredictionsService.requestPrediction env dto userId w
  = match Repository.saved_entity env (built dto userId cr data) with
    | Some p =>
        (Ok p,
         {| predictions := predictions w ++ [Repository.stored p];
            sent := sent w
              ++ [POST_predict kind (PredictionsService.prepareFeatures cr)] |})
    | None =>
        (Throw QueryFailedError,
         {| predictions := predictions w;
            sent := sent w
              ++ [POST_predict kind (PredictionsService.prepareFeatures cr)] |})
    end.
Proof.
  intros Hin Hid Hcr Hpost.
  rewrite requestPrediction_run.
  destruct (find (fun p => String.eqb (Patient.id p) patientId) (patients env))
    as [q|] eqn:E.
  - rewrite Hcr, predict_run, Hpost. cbn zeta.
    destruct (Repository.saved_entity env (built dto userId cr data));
      reflexivity.
  - exfalso. pose proof (find_none _ _ E patient Hin) as Hn. cbn in Hn.
    rewrite Hid, String.eqb_refl in Hn. discriminate.
Qed.

End Run.

Lemma find_In_Some {A : Type} (f : A -> bool) (l : list A) (a : A) :
  In a l -> f a = true -> exists b, find f l = Some b.
Proof.
  intros Hin Hf. destruct (find f l) as [b|] eqn:E; [eauto|].
  rewrite (find_none f l E a Hin) in Hf. discriminate.
Qed.

Lemma NoDup_map_eq {A B : Type} (f : A -> B) (l : list A) (a b : A) :
  NoDup (map f l) -> In a l -> In b l -> f a = f b -> a = b.
Proof.
  induction l as [|x l IH]; cbn; [contradiction|].
  intros Hnd [-> | Ha] [-> | Hb] Heq; inversion Hnd; subst.
  - reflexivity.
  - exfalso. apply H1. rewrite Heq. now apply in_map.
  - exfalso. apply H1. rewrite <- Heq. now apply in_map.
  - now apply IH.
Qed.

(** A body without score, band, model version or algorithm is refused by
    the insert: these columns are NOT NULL. *)
Lemma saved_entity_missing (env : Env) (dto : RequestPredictionDto.t)
  (userId : string) (cr : ClinicalRecord.t) (data : Payload) :
  is_value (prop MLPredictionResponse.risk_score data)
  && is_value (prop MLPredictionResponse.risk_level data)
  && is_value (prop MLPredictionResponse.model_version data)
  && is_value (prop MLPredictionResponse.model_algorithm data) = false ->
  Repository.saved_entity env (built dto userId cr data) = None.
Proof.
  unfold Repository.saved_entity, built. cbn.
  destruct (prop MLPredictionResponse.risk_score data); cbn;
    try reflexivity.
  destruct (prop MLPredictionResponse.risk_level data); cbn;
    try reflexivity.
  destruct (prop MLPredictionResponse.model_version data); cbn;
    try reflexivity.
  destruct (prop MLPredictionResponse.model_algorithm data); cbn;
    try reflexivity.
  discriminate.
Qed.

(** C3, as the code has it: once patient and record are resolved, every
    failure that the inference client raises (the call rejects: connection
    refused, time-out, error status, anything else; or the body is null)
    makes the run throw a ServiceUnavailableException with the prediction
    table the same after the run as before it.  A body that is not null
    is not examined by the client: the insert decides.  When the database
    accepts the values read from the body the run returns and the row is
    appended; when it refuses them, as it does for a body without score,
    band, model version or algorithm, the run throws QueryFailedError and
    the table is unchanged.  Whatever a run throws, the table is
    unchanged. *)
Theorem requestPrediction_client_failure_leaves_no_record
  (env : Env) (dto : RequestPredictionDto.t) (userId : string) (w : World)
  (patient : Patient.t) (cr : ClinicalRecord.t) :
  In patient (patients env) ->
  Patient.id patient = RequestPredictionDto.patientId dto ->
  Repository.findOne_clinicalRecord env
    (RequestPredictionDto.clinicalRecordId dto)
    (RequestPredictionDto.patientId dto) = Some cr ->
  let call :=
    post_predict env
      (PredictionType_value (RequestPredictionDto.predictionType dto))
      (PredictionsService.prepareFeatures cr) in
  let run := PredictionsService.requestPrediction env dto userId in
  (failure call ->
     (exists msg, result_of run w = Throw (ServiceUnavailableException msg))
     /\ predictions (world_after run w) = predictions w) /\
  (forall data p,
     call = Resolved (Some data) ->
     Repository.saved_entity env (built dto userId cr data) = Some p ->
     result_of run w = Ok p
     /\ predictions (world_after run w)
        = predictions w ++ [Repository.stored p]) /\
  (forall data,
     call = Resolved (Some data) ->
     Repository.saved_entity env (built dto userId cr data) = None ->
     result_of run w = Throw QueryFailedError
     /\ predictions (world_after run w) = predictions w) /\
  (forall data,
     call = Resolved (Some data) ->
     is_value (prop MLPredictionResponse.risk_score data)
     && is_value (prop MLPredictionResponse.risk_level data)
     && is_value (prop MLPredictionResponse.model_version data)
     && is_value (prop MLPredictionResponse.model_algorithm data) = false ->
     result_of run w = Throw QueryFailedError
     /\ predictions (world_after run w) = predictions w) /\
  (forall e,
     result_of run w = Throw e ->
     predictions (world_after run w) = predictions w).
Proof.
  intros Hin Hid Hcr call run. unfold result_of, world_after.
  split.
  { intros Hf. subst run. rewrite requestPrediction_run. cbn zeta.
    destruct (find_In_Some
                (fun p => String.eqb (Patient.id p)
                            (RequestPredictionDto.patientId dto))
                (patients env) patient Hin) as [q ->].
    { rewrite Hid. apply String.eqb_refl. }
    rewrite Hcr.
    destruct (predict_failure env _ _ w Hf) as [msg ->].
    split; [exists msg|]; reflexivity. }
  split.
  { intros data p Hcall Hs. subst run.
    rewrite (requestPrediction_resolved env dto userId w patient cr data
               Hin Hid Hcr Hcall), Hs.
    split; reflexivity. }
  split.
  { intros data Hcall Hs. subst run.
    rewrite (requestPrediction_resolved env dto userId w patient cr data
               Hin Hid Hcr Hcall), Hs.
    split; reflexivity. }
  split.
  { intros data Hcall Hm. subst run.
    rewrite (requestPrediction_resolved env dto userId w patient cr data
               Hin Hid Hcr Hcall),
            (saved_entity_missing env dto userId cr data Hm).
    split; reflexivity. }
  intros e He. subst run.
  destruct (PredictionsService.requestPrediction env dto userId w)
    as [r w'] eqn:E.
  cbn in He. subst r. cbn.
  exact (requestPrediction_Throw_store env dto userId w w' e E).
Qed.

Lemma requestPrediction_client_failure_leaves_no_record_witness :
  (exists msg,
     result_of
       (PredictionsService.requestPrediction
          (Scenario.env (Rejected (AxiosError (Some "ETIMEDOUT") None)) "id-1" 1)
          Scenario.dto "user-1")
       Scenario.fresh
     = Throw (ServiceUnavailableException msg)) /\
  predictions
    (world_after
       (PredictionsService.requestPrediction
          (Scenario.env (Rejected (AxiosError (Some "ETIMEDOUT") None)) "id-1" 1)
          Scenario.dto "user-1")
       Scenario.fresh)
  = predictions Scenario.fresh.
Proof.
  destruct (requestPrediction_client_failure_leaves_no_record
              (Scenario.env (Rejected (AxiosError (Some "ETIMEDOUT") None))
                 "id-1" 1)
              Scenario.dto "user-1" Scenario.fresh
              (Patient.mk "pat-1") Scenario.observation
              (or_introl eq_refl) eq_refl eq_refl) as (H & _).
  exact (H I).
Defined.

(** C3 as stated fails: a malformed response, here the body [{}], does not
    end the run in a ServiceUnavailableException: the client returns the
    body and the insert is refused by the database. *)
Lemma requestPrediction_malformed_body_not_mapped :
  ~ (forall (o : HttpOutcome (option Payload)) (w : World),
       spec_failure o ->
       exists msg,
         result_of
           (PredictionsService.requestPrediction
              (Scenario.env o "id-1" 1) Scenario.dto "user-1") w
         = Throw (ServiceUnavailableException msg)).
Proof.
  intros H.
  destruct (H (Resolved (Some (ObjectBody Scenario.empty_object)))
              Scenario.fresh eq_refl) as [msg Hm].
  vm_compute in Hm. discriminate Hm.
Qed.

(** C4: a clinical record that belongs to another patient is not resolved
    for the given one: the run throws a NotFoundException, returns no
    prediction, and leaves the world as it was, so no feature vector has been
    sent and no row written.  Record ids are primary keys. *)
Theorem requestPrediction_foreign_record_not_found
  (env : Env) (dto : RequestPredictionDto.t) (userId : string) (w : World)
  (o : ClinicalRecord.t) :
  NoDup (map ClinicalRecord.id (clinicalRecords env)) ->
  In o (clinicalRecords env) ->
  ClinicalRecord.id o = RequestPredictionDto.clinicalRecordId dto ->
  ClinicalRecord.patientId o <> RequestPredictionDto.patientId dto ->
  exists msg,
    PredictionsService.requestPrediction env dto userId w
    = (Throw (NotFoundException msg), w).
Proof.
  intros Hnd Hin Hid Hother.
  rewrite requestPrediction_run. cbn zeta.
  destruct (find _ (patients env)); [|eexists; reflexivity].
  destruct (Repository.findOne_clinicalRecord env
              (RequestPredictionDto.clinicalRecordId dto)
              (RequestPredictionDto.patientId dto)) as [cr|] eqn:E;
    [|eexists; reflexivity].
  exfalso. unfold Repository.findOne_clinicalRecord in E.
  apply find_some in E. destruct E as [Hcr Hb].
  apply andb_true_iff in Hb. destruct Hb as [Hb1 Hb2].
  apply String.eqb_eq in Hb1, Hb2.
  assert (cr = o) as ->.
  { apply (NoDup_map_eq ClinicalRecord.id (clinicalRecords env)); auto.
    congruence. }
  contradiction.
Qed.

Lemma requestPrediction_foreign_record_not_found_witness :
  exists msg,
    PredictionsService.requestPrediction
      (Scenario.replies 0.82 "HIGH" "id-1" 1)
      {| RequestPredictionDto.patientId := "pat-1";
         RequestPredictionDto.clinicalRecordId := "rec-2";
         RequestPredictionDto.predictionType := DIABETES_RISK |}
      "user-1" Scenario.fresh
    = (Throw (NotFoundException msg), Scenario.fresh).
Proof.
  apply (requestPrediction_foreign_record_not_found
           (Scenario.replies 0.82 "HIGH" "id-1" 1)
           {| RequestPredictionDto.patientId := "pat-1";
              RequestPredictionDto.clinicalRecordId := "rec-2";
              RequestPredictionDto.predictionType := DIABETES_RISK |}
           "user-1" Scenario.fresh Scenario.foreign).
  - cbn. constructor; [|constructor; [|constructor]].
    + intros [H | []]. discriminate H.
    + intros [].
  - right. left. reflexivity.
  - reflexivity.
  - discriminate.
Defined.

(** C7, as the code has it: a run that returns has sent exactly one
    request, whose feature vector is the mapping of the clinical record
    the prediction refers to; the entity it returns carries this vector
    and the score of the remote answer unchanged; the row that the table
    holds carries the same vector and the score rounded to four decimals
    by its column, so at most 0.00005 away from the remote score, and
    equal to it whenever the remote score has no more than four
    decimals. *)
Theorem requestPrediction_embeds_features_and_score
  (env : Env) (dto : RequestPredictionDto.t) (userId : string)
  (w w' : World) (p : Prediction.t) :
  PredictionsService.requestPrediction env dto userId w = (Ok p, w') ->
  exists cr data score row,
    In cr (clinicalRecords env)
    /\ ClinicalRecord.id cr = Prediction.clinicalRecordId p
    /\ ClinicalRecord.patientId cr = Prediction.patientId p
    /\ sent w'
       = sent w
         ++ [POST_predict
               (PredictionType_value (Prediction.predictionType p))
               (PredictionsService.prepareFeatures cr)]
    /\ post_predict env
         (PredictionType_value (Prediction.predictionType p))
         (PredictionsService.prepareFeatures cr) = Resolved (Some data)
    /\ prop MLPredictionResponse.risk_score data = Value score
    /\ Prediction.riskScore p = score
    /\ Prediction.featuresUsed p = PredictionsService.prepareFeatures cr
    /\ predictions w' = predictions w ++ [row]
    /\ Prediction.id row = Prediction.id p
    /\ Prediction.clinicalRecordId row = Prediction.clinicalRecordId p
    /\ Prediction.featuresUsed row = PredictionsService.prepareFeatures cr
    /\ Prediction.riskScore row = Repository.round4 score
    /\ (Qabs (score - Prediction.riskScore row) <= 1 # 20000)%Q
    /\ (forall z : Z, (score == z # 10000)%Q ->
                      (Prediction.riskScore row == score)%Q).
Proof.
  intros H. apply requestPrediction_Ok_inv in H.
  destruct H as (cr & data & Hcr & Hpost & Hsaved & Hstore & Hsent).
  apply saved_entity_Some_inv in Hsaved.
  destruct Hsaved as (Hs & _ & _ & _ & _ & _ & Hp).
  exists cr, data, (Prediction.riskScore p), (Repository.stored p).
  unfold Repository.findOne_clinicalRecord in Hcr.
  apply find_some in Hcr. destruct Hcr as [Hin Hb].
  apply andb_true_iff in Hb. destruct Hb as [Hb1 Hb2].
  apply String.eqb_eq in Hb1, Hb2.
  assert (Hcid : Prediction.clinicalRecordId p
                 = RequestPredictionDto.clinicalRecordId dto)
    by (rewrite Hp; reflexivity).
  assert (Hpid : Prediction.patientId p = RequestPredictionDto.patientId dto)
    by (rewrite Hp; reflexivity).
  assert (Hty : Prediction.predictionType p
                = RequestPredictionDto.predictionType dto)
    by (rewrite Hp; reflexivity).
  assert (Hfe : Prediction.featuresUsed p
                = PredictionsService.prepareFeatures cr)
    by (rewrite Hp; reflexivity).
  rewrite Hcid, Hpid, Hty.
  repeat (split; [assumption || reflexivity|]).
  cbn [Repository.stored Prediction.riskScore].
  split.
  - destruct (round4_close (Prediction.riskScore p)) as (k & -> & Hk).
    exact Hk.
  - intros z Hz. rewrite Hz at 2. apply round4_of_four_decimals. exact Hz.
Qed.

Lemma requestPrediction_embeds_features_and_score_witness :
  let env := Scenario.replies 0.82 "HIGH" "id-1" 1 in
  let p := Scenario.entity 0.82 "HIGH" "id-1" 1 "user-1" in
  exists cr data score row,
    In cr (clinicalRecords env)
    /\ ClinicalRecord.id cr = Prediction.clinicalRecordId p
    /\ ClinicalRecord.patientId cr = Prediction.patientId p
    /\ [POST_predict "READMISSION_RISK"
          (PredictionsService.prepareFeatures Scenario.observation)]
       = sent Scenario.fresh
         ++ [POST_predict
               (PredictionType_value (Prediction.predictionType p))
               (PredictionsService.prepareFeatures cr)]
    /\ post_predict env
         (PredictionType_value (Prediction.predictionType p))
         (PredictionsService.prepareFeatures cr) = Resolved (Some data)
    /\ prop MLPredictionResponse.risk_score data = Value score
    /\ Prediction.riskScore p = score
    /\ Prediction.featuresUsed p = PredictionsService.prepareFeatures cr
    /\ [Repository.stored p] = predictions Scenario.fresh ++ [row]
    /\ Prediction.id row = Prediction.id p
    /\ Prediction.clinicalRecordId row = Prediction.clinicalRecordId p
    /\ Prediction.featuresUsed row = PredictionsService.prepareFeatures cr
    /\ Prediction.riskScore row = Repository.round4 score
    /\ (Qabs (score - Prediction.riskScore row) <= 1 # 20000)%Q
    /\ (forall z : Z, (score == z # 10000)%Q ->
                      (Prediction.riskScore row == score)%Q).
Proof.
  cbn zeta.
  apply (requestPrediction_embeds_features_and_score
           (Scenario.replies 0.82 "HIGH" "id-1" 1) Scenario.dto "user-1"
           Scenario.fresh
           {| predictions :=
                [Repository.stored
                   (Scenario.entity 0.82 "HIGH" "id-1" 1 "user-1")];
              sent :=
                [POST_predict "READMISSION_RISK"
                   (PredictionsService.prepareFeatures Scenario.observation)] |}
           (Scenario.entity 0.82 "HIGH" "id-1" 1 "user-1")).
  vm_compute. reflexivity.
Defined.

(** C7 as stated fails: the table does not hold the remote score
    unchanged.  A remote score of 0.123456 is stored as 0.1235. *)
Lemma requestPrediction_score_rounded_in_store :
  ~ (forall (score : Q) (band id : string) (time : Z) (w w' : World)
       (p row : Prediction.t),
       PredictionsService.requestPrediction
         (Scenario.replies score band id time) Scenario.dto "user-1" w
       = (Ok p, w') ->
       In row (predictions w') ->
       Prediction.id row = id ->
       (Prediction.riskScore row == score)%Q).
Proof.
  intros H.
  specialize (H 0.123456 "LOW" "id-1" 1%Z Scenario.fresh _ _
                (Repository.stored
                   (Scenario.entity 0.123456 "LOW" "id-1" 1 "user-1"))
                eq_refl (or_introl eq_refl) eq_refl).
  vm_compute in H. discriminate H.
Qed.

(** The row of that run: the score in the table is 0.1235, the entity
    handed back to the caller still carries 0.123456. *)
Example requestPrediction_score_0_123456 :
  exists p row,
    PredictionsService.requestPrediction
      (Scenario.replies 0.123456 "LOW" "id-1" 1) Scenario.dto "user-1"
      Scenario.fresh
    = (Ok p,
       {| predictions := [row];
          sent := [POST_predict "READMISSION_RISK"
                     (PredictionsService.prepareFeatures
                        Scenario.observation)] |})
    /\ Prediction.riskScore p = 0.123456
    /\ (Prediction.riskScore row == 0.1235)%Q.
Proof.
  eexists. eexists. split; [vm_compute; reflexivity|].
  split; vm_compute; reflexivity.
Qed.

(** ** The band that is stored *)

(** A run on an answer that the database accepts. *)
Lemma requestPrediction_accepted (env : Env) (dto : RequestPredictionDto.t)
  (userId : string) (w : World) (q : Patient.t) (cr : ClinicalRecord.t)
  (o : MLPredictionResponse.t) (score : Q) (band version algorithm : string) :
  In q (patients env) ->
  Patient.id q = RequestPredictionDto.patientId dto ->
  NoDup (map ClinicalRecord.id (clinicalRecords env)) ->
  In cr (clinicalRecords env) ->
  ClinicalRecord.id cr = RequestPredictionDto.clinicalRecordId dto ->
  ClinicalRecord.patientId cr = RequestPredictionDto.patientId dto ->
  post_predict env
    (PredictionType_value (RequestPredictionDto.predictionType dto))
    (PredictionsService.prepareFeatures cr)
  = Resolved (Some (ObjectBody o)) ->
  MLPredictionResponse.risk_score o = Value score ->
  MLPredictionResponse.risk_level o = Value band ->
  MLPredictionResponse.model_version o = Value version ->
  MLPredictionResponse.model_algorithm o = Value algorithm ->
  (Qabs (Repository.round4 score) < 10)%Q ->
  Repository.risk_level_enum band = true ->
  (String.length version <= 50)%nat ->
  (String.length algorithm <= 50)%nat ->
  (forall ms, MLPredictionResponse.processing_time_ms o = Value ms ->
              Repository.int4 ms = true) ->
  exists p row,
    PredictionsService.requestPrediction env dto userId w
    = (Ok p,
       {| predictions := predictions w ++ [row];
          sent := sent w
            ++ [POST_predict
                  (PredictionType_value
                     (RequestPredictionDto.predictionType dto))
                  (PredictionsService.prepareFeatures cr)] |})
    /\ Prediction.id p = uuid env
    /\ Prediction.createdAt p = now env
    /\ Prediction.patientId p = RequestPredictionDto.patientId dto
    /\ Prediction.clinicalRecordId p
       = RequestPredictionDto.clinicalRecordId dto
    /\ Prediction.predictionType p = RequestPredictionDto.predictionType dto
    /\ Prediction.requestedById p = userId
    /\ Prediction.featuresUsed p = PredictionsService.prepareFeatures cr
    /\ Prediction.riskScore p = score
    /\ Prediction.riskLevel p = band
    /\ Prediction.modelVersion p = version
    /\ Prediction.modelAlgorithm p = algorithm
    /\ Prediction.featureImportance p
       = nullish (MLPredictionResponse.feature_importance o) Null
    /\ Prediction.processingTimeMs p
       = nullish (MLPredictionResponse.processing_time_ms o) Null
    /\ row = {| Prediction.id := Prediction.id p;
                Prediction.patientId := Prediction.patientId p;
                Prediction.clinicalRecordId := Prediction.clinicalRecordId p;
                Prediction.predictionType := Prediction.predictionType p;
                Prediction.riskScore := Repository.round4 score;
                Prediction.riskLevel := Prediction.riskLevel p;
                Prediction.modelVersion := Prediction.modelVersion p;
                Prediction.modelAlgorithm := Prediction.modelAlgorithm p;
                Prediction.featuresUsed := Prediction.featuresUsed p;
                Prediction.featureImportance := Prediction.featureImportance p;
                Prediction.processingTimeMs := Prediction.processingTimeMs p;
                Prediction.requestedById := Prediction.requestedById p;
                Prediction.createdAt := Prediction.createdAt p |}.
Proof.
  intros Hq Hqid Hnd Hcr Hid Hpid Hpost Hs Hb Hv Ha Hfit Henum Hlv Hla Hms.
  destruct (find_In_Some
              (fun r => String.eqb (ClinicalRecord.id r)
                          (RequestPredictionDto.clinicalRecordId dto)
                        && String.eqb (ClinicalRecord.patientId r)
                             (RequestPredictionDto.patientId dto))
              (clinicalRecords env) cr Hcr) as [cr' Hfind].
  { rewrite Hid, Hpid, !String.eqb_refl. reflexivity. }
  assert (cr' = cr) as ->.
  { pose proof (find_some _ _ Hfind) as [Hin' Hb'].
    apply andb_true_iff in Hb'. destruct Hb' as [Hb' _].
    apply String.eqb_eq in Hb'.
    apply (NoDup_map_eq ClinicalRecord.id (clinicalRecords env)); auto.
    congruence. }
  eexists. eexists.
  rewrite (requestPrediction_resolved env dto userId w q cr (ObjectBody o)
             Hq Hqid Hfind Hpost).
  rewrite (saved_entity_Some env (built dto userId cr (ObjectBody o))
             score band version algorithm Hs Hb Hv Ha Hfit Henum Hlv Hla Hms).
  split; [reflexivity|].
  cbn. repeat (split; [reflexivity|]).
  unfold Repository.stored. cbn.
  rewrite (substring_all 50 version Hlv), (substring_all 50 algorithm Hla).
  reflexivity.
Qed.


(** A run of the scenario on an answer that the database accepts. *)
Lemma requestPrediction_replies (score : Q) (band id userId : string)
  (time : Z) (w : World) :
  Repository.risk_level_enum band = true ->
  (Qabs (Repository.round4 score) < 10)%Q ->
  PredictionsService.requestPrediction
    (Scenario.replies score band id time) Scenario.dto userId w
  = (Ok (Scenario.entity score band id time userId),
     {| predictions :=
          predictions w
          ++ [Repository.stored (Scenario.entity score band id time userId)];
        sent :=
          sent w
          ++ [POST_predict "READMISSION_RISK"
                (PredictionsService.prepareFeatures Scenario.observation)] |}).
Proof.
  intros Hband Hfit.
  rewrite (requestPrediction_resolved
             (Scenario.replies score band id time) Scenario.dto userId w
             (Patient.mk "pat-1") Scenario.observation
             (ObjectBody (Scenario.answer score band))
             (or_introl eq_refl) eq_refl eq_refl eq_refl).
  rewrite (saved_entity_Some (Scenario.replies score band id time)
             (built Scenario.dto userId Scenario.observation
                (ObjectBody (Scenario.answer score band)))
             score band "1.0.0" "logistic_regression"
             eq_refl eq_refl eq_refl eq_refl Hfit Hband).
  - reflexivity.
  - cbn. lia.
  - cbn. lia.
  - intros ms Hms. cbn in Hms. inversion Hms. reflexivity.
Qed.

(** C1: the failing run.  The remote service answers with score 0.82 and
    band LOW.  The run returns; the one row of the table carries score
    0.82 and band LOW, the band of the answer, while the band that the
    thresholds give for the stored score is HIGH. *)
Theorem requestPrediction_stores_remote_band :
  let p := Scenario.entity 0.82 "LOW" "id-1" 1 "user-1" in
  let row := Repository.stored p in
  PredictionsService.requestPrediction
    (Scenario.replies 0.82 "LOW" "id-1" 1) Scenario.dto "user-1"
    Scenario.fresh
  = (Ok p,
     {| predictions := [row];
        sent := [POST_predict "READMISSION_RISK"
                   (PredictionsService.prepareFeatures
                      Scenario.observation)] |})
  /\ Prediction.riskLevel p = RiskLevel_value LOW
  /\ Prediction.riskLevel row = RiskLevel_value LOW
  /\ (Prediction.riskScore row == 0.82)%Q
  /\ ModelService.risk_level (Prediction.riskScore row) = HIGH
  /\ RiskLevel_value (ModelService.risk_level (Prediction.riskScore row))
     <> Prediction.riskLevel row.
Proof.
  cbn zeta.
  split; [vm_compute; reflexivity|].
  split; [reflexivity|].
  split; [reflexivity|].
  split; [vm_compute; reflexivity|].
  split; [vm_compute; reflexivity|].
  vm_compute. discriminate.
Qed.

(** The band of every accepted answer is stored as it comes, whatever the
    score: the backend classifies nothing itself. *)
Lemma requestPrediction_band_taken_from_answer (score : Q)
  (band id userId : string) (time : Z) (w : World) :
  Repository.risk_level_enum band = true ->
  (Qabs (Repository.round4 score) < 10)%Q ->
  exists p row,
    PredictionsService.requestPrediction
      (Scenario.replies score band id time) Scenario.dto userId w
    = (Ok p,
       {| predictions := predictions w ++ [row];
          sent :=
            sent w
            ++ [POST_predict "READMISSION_RISK"
                  (PredictionsService.prepareFeatures
                     Scenario.observation)] |})
    /\ Prediction.riskLevel p = band
    /\ Prediction.riskLevel row = band.
Proof.
  intros Hband Hfit. eexists. eexists.
  split; [apply requestPrediction_replies; assumption|].
  split; reflexivity.
Qed.

(** The second scenario: a remote answer of score 0.25 and band LOW is
    stored with band LOW, which is also the band of the thresholds. *)
Example requestPrediction_score_025_low :
  exists p w',
    PredictionsService.requestPrediction
      (Scenario.replies 0.25 "LOW" "id-1" 1) Scenario.dto "user-1"
      Scenario.fresh = (Ok p, w')
    /\ Prediction.riskLevel p = RiskLevel_value LOW
    /\ ModelService.risk_level (Prediction.riskScore p) = LOW.
Proof.
  eexists. eexists. split; [vm_compute; reflexivity|]. split; reflexivity.
Qed.

(** ** The band of a score *)






(** The thresholds are the doubles, not the decimal fractions: the double
    of the literal 0.3 lies below 3/10 and is classified MEDIUM, the
    double of 0.7 lies below 7/10 and is classified HIGH. *)
Example risk_level_at_the_doubles :
  (ModelService.double_0_3 < 3 # 10)%Q
  /\ ModelService.risk_level ModelService.double_0_3 = MEDIUM
  /\ (ModelService.double_0_7 < 7 # 10)%Q
  /\ ModelService.risk_level ModelService.double_0_7 = HIGH.
Proof.
  repeat split; reflexivity.
Qed.

(** ** Ordering of the rows *)

Lemma insert_desc_perm (p : Prediction.t) (l : list Prediction.t) :
  Permutation (p :: l) (Repository.insert_desc p l).
Proof.
  induction l as [|q rest IH]; cbn; [apply Permutation_refl|].
  destruct (Prediction.createdAt q <? Prediction.createdAt p)%Z.
  - apply Permutation_refl.
  - eapply perm_trans; [apply perm_swap|]. now apply perm_skip.
Qed.

Lemma order_createdAt_desc_perm (l : list Prediction.t) :
  Permutation l (Repository.order_createdAt_desc l).
Proof.
  induction l as [|p rest IH]; cbn; [apply perm_nil|].
  eapply perm_trans; [apply perm_skip, IH|]. apply insert_desc_perm.
Qed.

Lemma insert_desc_sorted (p : Prediction.t) (l : list Prediction.t) :
  newest_first l -> newest_first (Repository.insert_desc p l).
Proof.
  unfold newest_first. induction l as [|q rest IH]; cbn; intros Hs.
  - constructor; constructor.
  - inversion Hs as [|? ? Hrest Hall]; subst.
    destruct (Prediction.createdAt q <? Prediction.createdAt p)%Z eqn:E.
    + apply Z.ltb_lt in E. constructor; [exact Hs|].
      constructor; [lia|].
      eapply Forall_impl; [|exact Hall]. cbn. intros a Ha. lia.
    + apply Z.ltb_ge in E. constructor; [now apply IH|].
      apply (Permutation_Forall (insert_desc_perm p rest)).
      constructor; assumption.
Qed.

Lemma order_createdAt_desc_sorted (l : list Prediction.t) :
  newest_first (Repository.order_createdAt_desc l).
Proof.
  induction l as [|p rest IH]; cbn; [constructor|].
  now apply insert_desc_sorted.
Qed.

Lemma order_createdAt_desc_length (l : list Prediction.t) :
  List.length (Repository.order_createdAt_desc l) = List.length l.
Proof.
  symmetry. apply Permutation_length, order_createdAt_desc_perm.
Qed.

(** ** The prediction table under the controller *)

Lemma requestPrediction_store (env : Env) (dto : RequestPredictionDto.t)
  (userId : string) (w : World) :
  exists added,
    predictions (snd (PredictionsService.requestPrediction env dto userId w))
    = predictions w ++ added.
Proof.
  destruct (PredictionsService.requestPrediction env dto userId w)
    as [[p|e] w'] eqn:E.
  - apply requestPrediction_Ok_inv in E. cbn zeta in E.
    destruct E as (cr & data & _ & _ & _ & Hstore & _).
    exists [Repository.stored p]. exact Hstore.
  - apply requestPrediction_Throw_store in E.
    exists []. cbn. rewrite E. symmetry. apply app_nil_r.
Qed.

Lemma try_catch_http_store {A : Type} (req : Outbound) (o : HttpOutcome A)
  (handler : Thrown -> M A) (w : World) :
  (forall e w0, predictions (snd (handler e w0)) = predictions w0) ->
  predictions (snd (try_catch (await_http req o) handler w)) = predictions w.
Proof.
  intros Hh. run_monad. destruct o; cbn; [reflexivity|]. now rewrite Hh.
Qed.

Lemma handleMLServiceError_store {A : Type} (e : Thrown) (w : World) :
  predictions (snd (@MLServiceClient.handleMLServiceError A e w))
  = predictions w.
Proof.
  destruct (@handleMLServiceError_throws A e w) as [msg ->]. reflexivity.
Qed.

(** One call of a route keeps every row and can only add rows after them. *)
Lemma dispatch_store (env : Env) (r : PredictionsController.Route) (w : World) :
  exists added,
    predictions (snd (PredictionsController.dispatch env r w))
    = predictions w ++ added.
Proof.
  destruct r as [dto user_id | page limit | | | | patientId | id]; cbn.
  - unfold PredictionsController.requestPrediction. unfold bind at 1.
    destruct (requestPrediction_store env dto user_id w) as [added H].
    destruct (PredictionsService.requestPrediction env dto user_id w)
      as [[p|e] w']; exists added; exact H.
  - exists []. rewrite app_nil_r.
    unfold PredictionsController.findAll, PredictionsService.findAll.
    run_monad. cbn.
    destruct (Repository.skip_take _ _ _); reflexivity.
  - exists []. rewrite app_nil_r. reflexivity.
  - exists []. rewrite app_nil_r.
    unfold PredictionsController.checkMLHealth,
      PredictionsService.checkMLServiceHealth, MLServiceClient.healthCheck.
    unfold bind at 1.
    pose proof (try_catch_http_store GET_health (get_health env)
      (fun _ => throw (ServiceUnavailableException
         "ML Service is not available. Please try again later.")) w
      (fun _ _ => eq_refl)) as H.
    destruct (try_catch _ _ w) as [[h|e] w']; exact H.
  - exists []. rewrite app_nil_r.
    unfold PredictionsController.getModelInfo,
      PredictionsService.getModelInfo, MLServiceClient.getModelInfo.
    unfold bind at 1.
    pose proof (try_catch_http_store GET_model_info (get_model_info env)
      (fun error => MLServiceClient.handleMLServiceError error) w
      (fun e w0 => handleMLServiceError_store e w0)) as H.
    destruct (try_catch _ _ w) as [[h|e] w']; exact H.
  - exists []. rewrite app_nil_r.
    unfold PredictionsController.getPatientHistory,
      PredictionsService.getPatientHistory, PatientsService.findById.
    run_monad. destruct (find _ (patients env)); reflexivity.
  - exists []. rewrite app_nil_r.
    unfold PredictionsController.findById, PredictionsService.findById.
    run_monad. cbn. destruct (find _ (predictions w)); reflexivity.
Qed.

(** C8: whatever sequence of controller routes is called, the prediction
    table afterwards is the table before followed by the rows added: no
    route updates or deletes a row, so a row, once stored, stays at its
    place unchanged. *)
Theorem serve_append_only (calls : list (Env * PredictionsController.Route))
  (w : World) :
  (exists added,
     predictions (PredictionsController.serve calls w)
     = predictions w ++ added) /\
  (forall i p,
     nth_error (predictions w) i = Some p ->
     nth_error (predictions (PredictionsController.serve calls w)) i = Some p).
Proof.
  assert (H : exists added,
            predictions (PredictionsController.serve calls w)
            = predictions w ++ added).
  { revert w. induction calls as [|[env r] rest IH]; intros w; cbn.
    - exists []. symmetry. apply app_nil_r.
    - destruct (IH (snd (PredictionsController.dispatch env r w)))
        as [added2 H2].
      destruct (dispatch_store env r w) as [added1 H1].
      exists (added1 ++ added2). rewrite H2, H1. symmetry. apply app_assoc. }
  split; [exact H|].
  destruct H as [added ->]. intros i p Hp.
  rewrite nth_error_app1; [exact Hp|].
  apply nth_error_Some. congruence.
Qed.

Lemma serve_append_only_witness :
  let first :=
    Repository.stored (Scenario.entity 0.25 "LOW" "id-1" 1 "user-1") in
  let w := {| predictions := [first]; sent := [] |} in
  let calls :=
    [(Scenario.replies 0.82 "HIGH" "id-2" 2,
      PredictionsController.POST_predictions Scenario.dto "user-2");
     (Scenario.replies 0 "LOW" "id-3" 3, PredictionsController.GET_statistics);
     (Scenario.replies 0 "LOW" "id-3" 3, PredictionsController.GET_ml_health);
     (Scenario.replies 0 "LOW" "id-3" 3,
      PredictionsController.GET_predictions None (Some 500%Z))] in
  nth_error (predictions (PredictionsController.serve calls w)) 0 = Some first.
Proof.
  cbn zeta.
  apply (serve_append_only _ {| predictions := _; sent := [] |}).
  reflexivity.
Defined.

(** ** Statistics *)

Lemma group_count_In (keys : list string) (k : string) (n : nat) :
  In (k, n) (Repository.group_count keys)
  <-> In k keys /\ n = count_occ string_dec keys k.
Proof.
  unfold Repository.group_count. rewrite in_map_iff. split.
  - intros (x & Heq & Hin). inversion Heq; subst.
    apply nodup_In in Hin. split; [assumption|reflexivity].
  - intros (Hin & ->). exists k. split; [reflexivity|].
    apply nodup_In. assumption.
Qed.

Lemma group_count_keys (keys : list string) :
  map fst (Repository.group_count keys) = nodup string_dec keys.
Proof.
  unfold Repository.group_count. rewrite map_map. cbn. apply map_id.
Qed.

(** The grouping of any table: one row per band that occurs, with the
    number of stored predictions of that band; the counts are read from the
    table. *)
Lemma getStatistics_run (w : World) :
  exists s,
    PredictionsService.getStatistics w = (Ok s, w)
    /\ PredictionsService.stat_total s = List.length (predictions w)
    /\ PredictionsService.byRiskLevel s
       = Repository.group_count (map Prediction.riskLevel (predictions w))
    /\ PredictionsService.highRiskCount s
       = count_occ string_dec (map Prediction.riskLevel (predictions w)) "HIGH".
Proof.
  eexists. unfold PredictionsService.getStatistics. run_monad. cbn.
  repeat split.
Qed.

(** C9: the statistics are computed from the table at the time of the
    call.  For every table: the total is the number of stored predictions;
    the band rows are exactly the bands that occur among them, each once,
    with the number of stored predictions of that band, so a band without
    predictions has no row; the high-risk count is the number of stored
    predictions of band HIGH; reading changes nothing.  Hence with exactly
    three stored predictions, of bands LOW, HIGH and HIGH in any order:
    total 3, the rows LOW: 1 and HIGH: 2, no row for MEDIUM, and a
    high-risk count of 2. *)
Theorem getStatistics_three_bands (w : World) :
  exists s,
    PredictionsService.getStatistics w = (Ok s, w)
    /\ PredictionsService.stat_total s = List.length (predictions w)
    /\ (forall k n,
          In (k, n) (PredictionsService.byRiskLevel s)
          <-> In k (map Prediction.riskLevel (predictions w))
              /\ n = count_occ string_dec
                       (map Prediction.riskLevel (predictions w)) k)
    /\ (forall k n,
          In (k, n) (PredictionsService.byRiskLevel s) -> (1 <= n)%nat)
    /\ NoDup (map fst (PredictionsService.byRiskLevel s))
    /\ PredictionsService.highRiskCount s
       = count_occ string_dec
           (map Prediction.riskLevel (predictions w)) "HIGH"
    /\ (forall p1 p2 p3,
          predictions w = [p1; p2; p3] ->
          Permutation (map Prediction.riskLevel [p1; p2; p3])
            ["LOW"; "HIGH"; "HIGH"] ->
          PredictionsService.stat_total s = 3%nat
          /\ (forall k n,
                In (k, n) (PredictionsService.byRiskLevel s)
                <-> (k = "LOW" /\ n = 1%nat) \/ (k = "HIGH" /\ n = 2%nat))
          /\ (forall n, ~ In ("MEDIUM", n) (PredictionsService.byRiskLevel s))
          /\ PredictionsService.highRiskCount s = 2%nat).
Proof.
  destruct (getStatistics_run w) as (s & Hrun & Htotal & Hby & Hhigh).
  exists s.
  split; [exact Hrun|].
  split; [exact Htotal|].
  split; [intros k n; rewrite Hby; apply group_count_In|].
  split.
  { intros k n Hin. rewrite Hby in Hin. apply group_count_In in Hin.
    destruct Hin as (Hin & ->).
    apply (count_occ_In string_dec) in Hin. lia. }
  split; [rewrite Hby, group_count_keys; apply NoDup_nodup|].
  split; [exact Hhigh|].
  intros p1 p2 p3 Hw Hperm. rewrite Hw in *.
  assert (Hrows : forall k n,
            In (k, n) (PredictionsService.byRiskLevel s)
            <-> (k = "LOW" /\ n = 1%nat) \/ (k = "HIGH" /\ n = 2%nat)).
  { intros k n. rewrite Hby, group_count_In.
    rewrite (proj1 (Permutation_count_occ string_dec _ _) Hperm k).
    split.
    - intros (Hin & ->). apply (Permutation_in _ Hperm) in Hin.
      destruct Hin as [<- | [<- | [<- | []]]]; auto.
    - intros [(-> & ->) | (-> & ->)].
      + split; [|reflexivity].
        apply (Permutation_in _ (Permutation_sym Hperm)). cbn. auto.
      + split; [|reflexivity].
        apply (Permutation_in _ (Permutation_sym Hperm)). cbn. auto. }
  split; [exact Htotal|].
  split; [exact Hrows|].
  split.
  { intros n Hn. apply Hrows in Hn.
    destruct Hn as [(H & _) | (H & _)]; discriminate H. }
  rewrite Hhigh.
  rewrite (proj1 (Permutation_count_occ string_dec _ _) Hperm "HIGH").
  reflexivity.
Qed.

Lemma getStatistics_three_bands_witness :
  let w :=
    PredictionsController.serve
      [(Scenario.replies 0.82 "HIGH" "id-1" 1,
        PredictionsController.POST_predictions Scenario.dto "user-1");
       (Scenario.replies 0.25 "LOW" "id-2" 2,
        PredictionsController.POST_predictions Scenario.dto "user-1");
       (Scenario.replies 0.7 "HIGH" "id-3" 3,
        PredictionsController.POST_predictions Scenario.dto "user-2")]
      Scenario.fresh in
  exists s,
    PredictionsService.getStatistics w = (Ok s, w)
    /\ PredictionsService.stat_total s = 3%nat
    /\ (forall k n,
          In (k, n) (PredictionsService.byRiskLevel s)
          <-> (k = "LOW" /\ n = 1%nat) \/ (k = "HIGH" /\ n = 2%nat))
    /\ (forall n, ~ In ("MEDIUM", n) (PredictionsService.byRiskLevel s))
    /\ PredictionsService.highRiskCount s = 2%nat.
Proof.
  cbn zeta.
  destruct (getStatistics_three_bands
              (PredictionsController.serve
                 [(Scenario.replies 0.82 "HIGH" "id-1" 1,
                   PredictionsController.POST_predictions Scenario.dto
                     "user-1");
                  (Scenario.replies 0.25 "LOW" "id-2" 2,
                   PredictionsController.POST_predictions Scenario.dto
                     "user-1");
                  (Scenario.replies 0.7 "HIGH" "id-3" 3,
                   PredictionsController.POST_predictions Scenario.dto
                     "user-2")]
                 Scenario.fresh))
    as (s & Hrun & _ & _ & _ & _ & _ & H).
  exists s. split; [exact Hrun|].
  apply (H (Repository.stored (Scenario.entity 0.82 "HIGH" "id-1" 1 "user-1"))
           (Repository.stored (Scenario.entity 0.25 "LOW" "id-2" 2 "user-1"))
           (Repository.stored (Scenario.entity 0.7 "HIGH" "id-3" 3 "user-2"))).
  - reflexivity.
  - cbn. apply perm_swap.
Defined.

(** The rows come out as the grouping lists them. *)
Example getStatistics_three_bands_rows :
  PredictionsService.byRiskLevel
    (match PredictionsService.getStatistics
             (PredictionsController.serve
                [(Scenario.replies 0.25 "LOW" "id-1" 1,
                  PredictionsController.POST_predictions Scenario.dto "user-1");
                 (Scenario.replies 0.82 "HIGH" "id-2" 2,
                  PredictionsController.POST_predictions Scenario.dto "user-1");
                 (Scenario.replies 0.7 "HIGH" "id-3" 3,
                  PredictionsController.POST_predictions Scenario.dto "user-2")]
                Scenario.fresh) with
     | (Ok s, _) => s
     | (Throw _, _) =>
         {| PredictionsService.stat_total := 0;
            PredictionsService.byRiskLevel := [];
            PredictionsService.byType := [];
            PredictionsService.highRiskCount := 0;
            PredictionsService.recentPredictions := [] |}
     end)
  = [("LOW", 1%nat); ("HIGH", 2%nat)].
Proof.
  vm_compute. reflexivity.
Qed.

(** ** Pagination *)

Lemma skip_take_Some (skip take : Z) (l : list Prediction.t) :
  (0 <= skip)%Z -> (0 <= take)%Z ->
  Repository.skip_take skip take l
  = Some (if (take =? 0)%Z then skipn (Z.to_nat skip) l
          else firstn (Z.to_nat take) (skipn (Z.to_nat skip) l)).
Proof.
  intros Hs Ht. unfold Repository.skip_take.
  destruct (Z.ltb_spec skip 0); [lia|].
  destruct (Z.ltb_spec take 0); [lia|].
  reflexivity.
Qed.

Lemma skip_take_None (skip take : Z) (l : list Prediction.t) :
  (skip < 0)%Z \/ (take < 0)%Z -> Repository.skip_take skip take l = None.
Proof.
  intros H. unfold Repository.skip_take.
  destruct (Z.ltb_spec skip 0); [reflexivity|].
  destruct (Z.ltb_spec take 0); [reflexivity|lia].
Qed.

(** What one call of the listing does. *)
Lemma findAll_run (page limit : Z) (w : World) :
  PredictionsService.findAll page limit w
  = match Repository.skip_take ((page - 1) * limit) limit
            (Repository.order_createdAt_desc (predictions w)) with
    | None => (Throw QueryFailedError, w)
    | Some rows =>
        (Ok {| PredictionsService.data := rows;
               PredictionsService.meta :=
                 {| PredictionsService.meta_page := page;
                    PredictionsService.meta_limit := limit;
                    PredictionsService.meta_total :=
                      List.length (predictions w);
                    PredictionsService.meta_totalPages :=
                      Math_ceil_div (Z.of_nat (List.length (predictions w)))
                        limit |} |}, w)
    end.
Proof.
  unfold PredictionsService.findAll. run_monad. cbn.
  destruct (Repository.skip_take _ _ _); reflexivity.
Qed.

(** C10: the failing call.  A requested limit of 0 passes the cap,
    Math.min(0, 100) being 0, and a [take] of 0 puts no LIMIT on the
    query: whatever the page, the call returns the whole table, newest
    first, in one page.  Over 150 stored predictions the page holds 150
    of them, more than 100. *)
Theorem findAll_limit_zero_returns_all (page : option Z) (w : World) :
  (exists pg,
     PredictionsController.findAll page (Some 0%Z) w = (Ok pg, w)
     /\ PredictionsService.meta_limit (PredictionsService.meta pg)
        = Z.min 0 100
     /\ PredictionsService.data pg
        = Repository.order_createdAt_desc (predictions w)
     /\ List.length (PredictionsService.data pg)
        = List.length (predictions w)) /\
  (let row := Repository.stored (Scenario.entity 0.25 "LOW" "id-1" 1 "user-1") in
   let w150 := {| predictions := repeat row 150; sent := [] |} in
   List.length
     (data_of (result_of (PredictionsController.findAll page (Some 0%Z)) w150))
   = 150%nat).
Proof.
  assert (H : forall w0,
            PredictionsController.findAll page (Some 0%Z) w0
            = (Ok {| PredictionsService.data :=
                       Repository.order_createdAt_desc (predictions w0);
                     PredictionsService.meta :=
                       {| PredictionsService.meta_page :=
                            PredictionsController.DefaultValuePipe 1 page;
                          PredictionsService.meta_limit := 0;
                          PredictionsService.meta_total :=
                            List.length (predictions w0);
                          PredictionsService.meta_totalPages :=
                            Math_ceil_div
                              (Z.of_nat (List.length (predictions w0))) 0 |} |},
               w0)).
  { intros w0. unfold PredictionsController.findAll.
    cbn [PredictionsController.DefaultValuePipe].
    change (Z.min 0 100) with 0%Z.
    rewrite findAll_run, skip_take_Some by lia.
    rewrite Z.mul_0_r. reflexivity. }
  split.
  - eexists. split; [apply H|]. cbn.
    repeat split. apply order_createdAt_desc_length.
  - cbn zeta. unfold result_of. rewrite H. cbn [fst data_of PredictionsService.data predictions].
    rewrite order_createdAt_desc_length. apply repeat_length.
Qed.

(** Where the cap holds: with a limit of at least 1, or none given, and a
    page of at least 1, or none given, the call returns, and the page
    holds at most min(limit, 100) rows. *)
Lemma findAll_positive_limit_capped (page limit : option Z) (w : World) :
  (1 <= PredictionsController.DefaultValuePipe 1 page)%Z ->
  (1 <= PredictionsController.DefaultValuePipe 20 limit)%Z ->
  exists pg,
    PredictionsController.findAll page limit w = (Ok pg, w)
    /\ PredictionsService.meta_limit (PredictionsService.meta pg)
       = Z.min (PredictionsController.DefaultValuePipe 20 limit) 100
    /\ PredictionsService.meta_page (PredictionsService.meta pg)
       = PredictionsController.DefaultValuePipe 1 page
    /\ PredictionsController.DefaultValuePipe 20 None = 20%Z
    /\ PredictionsController.DefaultValuePipe 1 None = 1%Z
    /\ (Z.of_nat (List.length (PredictionsService.data pg))
        <= PredictionsService.meta_limit (PredictionsService.meta pg))%Z
    /\ (List.length (PredictionsService.data pg) <= 100)%nat.
Proof.
  intros Hp Hl. unfold PredictionsController.findAll.
  set (p := PredictionsController.DefaultValuePipe 1 page) in *.
  set (l := Z.min (PredictionsController.DefaultValuePipe 20 limit) 100).
  assert (Hl1 : (1 <= l <= 100)%Z) by (subst l; lia).
  rewrite findAll_run, skip_take_Some by nia.
  destruct (Z.eqb_spec l 0) as [E|_]; [lia|].
  eexists. split; [reflexivity|]. cbn.
  repeat (split; [reflexivity|]).
  pose proof (firstn_le_length (Z.to_nat l)
                (skipn (Z.to_nat ((p - 1) * l))
                   (Repository.order_createdAt_desc (predictions w)))) as H.
  remember (List.length (firstn _ _)) as n eqn:Hn. clear Hn.
  split; lia.
Qed.

(** A request for 500 per page over 150 stored rows returns 100 of them. *)
Example findAll_500_over_150 :
  let row := Repository.stored (Scenario.entity 0.25 "LOW" "id-1" 1 "user-1") in
  let w := {| predictions := repeat row 150; sent := [] |} in
  match PredictionsController.findAll None (Some 500%Z) w with
  | (Ok pg, _) =>
      List.length (PredictionsService.data pg) = 100%nat
      /\ PredictionsService.meta_total (PredictionsService.meta pg) = 150%nat
      /\ PredictionsService.meta_totalPages (PredictionsService.meta pg) = Num 2
  | (Throw _, _) => False
  end.
Proof.
  vm_compute. repeat split.
Qed.

(** * Further properties of the prediction module *)

(** ** Reading the table back *)

(** X1: the history of a patient.  For a patient that is not in the patient
    table the call throws NotFoundException; for a known one it returns
    exactly the stored predictions of that patient (each as often as it is
    stored), newest first.  Either way nothing is written or sent. *)
Theorem getPatientHistory_rows_of_patient (env : Env) (patientId : string)
  (w : World) :
  ((forall q, In q (patients env) -> Patient.id q <> patientId) ->
     PredictionsService.getPatientHistory env patientId w
     = (Throw (NotFoundException
          ("Patient with ID " ++ patientId ++ " not found")), w)) /\
  (forall q, In q (patients env) -> Patient.id q = patientId ->
     exists l,
       PredictionsService.getPatientHistory env patientId w = (Ok l, w)
       /\ Permutation l
            (filter (fun p => String.eqb (Prediction.patientId p) patientId)
               (predictions w))
       /\ newest_first l
       /\ (forall p, In p l <->
             In p (predictions w) /\ Prediction.patientId p = patientId)).
Proof.
  unfold PredictionsService.getPatientHistory, PatientsService.findById.
  split.
  - intros Hnone.
    destruct (find (fun p => String.eqb (Patient.id p) patientId)
                (patients env)) as [q|] eqn:E; [|reflexivity].
    apply find_some in E. destruct E as [Hin Hb].
    apply String.eqb_eq in Hb. destruct (Hnone q Hin Hb).
  - intros q Hin Hid.
    destruct (find_In_Some (fun p => String.eqb (Patient.id p) patientId)
                (patients env) q Hin) as [q' E].
    { rewrite Hid. apply String.eqb_refl. }
    unfold bind at 1. rewrite E. cbn.
    eexists. split; [reflexivity|].
    split; [apply Permutation_sym, order_createdAt_desc_perm|].
    split; [apply order_createdAt_desc_sorted|].
    intros p. split.
    + intros Hp.
      apply (Permutation_in _
               (Permutation_sym (order_createdAt_desc_perm _))) in Hp.
      apply filter_In in Hp. destruct Hp as [Hp Hb].
      apply String.eqb_eq in Hb. auto.
    + intros [Hp Hb].
      apply (Permutation_in _ (order_createdAt_desc_perm _)).
      apply filter_In. split; [assumption|]. now apply String.eqb_eq.
Qed.

Lemma getPatientHistory_rows_of_patient_witness :
  PredictionsService.getPatientHistory
    (Scenario.replies 0.82 "HIGH" "id-1" 1) "pat-9" Scenario.fresh
  = (Throw (NotFoundException "Patient with ID pat-9 not found"),
     Scenario.fresh)
  /\ exists l,
       PredictionsService.getPatientHistory
         (Scenario.replies 0.82 "HIGH" "id-1" 1) "pat-2" Scenario.fresh
       = (Ok l, Scenario.fresh)
       /\ Permutation l
            (filter (fun p => String.eqb (Prediction.patientId p) "pat-2")
               (predictions Scenario.fresh))
       /\ newest_first l
       /\ (forall p, In p l <->
             In p (predictions Scenario.fresh)
             /\ Prediction.patientId p = "pat-2").
Proof.
  destruct (getPatientHistory_rows_of_patient
              (Scenario.replies 0.82 "HIGH" "id-1" 1) "pat-9" Scenario.fresh)
    as [H1 _].
  destruct (getPatientHistory_rows_of_patient
              (Scenario.replies 0.82 "HIGH" "id-1" 1) "pat-2" Scenario.fresh)
    as [_ H2].
  split.
  - apply H1. intros q [<- | [<- | []]]; discriminate.
  - apply (H2 (Patient.mk "pat-2")); [right; left|]; reflexivity.
Defined.

(** X2: looking a prediction up by id.  When no stored row has the id (an
    empty table included) the call throws NotFoundException naming the id;
    a call that returns gives a stored row with that id; the world is left
    as it was. *)
Theorem findById_prediction (id : string) (w : World) :
  ((forall p, In p (predictions w) -> Prediction.id p <> id) ->
     PredictionsService.findById id w
     = (Throw (NotFoundException
          ("Prediction with ID " ++ id ++ " not found")), w)) /\
  (forall p w',
     PredictionsService.findById id w = (Ok p, w') ->
     In p (predictions w) /\ Prediction.id p = id /\ w' = w) /\
  (forall p, In p (predictions w) -> Prediction.id p = id ->
     exists q, PredictionsService.findById id w = (Ok q, w)).
Proof.
  unfold PredictionsService.findById. run_monad.
  destruct (find (fun p => String.eqb (Prediction.id p) id) (predictions w))
    as [q|] eqn:E.
  - apply find_some in E. destruct E as [Hin Hb]. apply String.eqb_eq in Hb.
    split; [intros Hnone; destruct (Hnone q Hin Hb)|].
    split.
    + intros p w' H. inversion H; subst. auto.
    + intros p _ _. exists q. reflexivity.
  - split; [reflexivity|]. split; [discriminate|].
    intros p Hin Hid. apply (find_none _ _ E) in Hin.
    rewrite Hid, String.eqb_refl in Hin. discriminate.
Qed.

Lemma findById_prediction_witness :
  PredictionsService.findById "id-7" Scenario.fresh
  = (Throw (NotFoundException "Prediction with ID id-7 not found"),
     Scenario.fresh).
Proof.
  destruct (findById_prediction "id-7" Scenario.fresh) as [H _].
  apply H. intros p [].
Defined.

(** ** More on the orchestration *)

Lemma find_app_None {A : Type} (f : A -> bool) (l1 l2 : list A) :
  find f l1 = None -> find f (l1 ++ l2) = find f l2.
Proof.
  induction l1 as [|a l1 IH]; cbn; [reflexivity|].
  destruct (f a); [discriminate|exact IH].
Qed.

Lemma find_None_of_all {A : Type} (f : A -> bool) (l : list A) :
  (forall a, In a l -> f a = false) -> find f l = None.
Proof.
  intros H. destruct (find f l) as [a|] eqn:E; [|reflexivity].
  apply find_some in E. destruct E as [Hin Hf].
  rewrite (H a Hin) in Hf. discriminate.
Qed.

Lemma requestPrediction_Ok_patient (env : Env) (dto : RequestPredictionDto.t)
  (userId : string) (w w' : World) (p : Prediction.t) :
  PredictionsService.requestPrediction env dto userId w = (Ok p, w') ->
  exists q,
    find (fun x => String.eqb (Patient.id x)
                     (RequestPredictionDto.patientId dto)) (patients env)
    = Some q.
Proof.
  rewrite requestPrediction_run. cbn zeta.
  destruct (find _ (patients env)) as [q|]; [eauto|discriminate].
Qed.

(** X3: insert, then look up.  After a run that returned a prediction whose
    generated id was not yet in the table, looking that id up returns the
    row that the table holds for this prediction: the prediction with its
    score rounded to four decimals; and the history of the patient
    contains that row. *)
Theorem requestPrediction_then_lookup (env : Env)
  (dto : RequestPredictionDto.t) (userId : string) (w w' : World)
  (p : Prediction.t) :
  PredictionsService.requestPrediction env dto userId w = (Ok p, w') ->
  (forall q, In q (predictions w) -> Prediction.id q <> uuid env) ->
  PredictionsService.findById (Prediction.id p) w'
  = (Ok (Repository.stored p), w') /\
  Prediction.riskScore (Repository.stored p)
  = Repository.round4 (Prediction.riskScore p) /\
  exists l,
    PredictionsService.getPatientHistory env
      (RequestPredictionDto.patientId dto) w' = (Ok l, w')
    /\ In (Repository.stored p) l.
Proof.
  intros Hrun Hfresh.
  destruct (requestPrediction_Ok_patient _ _ _ _ _ _ Hrun) as [q Hq].
  apply requestPrediction_Ok_inv in Hrun.
  destruct Hrun as (cr & data & _ & _ & Hsaved & Hstore & _).
  apply saved_entity_Some_inv in Hsaved.
  destruct Hsaved as (_ & _ & _ & _ & _ & _ & Hp).
  assert (Hid : Prediction.id p = uuid env) by (rewrite Hp; reflexivity).
  assert (Hpid : Prediction.patientId p = RequestPredictionDto.patientId dto)
    by (rewrite Hp; reflexivity).
  split; [|split; [reflexivity|]].
  - unfold PredictionsService.findById. run_monad. rewrite Hstore.
    rewrite find_app_None.
    + cbn [find Repository.stored Prediction.id].
      rewrite String.eqb_refl. reflexivity.
    + apply find_None_of_all. intros a Ha. cbn.
      apply String.eqb_neq. rewrite Hid. exact (Hfresh a Ha).
  - unfold PredictionsService.getPatientHistory, PatientsService.findById.
    unfold bind at 1. rewrite Hq. cbn.
    eexists. split; [reflexivity|].
    apply (Permutation_in _ (order_createdAt_desc_perm _)).
    apply filter_In. split.
    + rewrite Hstore. apply in_or_app. right. left. reflexivity.
    + cbn. rewrite Hpid. apply String.eqb_refl.
Qed.

Lemma requestPrediction_then_lookup_witness :
  let env := Scenario.replies 0.123456 "LOW" "id-1" 1 in
  let p := Scenario.entity 0.123456 "LOW" "id-1" 1 "user-1" in
  let w' := {| predictions := [Repository.stored p];
               sent := [POST_predict "READMISSION_RISK"
                          (PredictionsService.prepareFeatures
                             Scenario.observation)] |} in
  PredictionsService.findById "id-1" w' = (Ok (Repository.stored p), w') /\
  Prediction.riskScore (Repository.stored p)
  = Repository.round4 (Prediction.riskScore p) /\
  exists l,
    PredictionsService.getPatientHistory env "pat-1" w' = (Ok l, w')
    /\ In (Repository.stored p) l.
Proof.
  cbn zeta.
  apply (requestPrediction_then_lookup
           (Scenario.replies 0.123456 "LOW" "id-1" 1) Scenario.dto "user-1"
           Scenario.fresh
           {| predictions :=
                [Repository.stored
                   (Scenario.entity 0.123456 "LOW" "id-1" 1 "user-1")];
              sent :=
                [POST_predict "READMISSION_RISK"
                   (PredictionsService.prepareFeatures
                      Scenario.observation)] |}
           (Scenario.entity 0.123456 "LOW" "id-1" 1 "user-1")).
  - vm_compute. reflexivity.
  - intros q [].
Defined.

(** X4: a run for a patient id that is not in the patient table throws
    NotFoundException naming that id and leaves the world as it was:
    whatever the clinical record id and the remote service, nothing is
    sent and nothing is stored. *)
Theorem requestPrediction_unknown_patient (env : Env)
  (dto : RequestPredictionDto.t) (userId : string) (w : World) :
  (forall q, In q (patients env) ->
     Patient.id q <> RequestPredictionDto.patientId dto) ->
  PredictionsService.requestPrediction env dto userId w
  = (Throw (NotFoundException
       ("Patient with ID " ++ RequestPredictionDto.patientId dto
          ++ " not found")), w).
Proof.
  intros Hnone. rewrite requestPrediction_run. cbn zeta.
  rewrite find_None_of_all; [reflexivity|].
  intros a Ha. apply String.eqb_neq. exact (Hnone a Ha).
Qed.

Lemma requestPrediction_unknown_patient_witness :
  PredictionsService.requestPrediction
    (Scenario.replies 0.82 "HIGH" "id-1" 1)
    {| RequestPredictionDto.patientId := "pat-9";
       RequestPredictionDto.clinicalRecordId := "rec-1";
       RequestPredictionDto.predictionType := READMISSION_RISK |}
    "user-1" Scenario.fresh
  = (Throw (NotFoundException "Patient with ID pat-9 not found"),
     Scenario.fresh).
Proof.
  apply (requestPrediction_unknown_patient
           (Scenario.replies 0.82 "HIGH" "id-1" 1)
           {| RequestPredictionDto.patientId := "pat-9";
              RequestPredictionDto.clinicalRecordId := "rec-1";
              RequestPredictionDto.predictionType := READMISSION_RISK |}).
  intros q [<- | [<- | []]]; discriminate.
Defined.

(** X5: a run returns whenever the patient exists, the clinical record
    exists and belongs to that patient, and the remote service answers with
    an object that carries score, band, model version and algorithm which
    the database accepts: a band of the enum, a score that rounds to less
    than 10 in absolute value, strings of at most 50 characters, and a
    processing time, if any, that is a 32-bit integer.  The run sends one
    request and appends one row.  The prediction returned refers to the
    patient, the record and the requesting user, carries the generated id
    and timestamp, the feature vector of the record, and score, band,
    model version and algorithm of the answer; importance map and
    processing time are those of the answer, null when the answer has
    none.  The row appended is this prediction with its score rounded to
    four decimals.  Record ids are primary keys. *)
Theorem requestPrediction_succeeds (env : Env) (dto : RequestPredictionDto.t)
  (userId : string) (w : World) (q : Patient.t) (cr : ClinicalRecord.t)
  (o : MLPredictionResponse.t) (score : Q) (band version algorithm : string) :
  In q (patients env) ->
  Patient.id q = RequestPredictionDto.patientId dto ->
  NoDup (map ClinicalRecord.id (clinicalRecords env)) ->
  In cr (clinicalRecords env) ->
  ClinicalRecord.id cr = RequestPredictionDto.clinicalRecordId dto ->
  ClinicalRecord.patientId cr = RequestPredictionDto.patientId dto ->
  post_predict env
    (PredictionType_value (RequestPredictionDto.predictionType dto))
    (PredictionsService.prepareFeatures cr)
  = Resolved (Some (ObjectBody o)) ->
  MLPredictionResponse.risk_score o = Value score ->
  MLPredictionResponse.risk_level o = Value band ->
  MLPredictionResponse.model_version o = Value version ->
  MLPredictionResponse.model_algorithm o = Value algorithm ->
  (Qabs (Repository.round4 score) < 10)%Q ->
  Repository.risk_level_enum band = true ->
  (String.length version <= 50)%nat ->
  (String.length algorithm <= 50)%nat ->
  (forall ms, MLPredictionResponse.processing_time_ms o = Value ms ->
              Repository.int4 ms = true) ->
  exists p row,
    PredictionsService.requestPrediction env dto userId w
    = (Ok p,
       {| predictions := predictions w ++ [row];
          sent := sent w
            ++ [POST_predict
                  (PredictionType_value
                     (RequestPredictionDto.predictionType dto))
                  (PredictionsService.prepareFeatures cr)] |})
    /\ Prediction.id p = uuid env
    /\ Prediction.createdAt p = now env
    /\ Prediction.patientId p = RequestPredictionDto.patientId dto
    /\ Prediction.clinicalRecordId p
       = RequestPredictionDto.clinicalRecordId dto
    /\ Prediction.predictionType p = RequestPredictionDto.predictionType dto
    /\ Prediction.requestedById p = userId
    /\ Prediction.featuresUsed p = PredictionsService.prepareFeatures cr
    /\ Prediction.riskScore p = score
    /\ Prediction.riskLevel p = band
    /\ Prediction.modelVersion p = version
    /\ Prediction.modelAlgorithm p = algorithm
    /\ Prediction.featureImportance p
       = nullish (MLPredictionResponse.feature_importance o) Null
    /\ Prediction.processingTimeMs p
       = nullish (MLPredictionResponse.processing_time_ms o) Null
    /\ row = {| Prediction.id := Prediction.id p;
                Prediction.patientId := Prediction.patientId p;
                Prediction.clinicalRecordId := Prediction.clinicalRecordId p;
                Prediction.predictionType := Prediction.predictionType p;
                Prediction.riskScore := Repository.round4 score;
                Prediction.riskLevel := Prediction.riskLevel p;
                Prediction.modelVersion := Prediction.modelVersion p;
                Prediction.modelAlgorithm := Prediction.modelAlgorithm p;
                Prediction.featuresUsed := Prediction.featuresUsed p;
                Prediction.featureImportance := Prediction.featureImportance p;
                Prediction.processingTimeMs := Prediction.processingTimeMs p;
                Prediction.requestedById := Prediction.requestedById p;
                Prediction.createdAt := Prediction.createdAt p |}.
Proof.
  exact (requestPrediction_accepted env dto userId w q cr o score band
           version algorithm).
Qed.

Lemma requestPrediction_succeeds_witness :
  exists p row,
    PredictionsService.requestPrediction
      (Scenario.replies 0.25 "LOW" "id-4" 9) Scenario.dto "user-3"
      Scenario.fresh
    = (Ok p,
       {| predictions := predictions Scenario.fresh ++ [row];
          sent := sent Scenario.fresh
            ++ [POST_predict
                  (PredictionType_value
                     (RequestPredictionDto.predictionType Scenario.dto))
                  (PredictionsService.prepareFeatures
                     Scenario.observation)] |})
    /\ Prediction.id p = "id-4"
    /\ Prediction.requestedById p = "user-3"
    /\ Prediction.riskLevel p = "LOW".
Proof.
  destruct (requestPrediction_succeeds
              (Scenario.replies 0.25 "LOW" "id-4" 9) Scenario.dto "user-3"
              Scenario.fresh (Patient.mk "pat-1") Scenario.observation
              (Scenario.answer 0.25 "LOW") 0.25 "LOW" "1.0.0"
              "logistic_regression")
    as (p & row & Hrun & Hid & _ & _ & _ & _ & Hby & _ & _ & Hband & _).
  - left. reflexivity.
  - reflexivity.
  - cbn. constructor; [|constructor; [|constructor]].
    + intros [H | []]. discriminate H.
    + intros [].
  - left. reflexivity.
  - reflexivity.
  - reflexivity.
  - reflexivity.
  - reflexivity.
  - reflexivity.
  - reflexivity.
  - reflexivity.
  - reflexivity.
  - reflexivity.
  - cbn. lia.
  - cbn. lia.
  - intros ms H. inversion H. reflexivity.
  - exists p, row. repeat split; assumption.
Defined.

Lemma world_app_nil (w : World) :
  {| predictions := predictions w ++ []; sent := sent w ++ [] |} = w.
Proof.
  destruct w as [ps ss]. cbn. now rewrite !app_nil_r.
Qed.

(** The message of the handler does not depend on the world. *)
Lemma handleMLServiceError_message {A : Type} (error : Thrown) :
  exists msg, forall w,
    @MLServiceClient.handleMLServiceError A error w
    = (Throw (ServiceUnavailableException msg), w).
Proof.
  destruct error as [code response | m | m | m | m |]; cbn;
    try (eexists; reflexivity).
  destruct (MLServiceClient.code_is code "ECONNREFUSED");
    [eexists; reflexivity|].
  destruct (MLServiceClient.code_is code "ETIMEDOUT");
    [eexists; reflexivity|].
  destruct response; eexists; reflexivity.
Qed.

(** The effect of a run, as a result and two lists appended. *)
Lemma requestPrediction_effect (env : Env)
  (dto : RequestPredictionDto.t) (userId : string) :
  exists r added out,
    (forall w,
       PredictionsService.requestPrediction env dto userId w
       = (r, {| predictions := predictions w ++ added;
                sent := sent w ++ out |}))
    /\ List.length added
       = match r with Ok _ => 1%nat | Throw _ => 0%nat end
    /\ (forall p, r = Ok p -> added = [Repository.stored p])
    /\ (List.length out <= 1)%nat.
Proof.
  destruct (find (fun x => String.eqb (Patient.id x)
                             (RequestPredictionDto.patientId dto))
              (patients env)) as [q|] eqn:Eq.
  2:{ eexists (Throw _), [], []. split; [|cbn; repeat split; auto; discriminate].
      intros w. rewrite requestPrediction_run. cbn zeta. rewrite Eq.
      now rewrite world_app_nil. }
  destruct (Repository.findOne_clinicalRecord env
              (RequestPredictionDto.clinicalRecordId dto)
              (RequestPredictionDto.patientId dto)) as [cr|] eqn:Ecr.
  2:{ eexists (Throw _), [], []. split; [|cbn; repeat split; auto; discriminate].
      intros w. rewrite requestPrediction_run. cbn zeta. rewrite Eq, Ecr.
      now rewrite world_app_nil. }
  destruct (post_predict env
              (PredictionType_value (RequestPredictionDto.predictionType dto))
              (PredictionsService.prepareFeatures cr)) as [[d|]|error] eqn:Ep.
  - destruct (Repository.saved_entity env (built dto userId cr d))
      as [p|] eqn:Es.
    + exists (Ok p), [Repository.stored p],
        [POST_predict
           (PredictionType_value (RequestPredictionDto.predictionType dto))
           (PredictionsService.prepareFeatures cr)].
      split; [|cbn; repeat split; auto; intros p' H; inversion H; reflexivity].
      intros w. rewrite requestPrediction_run. cbn zeta. rewrite Eq, Ecr.
      rewrite predict_run, Ep. cbn zeta. rewrite Es. reflexivity.
    + exists (Throw QueryFailedError), [],
        [POST_predict
           (PredictionType_value (RequestPredictionDto.predictionType dto))
           (PredictionsService.prepareFeatures cr)].
      split; [|cbn; repeat split; auto; discriminate].
      intros w. rewrite requestPrediction_run. cbn zeta. rewrite Eq, Ecr.
      rewrite predict_run, Ep. cbn zeta. rewrite Es.
      now rewrite app_nil_r.
  - destruct (@handleMLServiceError_message Payload
                (TypeError "Cannot read properties of null (reading 'risk_level')"))
      as [msg Hm].
    exists (Throw (ServiceUnavailableException msg)), [],
      [POST_predict
         (PredictionType_value (RequestPredictionDto.predictionType dto))
         (PredictionsService.prepareFeatures cr)].
    split; [|cbn; repeat split; auto; discriminate].
    intros w. rewrite requestPrediction_run. cbn zeta. rewrite Eq, Ecr.
    rewrite predict_run, Ep. cbn zeta. rewrite Hm.
    now rewrite app_nil_r.
  - destruct (@handleMLServiceError_message Payload error) as [msg Hm].
    exists (Throw (ServiceUnavailableException msg)), [],
      [POST_predict
         (PredictionType_value (RequestPredictionDto.predictionType dto))
         (PredictionsService.prepareFeatures cr)].
    split; [|cbn; repeat split; auto; discriminate].
    intros w. rewrite requestPrediction_run. cbn zeta. rewrite Eq, Ecr.
    rewrite predict_run, Ep. cbn zeta. rewrite Hm.
    now rewrite app_nil_r.
Qed.

(** X6: a run never reads the prediction table.  Its result and what it
    appends to the table and to the requests sent are the same from every
    world: there is no guard against a repeated request, a run that returns
    always appends exactly one row, the row that the table holds for the
    prediction returned, a run that throws appends none, and at most one
    request is sent. *)
Theorem requestPrediction_effect_same_from_every_world (env : Env)
  (dto : RequestPredictionDto.t) (userId : string) :
  exists r added out,
    (forall w,
       PredictionsService.requestPrediction env dto userId w
       = (r, {| predictions := predictions w ++ added;
                sent := sent w ++ out |}))
    /\ List.length added
       = match r with Ok _ => 1%nat | Throw _ => 0%nat end
    /\ (forall p, r = Ok p -> added = [Repository.stored p])
    /\ (List.length out <= 1)%nat.
Proof.
  exact (requestPrediction_effect env dto userId).
Qed.

(** X7: the ways a run can fail.  A run that throws either throws a
    NotFoundException, and then the world is untouched (nothing was sent);
    or throws a ServiceUnavailableException, and then the call of the
    client failed, exactly one request was sent, for the resolved record,
    and nothing was stored; or throws the QueryFailedError of an insert
    that the database refused, and then the call had resolved with a
    body, exactly one request was sent and nothing was stored.  It throws
    nothing else. *)
Theorem requestPrediction_failures (env : Env) (dto : RequestPredictionDto.t)
  (userId : string) (w w' : World) (e : Thrown) :
  PredictionsService.requestPrediction env dto userId w = (Throw e, w') ->
  (exists msg, e = NotFoundException msg /\ w' = w) \/
  (exists msg cr,
     e = ServiceUnavailableException msg
     /\ Repository.findOne_clinicalRecord env
          (RequestPredictionDto.clinicalRecordId dto)
          (RequestPredictionDto.patientId dto) = Some cr
     /\ failure
          (post_predict env
             (PredictionType_value (RequestPredictionDto.predictionType dto))
             (PredictionsService.prepareFeatures cr))
     /\ predictions w' = predictions w
     /\ sent w'
        = sent w
          ++ [POST_predict
                (PredictionType_value
                   (RequestPredictionDto.predictionType dto))
                (PredictionsService.prepareFeatures cr)]) \/
  (exists cr data,
     e = QueryFailedError
     /\ Repository.findOne_clinicalRecord env
          (RequestPredictionDto.clinicalRecordId dto)
          (RequestPredictionDto.patientId dto) = Some cr
     /\ post_predict env
          (PredictionType_value (RequestPredictionDto.predictionType dto))
          (PredictionsService.prepareFeatures cr) = Resolved (Some data)
     /\ Repository.saved_entity env (built dto userId cr data) = None
     /\ predictions w' = predictions w
     /\ sent w'
        = sent w
          ++ [POST_predict
                (PredictionType_value
                   (RequestPredictionDto.predictionType dto))
                (PredictionsService.prepareFeatures cr)]).
Proof.
  rewrite requestPrediction_run. cbn zeta.
  destruct (find _ (patients env)).
  2:{ intros H. inversion H; subst. left. eauto. }
  destruct (Repository.findOne_clinicalRecord env
              (RequestPredictionDto.clinicalRecordId dto)
              (RequestPredictionDto.patientId dto)) as [cr|].
  2:{ intros H. inversion H; subst. left. eauto. }
  pose proof (predict_world env
    (PredictionType_value (RequestPredictionDto.predictionType dto))
    (PredictionsService.prepareFeatures cr) w) as Hw.
  pose proof (predict_run env
    (PredictionType_value (RequestPredictionDto.predictionType dto))
    (PredictionsService.prepareFeatures cr) w) as Hr.
  destruct (MLServiceClient.predict env _ _ w) as [[data|e1] w1] eqn:E.
  - destruct (Repository.saved_entity env (built dto userId cr data)) eqn:Es;
      [discriminate|].
    intros H. inversion H; subst. cbn in Hw. subst w'.
    right. right. exists cr, data.
    repeat split; try reflexivity; try assumption.
    cbn zeta in Hr.
    destruct (post_predict env _ (PredictionsService.prepareFeatures cr))
      as [[d|]|error].
    + inversion Hr. reflexivity.
    + destruct (@handleMLServiceError_throws Payload
        (TypeError "Cannot read properties of null (reading 'risk_level')")
        {| predictions := predictions w;
           sent := sent w
             ++ [POST_predict
                   (PredictionType_value
                      (RequestPredictionDto.predictionType dto))
                   (PredictionsService.prepareFeatures cr)] |}) as [msg Hm].
      rewrite Hm in Hr. discriminate.
    + destruct (@handleMLServiceError_throws Payload error
        {| predictions := predictions w;
           sent := sent w
             ++ [POST_predict
                   (PredictionType_value
                      (RequestPredictionDto.predictionType dto))
                   (PredictionsService.prepareFeatures cr)] |}) as [msg Hm].
      rewrite Hm in Hr. discriminate.
  - intros H. inversion H; subst. cbn in Hw. subst w'.
    apply predict_throw_inv in E. destruct E as [Hf [msg ->]].
    right. left. exists msg, cr. repeat split; try reflexivity. exact Hf.
Qed.

Lemma requestPrediction_failures_witness :
  let env :=
    Scenario.env (Resolved (Some (ObjectBody Scenario.empty_object)))
      "id-1" 1 in
  let w' := {| predictions := [];
               sent := [POST_predict "READMISSION_RISK"
                          (PredictionsService.prepareFeatures
                             Scenario.observation)] |} in
  (exists msg, QueryFailedError = NotFoundException msg
               /\ w' = Scenario.fresh) \/
  (exists msg cr,
     QueryFailedError = ServiceUnavailableException msg
     /\ Repository.findOne_clinicalRecord env "rec-1" "pat-1" = Some cr
     /\ failure
          (post_predict env "READMISSION_RISK"
             (PredictionsService.prepareFeatures cr))
     /\ predictions w' = predictions Scenario.fresh
     /\ sent w'
        = sent Scenario.fresh
          ++ [POST_predict "READMISSION_RISK"
                (PredictionsService.prepareFeatures cr)]) \/
  (exists cr data,
     QueryFailedError = QueryFailedError
     /\ Repository.findOne_clinicalRecord env "rec-1" "pat-1" = Some cr
     /\ post_predict env "READMISSION_RISK"
          (PredictionsService.prepareFeatures cr) = Resolved (Some data)
     /\ Repository.saved_entity env
          (built Scenario.dto "user-1" cr data) = None
     /\ predictions w' = predictions Scenario.fresh
     /\ sent w'
        = sent Scenario.fresh
          ++ [POST_predict "READMISSION_RISK"
                (PredictionsService.prepareFeatures cr)]).
Proof.
  cbn zeta.
  apply (requestPrediction_failures
           (Scenario.env (Resolved (Some (ObjectBody Scenario.empty_object)))
              "id-1" 1)
           Scenario.dto "user-1" Scenario.fresh).
  vm_compute. reflexivity.
Defined.

(** ** More on the inference client *)

(** X8: the liveness probe.  [healthCheck] sends exactly one GET /health
    and writes nothing; when the call resolves it returns the body; when it
    rejects, whatever the cause (connection refused, time-out, an error
    status with a diagnostic), it throws a ServiceUnavailableException with
    one fixed message: the cause is not told apart and the diagnostic is
    not forwarded. *)
Theorem healthCheck_outcomes (env : Env) (w : World) :
  let w1 := {| predictions := predictions w;
               sent := sent w ++ [GET_health] |} in
  world_after (PredictionsService.checkMLServiceHealth env) w = w1 /\
  (forall d, get_health env = Resolved d ->
     result_of (PredictionsService.checkMLServiceHealth env) w = Ok d) /\
  (forall e, get_health env = Rejected e ->
     result_of (PredictionsService.checkMLServiceHealth env) w
     = Throw (ServiceUnavailableException
         "ML Service is not available. Please try again later.")).
Proof.
  unfold PredictionsService.checkMLServiceHealth, MLServiceClient.healthCheck.
  run_monad. cbn zeta.
  destruct (get_health env) as [d|e]; cbn.
  - split; [reflexivity|]. split; [intros d' H; congruence|discriminate].
  - split; [reflexivity|]. split; [discriminate|reflexivity].
Qed.

Lemma healthCheck_outcomes_witness :
  result_of
    (PredictionsService.checkMLServiceHealth
       (Scenario.replies 0.82 "HIGH" "id-1" 1)) Scenario.fresh
  = Throw (ServiceUnavailableException
      "ML Service is not available. Please try again later.").
Proof.
  destruct (healthCheck_outcomes (Scenario.replies 0.82 "HIGH" "id-1" 1)
              Scenario.fresh) as (_ & _ & H).
  apply (H (AxiosError (Some "ECONNREFUSED") None)). reflexivity.
Defined.

(** X9: [getModelInfo] sends exactly one GET /model-info and writes
    nothing; a resolved call returns the body; a rejected call is mapped
    like a rejected prediction call: for the same error both methods throw
    the same exception. *)
Theorem getModelInfo_outcomes (env : Env) (w : World) :
  world_after (PredictionsService.getModelInfo env) w
  = {| predictions := predictions w; sent := sent w ++ [GET_model_info] |} /\
  (forall i, get_model_info env = Resolved i ->
     result_of (PredictionsService.getModelInfo env) w = Ok i) /\
  (forall e t f, get_model_info env = Rejected e ->
     post_predict env t f = Rejected e ->
     exists msg,
       result_of (PredictionsService.getModelInfo env) w
       = Throw (ServiceUnavailableException msg)
       /\ result_of (MLServiceClient.predict env t f) w
          = Throw (ServiceUnavailableException msg)).
Proof.
  unfold PredictionsService.getModelInfo, MLServiceClient.getModelInfo.
  unfold result_of, world_after, try_catch, await_http.
  destruct (get_model_info env) as [i|e]; cbn.
  - split; [reflexivity|]. split; [intros i' H; congruence|discriminate].
  - destruct (@handleMLServiceError_throws (list (string * string)) e
                {| predictions := predictions w;
                   sent := sent w ++ [GET_model_info] |}) as [msg Hm].
    rewrite Hm. cbn. split; [reflexivity|]. split; [discriminate|].
    intros e' t f He Hp. inversion He; subst e'.
    exists msg. split; [reflexivity|].
    rewrite predict_run, Hp. cbn zeta.
    destruct (@handleMLServiceError_throws Payload e
                {| predictions := predictions w;
                   sent := sent w ++ [POST_predict t f] |}) as [msg' Hm'].
    rewrite Hm'. cbn.
    assert (msg' = msg) as ->; [|reflexivity].
    destruct e as [code response | m | m | m | m |]; cbn in Hm, Hm';
      try (inversion Hm; inversion Hm'; congruence).
    destruct (MLServiceClient.code_is code "ECONNREFUSED");
      [inversion Hm; inversion Hm'; congruence|].
    destruct (MLServiceClient.code_is code "ETIMEDOUT");
      [inversion Hm; inversion Hm'; congruence|].
    destruct response; inversion Hm; inversion Hm'; congruence.
Qed.

Lemma getModelInfo_outcomes_witness :
  result_of
    (PredictionsService.getModelInfo (Scenario.replies 0.82 "HIGH" "id-1" 1))
    Scenario.fresh
  = Ok [("algorithm", "logistic_regression")].
Proof.
  destruct (getModelInfo_outcomes (Scenario.replies 0.82 "HIGH" "id-1" 1)
              Scenario.fresh) as (_ & H & _).
  apply H. reflexivity.
Defined.

(** X10: the fall-backs of the error mapping.  An error response without a
    usable [detail] (missing, null or the empty string) gives the message
    "ML Service error: Unknown error"; an axios error with another code
    (ECONNABORTED, say) and no response, and any thrown value that is not
    an axios error, give the generic message. *)
Theorem handleMLServiceError_fallbacks (w : World) :
  (forall code r,
     MLServiceClient.code_is code "ECONNREFUSED" = false ->
     MLServiceClient.code_is code "ETIMEDOUT" = false ->
     detail r = Undefined \/ detail r = Null \/ detail r = Value "" ->
     @MLServiceClient.handleMLServiceError MLPredictionResponse.t
       (AxiosError code (Some r)) w
     = (Throw (ServiceUnavailableException "ML Service error: Unknown error"),
        w)) /\
  (forall code,
     MLServiceClient.code_is code "ECONNREFUSED" = false ->
     MLServiceClient.code_is code "ETIMEDOUT" = false ->
     @MLServiceClient.handleMLServiceError MLPredictionResponse.t
       (AxiosError code None) w
     = (Throw (ServiceUnavailableException unexpected), w)) /\
  (forall e,
     (forall code r, e <> AxiosError code r) ->
     @MLServiceClient.handleMLServiceError MLPredictionResponse.t e w
     = (Throw (ServiceUnavailableException unexpected), w)).
Proof.
  split; [|split].
  - intros code r Hc Ht Hd. cbn. rewrite Hc, Ht.
    destruct Hd as [-> | [-> | ->]]; reflexivity.
  - intros code Hc Ht. cbn. rewrite Hc, Ht. reflexivity.
  - intros e He. destruct e as [code r | m | m | m | m |]; try reflexivity.
    destruct (He code r eq_refl).
Qed.

Lemma handleMLServiceError_fallbacks_witness :
  @MLServiceClient.handleMLServiceError MLPredictionResponse.t
    (AxiosError (Some "ECONNABORTED") None) Scenario.fresh
  = (Throw (ServiceUnavailableException unexpected), Scenario.fresh)
  /\ @MLServiceClient.handleMLServiceError MLPredictionResponse.t
       (AxiosError (Some "ERR_BAD_RESPONSE")
          (Some {| status := 502; detail := Undefined |})) Scenario.fresh
     = (Throw (ServiceUnavailableException "ML Service error: Unknown error"),
        Scenario.fresh).
Proof.
  destruct (handleMLServiceError_fallbacks Scenario.fresh) as (H1 & H2 & _).
  split.
  - apply H2; reflexivity.
  - apply (H1 (Some "ERR_BAD_RESPONSE")
              {| status := 502; detail := Undefined |}); try reflexivity.
    left. reflexivity.
Defined.

(** ** More on the feature mapping and the classifier *)

Lemma SmokingStatus_value_inj (a b : SmokingStatus) :
  SmokingStatus_value a = SmokingStatus_value b -> a = b.
Proof.
  destruct a, b; cbn; intros H; try reflexivity; discriminate H.
Qed.

(** X11: what the feature vector keeps of a record.  Two records are
    mapped to the same vector exactly when they agree on age, prior
    admissions, the three flags, the smoking status, and on each optional
    measurement up to absence ([undefined] and [null] are not told apart).
    The ids of the record and of the patient do not enter the vector. *)
Theorem prepareFeatures_eq_iff (r1 r2 : ClinicalRecord.t) :
  PredictionsService.prepareFeatures r1 = PredictionsService.prepareFeatures r2
  <->
  ClinicalRecord.age r1 = ClinicalRecord.age r2
  /\ same_measurement (ClinicalRecord.bmi r1) (ClinicalRecord.bmi r2)
  /\ same_measurement (ClinicalRecord.bloodPressureSystolic r1)
       (ClinicalRecord.bloodPressureSystolic r2)
  /\ same_measurement (ClinicalRecord.bloodPressureDiastolic r1)
       (ClinicalRecord.bloodPressureDiastolic r2)
  /\ same_measurement (ClinicalRecord.glucoseLevel r1)
       (ClinicalRecord.glucoseLevel r2)
  /\ same_measurement (ClinicalRecord.cholesterol r1)
       (ClinicalRecord.cholesterol r2)
  /\ same_measurement (ClinicalRecord.hba1c r1) (ClinicalRecord.hba1c r2)
  /\ ClinicalRecord.previousAdmissions r1
     = ClinicalRecord.previousAdmissions r2
  /\ same_measurement (ClinicalRecord.lastStayDuration r1)
       (ClinicalRecord.lastStayDuration r2)
  /\ ClinicalRecord.hasDiabetes r1 = ClinicalRecord.hasDiabetes r2
  /\ ClinicalRecord.hasHypertension r1 = ClinicalRecord.hasHypertension r2
  /\ ClinicalRecord.hasHeartDisease r1 = ClinicalRecord.hasHeartDisease r2
  /\ ClinicalRecord.smokingStatus r1 = ClinicalRecord.smokingStatus r2.
Proof.
  unfold PredictionsService.prepareFeatures, same_measurement. split.
  - intros H. inversion H.
    repeat split; try assumption. now apply SmokingStatus_value_inj.
  - intros (H1 & H2 & H3 & H4 & H5 & H6 & H7 & H8 & H9 & H10 & H11 & H12 & H13).
    now rewrite H1, H2, H3, H4, H5, H6, H7, H8, H9, H10, H11, H12, H13.
Qed.

Lemma same_measurement_absent {A : Type} (x y : Nullable A) :
  absent x -> absent y -> same_measurement x y.
Proof.
  unfold same_measurement. intros Hx Hy.
  now rewrite (nullish_absent x Hx), (nullish_absent y Hy).
Qed.

Lemma same_measurement_Value {A : Type} (a : A) (y : Nullable A) :
  same_measurement (Value a) y <-> y = Value a.
Proof.
  unfold same_measurement. destruct y; cbn; split; congruence.
Qed.

(** X12: the classifier respects the order of the scores (a higher score
    never gets a lower band) and does not depend on how a rational score
    is written (equal scores, such as 3/10 and 30/100, get equal bands). *)
Theorem risk_level_monotone (s1 s2 : Q) :
  ((s1 <= s2)%Q ->
     (RiskLevel_rank (ModelService.risk_level s1)
      <= RiskLevel_rank (ModelService.risk_level s2))%nat) /\
  ((s1 == s2)%Q -> ModelService.risk_level s1 = ModelService.risk_level s2).
Proof.
  assert (Hmono : forall a b, (a <= b)%Q ->
            (RiskLevel_rank (ModelService.risk_level a)
             <= RiskLevel_rank (ModelService.risk_level b))%nat).
  { intros a b Hle. unfold ModelService.risk_level.
    destruct (ModelService.Qltb a ModelService.double_0_3) eqn:A3; [cbn; lia|].
    apply Qltb_ge in A3.
    assert (B3 : ModelService.Qltb b ModelService.double_0_3 = false).
    { apply Qltb_ge. eapply Qle_trans; eassumption. }
    rewrite B3.
    destruct (ModelService.Qltb a ModelService.double_0_7) eqn:A7;
      [destruct (ModelService.Qltb b ModelService.double_0_7); cbn; lia|].
    apply Qltb_ge in A7.
    assert (B7 : ModelService.Qltb b ModelService.double_0_7 = false).
    { apply Qltb_ge. eapply Qle_trans; eassumption. }
    rewrite B7. cbn. lia. }
  split; [apply Hmono|].
  intros Heq.
  assert (H1 := Hmono s1 s2). assert (H2 := Hmono s2 s1).
  assert (L1 : (s1 <= s2)%Q) by (rewrite Heq; apply Qle_refl).
  assert (L2 : (s2 <= s1)%Q) by (rewrite Heq; apply Qle_refl).
  specialize (H1 L1). specialize (H2 L2).
  destruct (ModelService.risk_level s1), (ModelService.risk_level s2);
    cbn in *; try reflexivity; lia.
Qed.

Lemma risk_level_monotone_witness :
  (RiskLevel_rank (ModelService.risk_level 0.25)
   <= RiskLevel_rank (ModelService.risk_level 0.82))%nat
  /\ ModelService.risk_level (3 # 10) = ModelService.risk_level (30 # 100).
Proof.
  destruct (risk_level_monotone 0.25 0.82) as [H1 _].
  destruct (risk_level_monotone (3 # 10) (30 # 100)) as [_ H2].
  split; [apply H1; discriminate|apply H2; reflexivity].
Defined.

(** ** More on pagination *)

Lemma firstn_add_skipn {A : Type} (a b : nat) (l : list A) :
  firstn (a + b) l = firstn a l ++ firstn b (skipn a l).
Proof.
  revert l. induction a as [|a IH]; intros l; [reflexivity|].
  destruct l as [|x l]; cbn.
  - now rewrite firstn_nil.
  - now rewrite IH.
Qed.

(** X13: the pages tile the table.  For a positive limit, and creation
    times that are pairwise distinct (so that the order [createdAt DESC] is
    determined), page [k] is the slice of the newest-first table that
    starts after the first [(k-1) * limit] rows, and pages 1 to [n] put one
    after the other are the first [n * limit] rows: no row is skipped and
    none is repeated; with enough pages they are the whole table. *)
Theorem findAll_pages_tile (limit : Z) (n : nat) (w : World) :
  (0 < limit)%Z ->
  NoDup (map Prediction.createdAt (predictions w)) ->
  List.concat
    (map (fun i =>
            data_of (result_of
                       (PredictionsService.findAll (Z.of_nat i + 1) limit) w))
         (seq 0 n))
  = firstn (n * Z.to_nat limit)
      (Repository.order_createdAt_desc (predictions w))
  /\ ((List.length (predictions w) <= n * Z.to_nat limit)%nat ->
      Permutation
        (List.concat
           (map (fun i =>
                   data_of (result_of
                              (PredictionsService.findAll (Z.of_nat i + 1)
                                 limit) w))
                (seq 0 n)))
        (predictions w)).
Proof.
  intros Hl _.
  assert (H : List.concat
    (map (fun i =>
            data_of (result_of
                       (PredictionsService.findAll (Z.of_nat i + 1) limit) w))
         (seq 0 n))
    = firstn (n * Z.to_nat limit)
        (Repository.order_createdAt_desc (predictions w))).
  { induction n as [|n IH]; [reflexivity|].
    rewrite seq_S, map_app, concat_app, IH. cbn [map List.concat Nat.add].
    rewrite app_nil_r. unfold result_of.
    rewrite findAll_run, skip_take_Some by nia.
    destruct (Z.eqb_spec limit 0) as [E|_]; [lia|].
    cbn [fst data_of PredictionsService.data].
    replace (Z.to_nat ((Z.of_nat n + 1 - 1) * limit))
      with (n * Z.to_nat limit)%nat by nia.
    replace (S n * Z.to_nat limit)%nat
      with (n * Z.to_nat limit + Z.to_nat limit)%nat by lia.
    symmetry. apply firstn_add_skipn. }
  split; [exact H|].
  intros Hlen. rewrite H, firstn_all2.
  - apply Permutation_sym, order_createdAt_desc_perm.
  - rewrite order_createdAt_desc_length. exact Hlen.
Qed.

Lemma findAll_pages_tile_witness :
  let row := fun t =>
    Repository.stored (Scenario.entity 0.25 "LOW" "id-1" t "user-1") in
  let w := {| predictions := [row 1%Z; row 5%Z; row 3%Z; row 2%Z; row 4%Z];
              sent := [] |} in
  List.concat
    (map (fun i =>
            data_of (result_of
                       (PredictionsService.findAll (Z.of_nat i + 1) 2) w))
         (seq 0 3))
  = [row 5%Z; row 4%Z; row 3%Z; row 2%Z; row 1%Z].
Proof.
  cbn zeta.
  destruct (findAll_pages_tile 2 3
    {| predictions :=
         map (fun t =>
                Repository.stored
                  (Scenario.entity 0.25 "LOW" "id-1" t "user-1"))
             [1%Z; 5%Z; 3%Z; 2%Z; 4%Z];
       sent := [] |}) as [H _]; [reflexivity| |].
  - cbn. repeat constructor; cbn; intuition discriminate.
  - cbn [map] in H. rewrite H. reflexivity.
Defined.




(** X15: the controller bounds the limit from above only.  A requested
    limit of at most 100, zero and negative ones included, reaches the
    listing as it is.  A negative limit makes the call throw the
    QueryFailedError of the database; with limit 0 the call returns and
    the reported page count is not a number of pages: NaN over an empty
    table, Infinity otherwise. *)
Theorem findAll_limit_not_bounded_below (page : option Z) (limit : Z)
  (w : World) :
  (limit <= 100)%Z ->
  PredictionsController.findAll page (Some limit) w
  = PredictionsService.findAll
      (PredictionsController.DefaultValuePipe 1 page) limit w /\
  ((limit < 0)%Z ->
   PredictionsController.findAll page (Some limit) w
   = (Throw QueryFailedError, w)) /\
  (limit = 0%Z ->
   exists pg,
     PredictionsController.findAll page (Some limit) w = (Ok pg, w)
     /\ PredictionsService.meta_limit (PredictionsService.meta pg) = 0%Z
     /\ PredictionsService.meta_totalPages (PredictionsService.meta pg)
        = match predictions w with [] => NaN | _ :: _ => Infinity end).
Proof.
  intros Hl. unfold PredictionsController.findAll.
  cbn [PredictionsController.DefaultValuePipe].
  replace (Z.min limit 100) with limit by lia.
  split; [reflexivity|]. split.
  - intros Hneg. rewrite findAll_run, skip_take_None; [reflexivity|].
    right. exact Hneg.
  - intros ->. rewrite findAll_run, skip_take_Some by lia.
    eexists. split; [reflexivity|]. cbn.
    split; [reflexivity|].
    destruct (predictions w); reflexivity.
Qed.

Lemma findAll_limit_not_bounded_below_witness :
  PredictionsController.findAll None (Some (-5)%Z) Scenario.fresh
  = (Throw QueryFailedError, Scenario.fresh)
  /\ exists pg,
       PredictionsController.findAll None (Some 0%Z) Scenario.fresh
       = (Ok pg, Scenario.fresh)
       /\ PredictionsService.meta_limit (PredictionsService.meta pg) = 0%Z
       /\ PredictionsService.meta_totalPages (PredictionsService.meta pg)
          = match predictions Scenario.fresh with
            | [] => NaN
            | _ :: _ => Infinity
            end.
Proof.
  destruct (findAll_limit_not_bounded_below None (-5) Scenario.fresh)
    as (_ & H1 & _); [lia|].
  destruct (findAll_limit_not_bounded_below None 0 Scenario.fresh)
    as (_ & _ & H2); [lia|].
  split; [apply H1; lia|apply H2; reflexivity].
Defined.

(** ** More on the statistics *)

Lemma list_sum_cons' (a : nat) (l : list nat) :
  list_sum (a :: l) = (a + list_sum l)%nat.
Proof.
  reflexivity.
Qed.

Lemma list_sum_map_add {A : Type} (f g : A -> nat) (l : list A) :
  list_sum (map (fun k => f k + g k)%nat l)
  = (list_sum (map f l) + list_sum (map g l))%nat.
Proof.
  induction l as [|a l IH]; [reflexivity|].
  cbn [map]. rewrite !list_sum_cons', IH. lia.
Qed.

Lemma list_sum_indicator_out (x : string) (ks : list string) :
  ~ In x ks ->
  list_sum (map (fun k => if string_dec x k then 1 else 0)%nat ks) = 0%nat.
Proof.
  induction ks as [|k ks IH]; intros Hout; [reflexivity|].
  cbn [map]. rewrite list_sum_cons', IH by (intros H; apply Hout; now right).
  destruct (string_dec x k) as [->|_]; [|reflexivity].
  destruct Hout. now left.
Qed.

Lemma list_sum_indicator_in (x : string) (ks : list string) :
  NoDup ks -> In x ks ->
  list_sum (map (fun k => if string_dec x k then 1 else 0)%nat ks) = 1%nat.
Proof.
  induction ks as [|k ks IH]; intros Hnd Hin; [destruct Hin|].
  inversion Hnd as [|? ? Hk Hks]; subst.
  cbn [map]. rewrite list_sum_cons'.
  destruct (string_dec x k) as [->|Hne].
  - now rewrite list_sum_indicator_out.
  - destruct Hin as [E|Hin]; [destruct (Hne (eq_sym E))|].
    now rewrite IH.
Qed.

Lemma count_occ_none (ks : list string) :
  list_sum (map (count_occ string_dec []) ks) = 0%nat.
Proof.
  induction ks as [|k ks IH]; [reflexivity|].
  cbn [map]. rewrite list_sum_cons', IH. reflexivity.
Qed.

Lemma count_occ_sum (l ks : list string) :
  NoDup ks -> (forall x, In x l -> In x ks) ->
  list_sum (map (count_occ string_dec l) ks) = List.length l.
Proof.
  intros Hnd. induction l as [|x l IH]; intros Hcov.
  - apply count_occ_none.
  - rewrite (map_ext (count_occ string_dec (x :: l))
               (fun k => (if string_dec x k then 1 else 0)
                         + count_occ string_dec l k)%nat).
    2:{ intros k. cbn. destruct (string_dec x k); reflexivity. }
    rewrite list_sum_map_add.
    rewrite list_sum_indicator_in by (try assumption; apply Hcov; now left).
    rewrite IH by (intros y Hy; apply Hcov; now right).
    reflexivity.
Qed.

Lemma filter_two_types (all : list Prediction.t) :
  (List.length
     (filter (fun p => PredictionType_eqb (Prediction.predictionType p)
                         READMISSION_RISK) all)
   + List.length
       (filter (fun p => PredictionType_eqb (Prediction.predictionType p)
                           DIABETES_RISK) all))%nat
  = List.length all.
Proof.
  induction all as [|p all IH]; [reflexivity|]. cbn.
  destruct (Prediction.predictionType p); cbn; lia.
Qed.

Lemma newest_first_firstn (n : nat) (l : list Prediction.t) :
  newest_first l -> newest_first (firstn n l).
Proof.
  unfold newest_first. revert n.
  induction l as [|p l IH]; intros n Hs; [now rewrite firstn_nil|].
  destruct n as [|n]; [constructor|]. cbn.
  inversion Hs as [|? ? Hl Hall]; subst.
  constructor; [now apply IH|].
  apply Forall_forall. intros x Hx.
  rewrite Forall_forall in Hall. apply Hall.
  rewrite <- (firstn_skipn n l). apply in_or_app. now left.
Qed.

(** X16: the statistics agree with each other.  The band counts add up to
    the total and each band listed has at least one prediction and is
    listed once; the high-risk count is the count of the HIGH row, or 0
    when there is no HIGH row; the counts per prediction type add up to the
    total; the recent predictions are stored rows, 10 of them or all when
    fewer are stored, newest first.  Nothing is written. *)
Theorem getStatistics_consistent (w : World) :
  exists s,
    PredictionsService.getStatistics w = (Ok s, w)
    /\ PredictionsService.stat_total s = List.length (predictions w)
    /\ list_sum (map snd (PredictionsService.byRiskLevel s))
       = PredictionsService.stat_total s
    /\ (forall k n, In (k, n) (PredictionsService.byRiskLevel s) ->
          (1 <= n)%nat)
    /\ NoDup (map fst (PredictionsService.byRiskLevel s))
    /\ ((PredictionsService.highRiskCount s = 0%nat
         /\ forall n, ~ In ("HIGH", n) (PredictionsService.byRiskLevel s))
        \/ ((1 <= PredictionsService.highRiskCount s)%nat
            /\ In ("HIGH", PredictionsService.highRiskCount s)
                 (PredictionsService.byRiskLevel s)))
    /\ list_sum (map PredictionsService.count (PredictionsService.byType s))
       = PredictionsService.stat_total s
    /\ (forall p, In p (PredictionsService.recentPredictions s) ->
          In p (predictions w))
    /\ List.length (PredictionsService.recentPredictions s)
       = Nat.min 10 (List.length (predictions w))
    /\ newest_first (PredictionsService.recentPredictions s).
Proof.
  eexists. split; [reflexivity|].
  cbn [PredictionsService.stat_total PredictionsService.byRiskLevel
       PredictionsService.byType PredictionsService.highRiskCount
       PredictionsService.recentPredictions RiskLevel_value].
  set (keys := map Prediction.riskLevel (predictions w)).
  split; [reflexivity|].
  split.
  { unfold Repository.group_count. rewrite map_map. cbn.
    rewrite count_occ_sum.
    - unfold keys. apply length_map.
    - apply NoDup_nodup.
    - intros x Hx. now apply nodup_In. }
  split.
  { intros k n Hin. apply group_count_In in Hin. destruct Hin as [Hin ->].
    apply (count_occ_In string_dec) in Hin. lia. }
  split.
  { rewrite group_count_keys. apply NoDup_nodup. }
  split.
  { destruct (count_occ string_dec keys "HIGH") as [|c] eqn:E.
    - left. split; [reflexivity|]. intros n Hin.
      apply group_count_In in Hin. destruct Hin as [Hin _].
      apply (count_occ_In string_dec) in Hin. lia.
    - right. split; [lia|]. apply group_count_In. split; [|now rewrite E].
      apply (count_occ_In string_dec). lia. }
  split.
  { unfold PredictionsService.byType_rows. cbn.
    rewrite <- (filter_two_types (predictions w)).
    destruct (filter _ (predictions w)) as [|a la];
      destruct (filter _ (predictions w)) as [|b lb]; cbn; lia. }
  split.
  { intros p Hp.
    apply (Permutation_in _
             (Permutation_sym (order_createdAt_desc_perm (predictions w)))).
    rewrite <- (firstn_skipn 10 (Repository.order_createdAt_desc
                                   (predictions w))).
    apply in_or_app. now left. }
  split; [now rewrite length_firstn, order_createdAt_desc_length|].
  apply newest_first_firstn, order_createdAt_desc_sorted.
Qed.

Lemma inject_of_nat_succ (n : nat) :
  inject_Z (Z.of_nat (S n)) = (inject_Z (Z.of_nat n) + 1)%Q.
Proof.
  rewrite Nat2Z.inj_succ, <- Z.add_1_r. apply inject_Z_plus.
Qed.

Lemma sum_scores_bounds (l : list Q) (lo hi : Q) :
  (forall q, In q l -> (lo <= q)%Q /\ (q <= hi)%Q) ->
  (inject_Z (Z.of_nat (List.length l)) * lo <= fold_right Qplus 0 l)%Q
  /\ (fold_right Qplus 0 l <= inject_Z (Z.of_nat (List.length l)) * hi)%Q.
Proof.
  induction l as [|x l IH]; intros Hb.
  - cbn. split; rewrite Qmult_0_l; apply Qle_refl.
  - destruct (Hb x (or_introl eq_refl)) as [Hlo Hhi].
    destruct IH as [IH1 IH2]; [intros q Hq; apply Hb; now right|].
    cbn [List.length fold_right]. rewrite inject_of_nat_succ. split.
    + setoid_replace ((inject_Z (Z.of_nat (List.length l)) + 1) * lo)%Q
        with (lo + inject_Z (Z.of_nat (List.length l)) * lo)%Q by ring.
      now apply Qplus_le_compat.
    + setoid_replace ((inject_Z (Z.of_nat (List.length l)) + 1) * hi)%Q
        with (hi + inject_Z (Z.of_nat (List.length l)) * hi)%Q by ring.
      now apply Qplus_le_compat.
Qed.

Lemma avg_bounds (x : Q) (l : list Q) (lo hi : Q) :
  (forall q, In q (x :: l) -> (lo <= q)%Q /\ (q <= hi)%Q) ->
  (lo <= PredictionsService.avg (x :: l))%Q
  /\ (PredictionsService.avg (x :: l) <= hi)%Q
  /\ (PredictionsService.avg (x :: l)
      * inject_Z (Z.of_nat (List.length (x :: l)))
      == fold_right Qplus 0 (x :: l))%Q.
Proof.
  intros Hb. destruct (sum_scores_bounds (x :: l) lo hi Hb) as [H1 H2].
  assert (Hpos : (0 < inject_Z (Z.of_nat (List.length (x :: l))))%Q).
  { unfold Qlt. cbn. lia. }
  unfold PredictionsService.avg. split; [|split].
  - apply Qle_shift_div_l; [exact Hpos|]. now rewrite Qmult_comm.
  - apply Qle_shift_div_r; [exact Hpos|]. now rewrite Qmult_comm.
  - field. intros C. rewrite C in Hpos. discriminate Hpos.
Qed.

(** X17: the rows of the per-type statistics.  Each row stands for a
    prediction type with at least one stored prediction; its count is the
    number of stored predictions of the type, and its average lies within
    any bounds that hold for all stored scores (within [[0,1]] when all
    scores are). *)
Theorem byType_rows_average (all : list Prediction.t) (lo hi : Q)
  (row : PredictionsService.TypeRow) :
  (forall p, In p all ->
     (lo <= Prediction.riskScore p)%Q /\ (Prediction.riskScore p <= hi)%Q) ->
  In row (PredictionsService.byType_rows all) ->
  let group :=
    filter (fun p => PredictionType_eqb (Prediction.predictionType p)
                       (PredictionsService.predictionType row)) all in
  (1 <= PredictionsService.count row)%nat
  /\ PredictionsService.count row = List.length group
  /\ (lo <= PredictionsService.avgRiskScore row)%Q
  /\ (PredictionsService.avgRiskScore row <= hi)%Q.
Proof.
  intros Hb Hin. unfold PredictionsService.byType_rows in Hin.
  apply in_flat_map in Hin. destruct Hin as (t & _ & Hrow).
  destruct (filter (fun p => PredictionType_eqb (Prediction.predictionType p) t)
              all) as [|a g] eqn:E; [destruct Hrow|].
  destruct Hrow as [<- | []]. cbn zeta.
  cbn [PredictionsService.predictionType PredictionsService.count
       PredictionsService.avgRiskScore].
  rewrite E.
  assert (Hg : forall q, In q (map Prediction.riskScore (a :: g)) ->
            (lo <= q)%Q /\ (q <= hi)%Q).
  { intros q Hq. apply in_map_iff in Hq. destruct Hq as (p & <- & Hp).
    apply Hb. rewrite <- E in Hp. apply filter_In in Hp. tauto. }
  cbn [map] in Hg |- *.
  destruct (avg_bounds _ _ lo hi Hg) as (H1 & H2 & _).
  split; [cbn; lia|]. split; [reflexivity|].
  split; assumption.
Qed.

Lemma byType_rows_average_witness :
  let p := Repository.stored (Scenario.entity 0.82 "HIGH" "id-1" 1 "user-1") in
  let q := Repository.stored (Scenario.entity 0.25 "LOW" "id-2" 2 "user-1") in
  let row := {| PredictionsService.predictionType := READMISSION_RISK;
                PredictionsService.count := 2;
                PredictionsService.avgRiskScore :=
                  PredictionsService.avg
                    [Prediction.riskScore p; Prediction.riskScore q] |} in
  (0 <= PredictionsService.avgRiskScore row)%Q
  /\ (PredictionsService.avgRiskScore row <= 1)%Q.
Proof.
  cbn zeta.
  destruct (byType_rows_average
    [Repository.stored (Scenario.entity 0.82 "HIGH" "id-1" 1 "user-1");
     Repository.stored (Scenario.entity 0.25 "LOW" "id-2" 2 "user-1")]
    0 1
    {| PredictionsService.predictionType := READMISSION_RISK;
       PredictionsService.count := 2;
       PredictionsService.avgRiskScore :=
         PredictionsService.avg
           [Prediction.riskScore
              (Repository.stored
                 (Scenario.entity 0.82 "HIGH" "id-1" 1 "user-1"));
            Prediction.riskScore
              (Repository.stored
                 (Scenario.entity 0.25 "LOW" "id-2" 2 "user-1"))] |})
    as (_ & _ & H1 & H2).
  - intros p [<- | [<- | []]]; split; vm_compute; discriminate.
  - left. reflexivity.
  - split; assumption.
Defined.

(** ** What each route touches *)

(** X18: the footprint of the routes.  The four reading routes (listing,
    statistics, history, by id) leave the world as it was: they store
    nothing and send nothing.  The health and model-info routes send
    exactly one request each and store nothing.  The POST route stores at
    most one row and sends at most one request. *)
Theorem dispatch_footprint (env : Env) (r : PredictionsController.Route)
  (w : World) :
  match r with
  | PredictionsController.POST_predictions _ _ =>
      exists added out,
        world_after (PredictionsController.dispatch env r) w
        = {| predictions := predictions w ++ added; sent := sent w ++ out |}
        /\ (List.length added <= 1)%nat /\ (List.length out <= 1)%nat
  | PredictionsController.GET_ml_health =>
      world_after (PredictionsController.dispatch env r) w
      = {| predictions := predictions w; sent := sent w ++ [GET_health] |}
  | PredictionsController.GET_model_info_route =>
      world_after (PredictionsController.dispatch env r) w
      = {| predictions := predictions w; sent := sent w ++ [GET_model_info] |}
  | _ => world_after (PredictionsController.dispatch env r) w = w
  end.
Proof.
  destruct r as [dto user_id | page limit | | | | patientId | id];
    unfold world_after; cbn [PredictionsController.dispatch].
  - destruct (requestPrediction_effect env dto user_id)
      as (res & added & out & Hrun & Hlen & _ & Hout).
    exists added, out.
    unfold PredictionsController.requestPrediction. unfold bind.
    rewrite Hrun. split; [|split; [destruct res; lia|exact Hout]].
    destruct res; reflexivity.
  - unfold PredictionsController.findAll. unfold bind.
    rewrite findAll_run.
    destruct (Repository.skip_take _ _ _); reflexivity.
  - reflexivity.
  - unfold PredictionsController.checkMLHealth,
      PredictionsService.checkMLServiceHealth, MLServiceClient.healthCheck.
    run_monad. destruct (get_health env); reflexivity.
  - unfold PredictionsController.getModelInfo,
      PredictionsService.getModelInfo, MLServiceClient.getModelInfo.
    run_monad. destruct (get_model_info env) as [i|e]; [reflexivity|].
    destruct (@handleMLServiceError_throws (list (string * string)) e
                {| predictions := predictions w;
                   sent := sent w ++ [GET_model_info] |}) as [msg ->].
    reflexivity.
  - unfold PredictionsController.getPatientHistory,
      PredictionsService.getPatientHistory, PatientsService.findById.
    run_monad. destruct (find _ (patients env)); reflexivity.
  - unfold PredictionsController.findById, PredictionsService.findById.
    run_monad. cbn. destruct (find _ (predictions w)); reflexivity.
Qed.

(** ** The age of a patient *)

(** X19: the age is the number of birthdays reached: the birthday of that
    number is not after today, and the next one is.  It is negative
    exactly when the birth date is after today: the age is not clamped
    at 0. *)
Theorem calculateAge_completed_years (today birth : JsDate) :
  ~ earlier today (years_later (calculateAge today birth) birth)
  /\ earlier today (years_later (calculateAge today birth + 1) birth)
  /\ ((calculateAge today birth < 0)%Z <-> earlier today birth).
Proof.
  unfold calculateAge, earlier, years_later.
  destruct today as [ty tm td], birth as [by_ bm bd]. cbn.
  destruct (tm - bm <? 0)%Z eqn:E1; cbn.
  - apply Z.ltb_lt in E1. repeat split; lia.
  - apply Z.ltb_ge in E1.
    destruct (tm - bm =? 0)%Z eqn:E2; cbn.
    + apply Z.eqb_eq in E2.
      destruct (td <? bd)%Z eqn:E3;
        [apply Z.ltb_lt in E3|apply Z.ltb_ge in E3]; repeat split; lia.
    + apply Z.eqb_neq in E2. repeat split; lia.
Qed.

(** ** Creating and updating patients *)

Lemma findOne_curp_None (c : string) (table : list PatientRow.t)
  (r : PatientRow.t) :
  PatientsTable.findOne_curp c table = None ->
  In r table -> PatientRow.curp r <> Value c.
Proof.
  intros Hnone Hin Hc. unfold PatientsTable.findOne_curp in Hnone.
  apply (find_none _ _ Hnone) in Hin. rewrite Hc, String.eqb_refl in Hin.
  discriminate.
Qed.

Lemma findOne_curp_Some (c : string) (table : list PatientRow.t)
  (r : PatientRow.t) :
  In r table -> PatientRow.curp r = Value c ->
  exists r', PatientsTable.findOne_curp c table = Some r'.
Proof.
  intros Hin Hc. unfold PatientsTable.findOne_curp.
  apply (find_In_Some _ table r Hin). rewrite Hc. apply String.eqb_refl.
Qed.

Lemma truthy_Value (c : string) :
  c <> "" -> PatientsTable.truthy (Value c) = true.
Proof.
  intros Hc. cbn. apply negb_true_iff. now apply String.eqb_neq.
Qed.

Lemma differs_false (c : string) (x : Nullable string) :
  PatientsTable.differs c x = false -> x = Value c.
Proof.
  destruct x as [| |s]; cbn; try discriminate.
  intros H. apply negb_false_iff, String.eqb_eq in H. now subst.
Qed.

Lemma patient_findById_unique (table : list PatientRow.t)
  (patient : PatientRow.t) :
  NoDup (map PatientRow.id table) -> In patient table ->
  PatientsTable.findById (PatientRow.id patient) table = Returned patient.
Proof.
  intros Hnd Hin. unfold PatientsTable.findById.
  destruct (find_In_Some
              (fun r => String.eqb (PatientRow.id r) (PatientRow.id patient))
              table patient Hin (String.eqb_refl _)) as [q Hq].
  rewrite Hq. f_equal.
  pose proof (find_some _ _ Hq) as [Hqin Hb]. apply String.eqb_eq in Hb.
  exact (NoDup_map_eq PatientRow.id table q patient Hnd Hqin Hin Hb).
Qed.

Lemma save_existing_ids (patient : PatientRow.t) (table : list PatientRow.t) :
  map PatientRow.id (PatientsTable.save_existing patient table)
  = map PatientRow.id table.
Proof.
  unfold PatientsTable.save_existing. rewrite map_map. apply map_ext.
  intros r.
  destruct (String.eqb (PatientRow.id r) (PatientRow.id patient)) eqn:E;
    [|reflexivity].
  apply String.eqb_eq in E. now symmetry.
Qed.

Lemma save_existing_In (patient r' : PatientRow.t)
  (table : list PatientRow.t) :
  In r' (PatientsTable.save_existing patient table) ->
  (exists r, In r table
             /\ PatientRow.id r = PatientRow.id patient
             /\ r' = PatientsTable.written r patient)
  \/ (In r' table /\ PatientRow.id r' <> PatientRow.id patient).
Proof.
  unfold PatientsTable.save_existing. intros H. apply in_map_iff in H.
  destruct H as (r & Hr & Hin).
  destruct (String.eqb (PatientRow.id r) (PatientRow.id patient)) eqn:E.
  - left. apply String.eqb_eq in E. exists r. auto.
  - right. apply String.eqb_neq in E. subst r'. auto.
Qed.

(** X20: creating a patient.  A CURP that is given, not empty, and already
    held by a stored patient makes [create] throw ConflictException and
    leaves the table as it was.  When no stored patient has the given CURP
    (or none is given) the patient is appended to the table and returned,
    with the generated id, the creating user and the fields of the body;
    an optional field that the body leaves out is null, never undefined,
    in the patient returned and in its row. *)
Theorem create_patient_outcomes (new_id : string) (dto : CreatePatientDto.t)
  (userId : string) (table : list PatientRow.t) :
  (forall c r,
     CreatePatientDto.curp dto = Value c -> c <> "" ->
     In r table -> PatientRow.curp r = Value c ->
     PatientsTable.create new_id dto userId table
     = (Raise (ConflictException "A patient with this CURP already exists"),
        table)) /\
  ((forall c r, CreatePatientDto.curp dto = Value c -> In r table ->
      PatientRow.curp r <> Value c) ->
   exists p,
     PatientsTable.create new_id dto userId table
     = (Returned p, table ++ [p])
     /\ PatientRow.id p = new_id
     /\ PatientRow.createdById p = userId
     /\ PatientRow.firstName p = CreatePatientDto.firstName dto
     /\ PatientRow.lastName p = CreatePatientDto.lastName dto
     /\ PatientRow.birthDate p = CreatePatientDto.birthDate dto
     /\ PatientRow.curp p = nullish (CreatePatientDto.curp dto) Null
     /\ PatientRow.gender p = nullish (CreatePatientDto.gender dto) Null
     /\ PatientRow.bloodType p = nullish (CreatePatientDto.bloodType dto) Null
     /\ PatientRow.hospitalId p
        = nullish (CreatePatientDto.hospitalId dto) Null
     /\ PatientRow.phone p = nullish (CreatePatientDto.phone dto) Null
     /\ PatientRow.emergencyContact p
        = nullish (CreatePatientDto.emergencyContact dto) Null
     /\ (PatientRow.curp p <> Undefined
         /\ PatientRow.gender p <> Undefined
         /\ PatientRow.bloodType p <> Undefined
         /\ PatientRow.hospitalId p <> Undefined
         /\ PatientRow.phone p <> Undefined
         /\ PatientRow.emergencyContact p <> Undefined)).
Proof.
  unfold PatientsTable.create. split.
  - intros c r Hc Hne Hin Hr. rewrite Hc, (truthy_Value c Hne).
    destruct (findOne_curp_Some c table r Hin Hr) as [r' ->]. reflexivity.
  - intros Hfree.
    assert (Hnone :
      match CreatePatientDto.curp dto with
      | Value c =>
          if PatientsTable.truthy (Value c)
          then PatientsTable.findOne_curp c table else None
      | Undefined | Null => None
      end = None).
    { destruct (CreatePatientDto.curp dto) as [| |c] eqn:Ec; try reflexivity.
      destruct (PatientsTable.truthy (Value c)); [|reflexivity].
      destruct (PatientsTable.findOne_curp c table) as [r|] eqn:Ef;
        [|reflexivity].
      unfold PatientsTable.findOne_curp in Ef. apply find_some in Ef.
      destruct Ef as [Hin Hb].
      destruct (PatientRow.curp r) as [| |s] eqn:Er; try discriminate.
      apply String.eqb_eq in Hb. subst s.
      destruct (Hfree c r eq_refl Hin Er). }
    rewrite Hnone. eexists. split; [reflexivity|]. cbn.
    repeat (split; [reflexivity|]).
    repeat split; apply nullish_defined.
Qed.

Lemma create_patient_outcomes_witness :
  PatientsTable.create "pat-2"
    {| CreatePatientDto.curp := Value "CAST850101HJCRLA05";
       CreatePatientDto.firstName := "Otra";
       CreatePatientDto.lastName := "Persona";
       CreatePatientDto.birthDate := "1985-01-01";
       CreatePatientDto.gender := Undefined;
       CreatePatientDto.bloodType := Undefined;
       CreatePatientDto.hospitalId := Undefined;
       CreatePatientDto.phone := Undefined;
       CreatePatientDto.emergencyContact := Undefined |}
    "user-2" [Ward.maria]
  = (Raise (ConflictException "A patient with this CURP already exists"),
     [Ward.maria])
  /\ exists p,
       PatientsTable.create "pat-2" Ward.juan_dto "user-2" [Ward.maria]
       = (Returned p, [Ward.maria] ++ [p])
       /\ PatientRow.id p = "pat-2"
       /\ PatientRow.createdById p = "user-2"
       /\ PatientRow.curp p = Value "GOLJ900202HJCNPN07"
       /\ PatientRow.bloodType p = Null
       /\ PatientRow.phone p = Null.
Proof.
  split.
  - destruct (create_patient_outcomes "pat-2"
      {| CreatePatientDto.curp := Value "CAST850101HJCRLA05";
         CreatePatientDto.firstName := "Otra";
         CreatePatientDto.lastName := "Persona";
         CreatePatientDto.birthDate := "1985-01-01";
         CreatePatientDto.gender := Undefined;
         CreatePatientDto.bloodType := Undefined;
         CreatePatientDto.hospitalId := Undefined;
         CreatePatientDto.phone := Undefined;
         CreatePatientDto.emergencyContact := Undefined |}
      "user-2" [Ward.maria]) as [H _].
    apply (H "CAST850101HJCRLA05" Ward.maria);
      [reflexivity|discriminate|left; reflexivity|reflexivity].
  - destruct (create_patient_outcomes "pat-2" Ward.juan_dto "user-2"
                [Ward.maria]) as [_ H].
    destruct H as (p & Hrun & Hid & Hby & _ & _ & _ & Hcurp & _ & Hblood & _
                   & Hphone & _).
    + intros c r Hc [<- | []]. inversion Hc; subst. discriminate.
    + exists p. repeat split; assumption.
Defined.

(** X21: CURPs stay unique.  If patient ids are distinct and no two
    patients share a CURP, this still holds after [create] (with a fresh
    generated id) and after [update], for bodies whose CURP, when given, is
    not the empty string, whether the call returns or throws. *)
Theorem curps_unique_kept (table : list PatientRow.t) :
  curps_unique table ->
  (forall new_id dto userId,
     CreatePatientDto.curp dto <> Value "" ->
     (forall r, In r table -> PatientRow.id r <> new_id) ->
     curps_unique (snd (PatientsTable.create new_id dto userId table))) /\
  (forall id dto,
     PartialCreatePatientDto.curp dto <> Some (Value "") ->
     curps_unique (snd (PatientsTable.update id dto table))).
Proof.
  intros [Hids Hcurps]. split.
  - intros new_id dto userId Hne Hfresh. unfold PatientsTable.create.
    destruct (match CreatePatientDto.curp dto with
              | Value c =>
                  if PatientsTable.truthy (Value c)
                  then PatientsTable.findOne_curp c table else None
              | Undefined | Null => None
              end) as [r|] eqn:Ex; [split; assumption|].
    cbn [snd]. split.
    + rewrite map_app. cbn [map PatientRow.id].
      apply (Permutation_NoDup (Permutation_cons_append _ _)).
      constructor; [|exact Hids].
      intros Hin. apply in_map_iff in Hin. destruct Hin as (r & Hr & Hin).
      exact (Hfresh r Hin Hr).
    + assert (Hnew : forall r c, In r table ->
                PatientRow.curp r = Value c ->
                CreatePatientDto.curp dto <> Value c).
      { intros r c Hin Hr Hd. rewrite Hd in Ex.
        rewrite truthy_Value in Ex by (intros ->; now apply Hne).
        exact (findOne_curp_None c table r Ex Hin Hr). }
      assert (Hgiven : forall c,
                nullish (CreatePatientDto.curp dto) Null = Value c ->
                CreatePatientDto.curp dto = Value c).
      { intros c. destruct (CreatePatientDto.curp dto); cbn; congruence. }
      intros r1 r2 c H1 H2 C1 C2.
      apply in_app_or in H1. apply in_app_or in H2.
      destruct H1 as [H1 | [<- | []]], H2 as [H2 | [<- | []]].
      * exact (Hcurps r1 r2 c H1 H2 C1 C2).
      * cbn in C2. destruct (Hnew r1 c H1 C1 (Hgiven c C2)).
      * cbn in C1. destruct (Hnew r2 c H2 C2 (Hgiven c C1)).
      * reflexivity.
  - intros id dto Hne. unfold PatientsTable.update.
    destruct (PatientsTable.findById id table) as [patient|e] eqn:Ef;
      [|split; assumption].
    unfold PatientsTable.findById in Ef.
    destruct (find _ table) as [q|] eqn:Eq; [|discriminate].
    inversion Ef; subst q. apply find_some in Eq.
    destruct Eq as [Hpin Hpid]. apply String.eqb_eq in Hpid.
    destruct (match PartialCreatePatientDto.curp dto with
              | Some (Value c) =>
                  if PatientsTable.truthy (Value c)
                     && PatientsTable.differs c (PatientRow.curp patient)
                  then PatientsTable.findOne_curp c table else None
              | Some Undefined | Some Null | None => None
              end) as [r|] eqn:Ex; [split; assumption|].
    cbn [snd]. split; [now rewrite save_existing_ids|].
    assert (Hown : forall c r2,
              PatientRow.curp
                (PatientsTable.written patient
                   (PatientsTable.assign patient dto)) = Value c ->
              In r2 table -> PatientRow.curp r2 = Value c ->
              PatientRow.id patient = PatientRow.id r2).
    { intros c r2 Hc H2 C2. cbn in Hc.
      destruct (PartialCreatePatientDto.curp dto) as [[| |c0]|] eqn:Ed;
        cbn in Hc; try discriminate.
      - exact (Hcurps patient r2 c Hpin H2 Hc C2).
      - inversion Hc; subst c0.
        rewrite truthy_Value in Ex by (intros ->; now apply Hne).
        cbn [andb] in Ex.
        destruct (PatientsTable.differs c (PatientRow.curp patient)) eqn:Edf.
        + destruct (findOne_curp_None c table r2 Ex H2 C2).
        + apply differs_false in Edf.
          exact (Hcurps patient r2 c Hpin H2 Edf C2).
      - destruct (PatientRow.curp patient) as [| |s] eqn:Ep;
          cbn in Hc; try discriminate.
        inversion Hc; subst s.
        exact (Hcurps patient r2 c Hpin H2 Ep C2). }
    assert (Hsame : forall o,
              In o table ->
              PatientRow.id o
              = PatientRow.id (PatientsTable.assign patient dto) ->
              o = patient).
    { intros o Ho Hid. cbn in Hid.
      exact (NoDup_map_eq PatientRow.id table o patient Hids Ho Hpin Hid). }
    intros r1 r2 c H1 H2 C1 C2.
    apply save_existing_In in H1. apply save_existing_In in H2.
    destruct H1 as [(o1 & Ho1 & Hi1 & ->) | [H1 N1]],
             H2 as [(o2 & Ho2 & Hi2 & ->) | [H2 N2]].
    + reflexivity.
    + rewrite (Hsame o1 Ho1 Hi1) in C1.
      cbn [PatientsTable.written PatientsTable.assign PatientRow.id].
      exact (Hown c r2 C1 H2 C2).
    + rewrite (Hsame o2 Ho2 Hi2) in C2.
      cbn [PatientsTable.written PatientsTable.assign PatientRow.id].
      symmetry. exact (Hown c r1 C2 H1 C1).
    + exact (Hcurps r1 r2 c H1 H2 C1 C2).
Qed.

Lemma curps_unique_kept_witness :
  curps_unique
    (snd (PatientsTable.create "pat-2" Ward.juan_dto "user-2" [Ward.maria]))
  /\ curps_unique (snd (PatientsTable.update "pat-1" Ward.rename [Ward.maria])).
Proof.
  assert (H : curps_unique [Ward.maria]).
  { split.
    - cbn. constructor; [intros []|constructor].
    - intros r1 r2 c [<- | []] [<- | []] _ _. reflexivity. }
  destruct (curps_unique_kept [Ward.maria] H) as [H1 H2].
  split.
  - apply H1; [discriminate|]. intros r [<- | []]. discriminate.
  - apply H2. discriminate.
Defined.

(** X22: what [update] refuses.  For an id that no stored patient has,
    [update] throws NotFoundException and leaves the table as it was,
    whatever the body.  A CURP that is not empty, differs from the
    patient's own and is held by a stored patient gives ConflictException,
    table unchanged.  A body without CURP, or with the patient's own
    CURP, is not refused for its CURP: no ConflictException.  Patient ids
    are primary keys. *)
Theorem update_patient_refusals (id : string)
  (dto : PartialCreatePatientDto.t) (table : list PatientRow.t) :
  ((forall r, In r table -> PatientRow.id r <> id) ->
     PatientsTable.update id dto table
     = (Raise (Nest (NotFoundException
          ("Patient with ID " ++ id ++ " not found"))), table)) /\
  (forall patient other c,
     NoDup (map PatientRow.id table) ->
     In patient table -> PatientRow.id patient = id ->
     PartialCreatePatientDto.curp dto = Some (Value c) -> c <> "" ->
     PatientRow.curp patient <> Value c ->
     In other table -> PatientRow.curp other = Value c ->
     PatientsTable.update id dto table
     = (Raise (ConflictException "A patient with this CURP already exists"),
        table)) /\
  (forall patient,
     NoDup (map PatientRow.id table) ->
     In patient table -> PatientRow.id patient = id ->
     PartialCreatePatientDto.curp dto = None
     \/ PartialCreatePatientDto.curp dto = Some (PatientRow.curp patient) ->
     forall message,
       fst (PatientsTable.update id dto table)
       <> Raise (ConflictException message)).
Proof.
  split; [|split].
  - intros Hnone. unfold PatientsTable.update, PatientsTable.findById.
    rewrite find_None_of_all; [reflexivity|].
    intros r Hr. apply String.eqb_neq. exact (Hnone r Hr).
  - intros patient other c Hnd Hin Hid Hc Hne Hown Hoin Hoc.
    unfold PatientsTable.update. subst id.
    rewrite (patient_findById_unique table patient Hnd Hin), Hc.
    rewrite (truthy_Value c Hne). cbn [andb].
    assert (Hd : PatientsTable.differs c (PatientRow.curp patient) = true).
    { destruct (PatientsTable.differs c (PatientRow.curp patient)) eqn:E;
        [reflexivity|].
      apply differs_false in E. contradiction. }
    rewrite Hd.
    destruct (findOne_curp_Some c table other Hoin Hoc) as [r' ->].
    reflexivity.
  - intros patient Hnd Hin Hid Hc message. unfold PatientsTable.update.
    subst id.
    rewrite (patient_findById_unique table patient Hnd Hin).
    assert (Hnone :
      match PartialCreatePatientDto.curp dto with
      | Some (Value c) =>
          if PatientsTable.truthy (Value c)
             && PatientsTable.differs c (PatientRow.curp patient)
          then PatientsTable.findOne_curp c table else None
      | Some Undefined | Some Null | None => None
      end = None).
    { destruct Hc as [-> | ->]; [reflexivity|].
      destruct (PatientRow.curp patient) as [| |c]; try reflexivity.
      cbn [PatientsTable.differs]. rewrite String.eqb_refl. cbn [negb].
      now rewrite andb_false_r. }
    rewrite Hnone. cbn. discriminate.
Qed.

Lemma update_patient_refusals_witness :
  PatientsTable.update "pat-7" Ward.rename [Ward.maria]
  = (Raise (Nest (NotFoundException "Patient with ID pat-7 not found")),
     [Ward.maria])
  /\ PatientsTable.update "pat-2"
       {| PartialCreatePatientDto.curp := Some (Value "CAST850101HJCRLA05");
          PartialCreatePatientDto.firstName := None;
          PartialCreatePatientDto.lastName := None;
          PartialCreatePatientDto.birthDate := None;
          PartialCreatePatientDto.gender := None;
          PartialCreatePatientDto.bloodType := None;
          PartialCreatePatientDto.hospitalId := None;
          PartialCreatePatientDto.phone := None;
          PartialCreatePatientDto.emergencyContact := None |}
       [Ward.maria;
        {| PatientRow.id := "pat-2";
           PatientRow.curp := Null;
           PatientRow.firstName := "Juan";
           PatientRow.lastName := "Gonzalez";
           PatientRow.birthDate := "1990-02-02";
           PatientRow.gender := Value MALE;
           PatientRow.bloodType := Null;
           PatientRow.hospitalId := Null;
           PatientRow.phone := Null;
           PatientRow.emergencyContact := Null;
           PatientRow.createdById := "user-2" |}]
     = (Raise (ConflictException "A patient with this CURP already exists"),
        [Ward.maria;
         {| PatientRow.id := "pat-2";
            PatientRow.curp := Null;
            PatientRow.firstName := "Juan";
            PatientRow.lastName := "Gonzalez";
            PatientRow.birthDate := "1990-02-02";
            PatientRow.gender := Value MALE;
            PatientRow.bloodType := Null;
            PatientRow.hospitalId := Null;
            PatientRow.phone := Null;
            PatientRow.emergencyContact := Null;
            PatientRow.createdById := "user-2" |}]).
Proof.
  destruct (update_patient_refusals "pat-7" Ward.rename [Ward.maria])
    as [H1 _].
  split.
  - apply H1. intros r [<- | []]. discriminate.
  - match goal with
    | |- PatientsTable.update ?i ?d ?t = _ =>
        destruct (update_patient_refusals i d t) as (_ & H2 & _)
    end.
    match goal with
    | |- PatientsTable.update _ _ [_; ?juan] = _ =>
        apply (H2 juan Ward.maria "CAST850101HJCRLA05")
    end.
    + cbn. constructor; [|constructor; [|constructor]].
      * intros [H | []]. discriminate H.
      * intros [].
    + right. left. reflexivity.
    + reflexivity.
    + reflexivity.
    + discriminate.
    + discriminate.
    + left. reflexivity.
    + reflexivity.
Defined.

(** ** Reading clinical records *)

Lemma record_insert_desc_perm (r : DatedRecord.t) (l : list DatedRecord.t) :
  Permutation (r :: l) (ClinicalRecords.insert_desc r l).
Proof.
  induction l as [|q rest IH]; cbn; [apply Permutation_refl|].
  destruct (DatedRecord.recordDate q <? DatedRecord.recordDate r)%Z.
  - apply Permutation_refl.
  - eapply perm_trans; [apply perm_swap|]. now apply perm_skip.
Qed.

Lemma order_recordDate_desc_perm (l : list DatedRecord.t) :
  Permutation l (ClinicalRecords.order_recordDate_desc l).
Proof.
  induction l as [|r rest IH]; cbn; [apply perm_nil|].
  eapply perm_trans; [apply perm_skip, IH|]. apply record_insert_desc_perm.
Qed.

Lemma record_insert_desc_sorted (r : DatedRecord.t) (l : list DatedRecord.t) :
  latest_first l -> latest_first (ClinicalRecords.insert_desc r l).
Proof.
  unfold latest_first. induction l as [|q rest IH]; cbn; intros Hs.
  - constructor; constructor.
  - inversion Hs as [|? ? Hrest Hall]; subst.
    destruct (DatedRecord.recordDate q <? DatedRecord.recordDate r)%Z eqn:E.
    + apply Z.ltb_lt in E. constructor; [exact Hs|].
      constructor; [lia|].
      eapply Forall_impl; [|exact Hall]. cbn. intros a Ha. lia.
    + apply Z.ltb_ge in E. constructor; [now apply IH|].
      apply (Permutation_Forall (record_insert_desc_perm r rest)).
      constructor; assumption.
Qed.

Lemma order_recordDate_desc_sorted (l : list DatedRecord.t) :
  latest_first (ClinicalRecords.order_recordDate_desc l).
Proof.
  induction l as [|r rest IH]; cbn; [constructor|].
  now apply record_insert_desc_sorted.
Qed.

Lemma order_recordDate_desc_In (patientId : string)
  (rows : list DatedRecord.t) (r : DatedRecord.t) :
  In r (ClinicalRecords.order_recordDate_desc
          (ClinicalRecords.of_patient patientId rows))
  <-> In r rows
      /\ ClinicalRecord.patientId (DatedRecord.record r) = patientId.
Proof.
  split.
  - intros H.
    apply (Permutation_in _
             (Permutation_sym (order_recordDate_desc_perm _))) in H.
    apply filter_In in H. destruct H as [H Hb].
    apply String.eqb_eq in Hb. auto.
  - intros [H Hb]. apply (Permutation_in _ (order_recordDate_desc_perm _)).
    apply filter_In. split; [assumption|]. now apply String.eqb_eq.
Qed.

(** X23: the records of a patient.  For a known patient the listing gives
    exactly the patient's records, latest record date first; for an
    unknown patient it throws NotFoundException.  The latest-record call
    does not look the patient up: it never throws, gives [null] when no
    record carries the patient id (an unknown patient included), and
    otherwise gives a record of the patient whose date no other record of
    the patient exceeds. *)
Theorem clinical_records_of_patient (env : Env) (rows : list DatedRecord.t)
  (patientId : string) (w : World) :
  ((forall q, In q (patients env) -> Patient.id q <> patientId) ->
     ClinicalRecords.getClinicalRecords env rows patientId w
     = (Throw (NotFoundException
          ("Patient with ID " ++ patientId ++ " not found")), w)) /\
  (forall q, In q (patients env) -> Patient.id q = patientId ->
     exists l,
       ClinicalRecords.getClinicalRecords env rows patientId w = (Ok l, w)
       /\ latest_first l
       /\ (forall r, In r l <->
             In r rows
             /\ ClinicalRecord.patientId (DatedRecord.record r) = patientId)) /\
  (exists latest,
     ClinicalRecords.getLatestClinicalRecord rows patientId w
     = (Ok latest, w)
     /\ (latest = None <->
         forall r, In r rows ->
           ClinicalRecord.patientId (DatedRecord.record r) <> patientId)
     /\ (forall r, latest = Some r ->
           In r rows
           /\ ClinicalRecord.patientId (DatedRecord.record r) = patientId
           /\ forall r', In r' rows ->
                ClinicalRecord.patientId (DatedRecord.record r') = patientId ->
                (DatedRecord.recordDate r' <= DatedRecord.recordDate r)%Z)).
Proof.
  unfold ClinicalRecords.getClinicalRecords,
    ClinicalRecords.getLatestClinicalRecord, PatientsService.findById.
  split; [|split].
  - intros Hnone. rewrite find_None_of_all; [reflexivity|].
    intros a Ha. apply String.eqb_neq. exact (Hnone a Ha).
  - intros q Hin Hid.
    destruct (find_In_Some (fun p => String.eqb (Patient.id p) patientId)
                (patients env) q Hin) as [q' E].
    { rewrite Hid. apply String.eqb_refl. }
    unfold bind at 1. rewrite E. cbn.
    eexists. split; [reflexivity|].
    split; [apply order_recordDate_desc_sorted|].
    apply order_recordDate_desc_In.
  - eexists. split; [reflexivity|].
    pose proof (order_recordDate_desc_In patientId rows) as HIn.
    pose proof (order_recordDate_desc_sorted
                  (ClinicalRecords.of_patient patientId rows)) as Hs.
    destruct (ClinicalRecords.order_recordDate_desc
                (ClinicalRecords.of_patient patientId rows)) as [|r l];
      cbn [hd_error].
    + split.
      * split; [|reflexivity]. intros _ r Hr Hp.
        destruct (proj2 (HIn r) (conj Hr Hp)).
      * discriminate.
    + split.
      * split; [discriminate|]. intros Hnone.
        destruct (proj1 (HIn r) (or_introl eq_refl)) as [Hr Hp].
        destruct (Hnone r Hr Hp).
      * intros r0 H0. inversion H0; subst r0.
        destruct (proj1 (HIn r) (or_introl eq_refl)) as [Hr Hp].
        split; [assumption|]. split; [assumption|].
        intros r' Hr' Hp'.
        destruct (proj2 (HIn r') (conj Hr' Hp')) as [<- | Hl]; [lia|].
        inversion Hs as [|? ? _ Hall]; subst.
        rewrite Forall_forall in Hall. exact (Hall r' Hl).
Qed.

Lemma clinical_records_of_patient_witness :
  let rows := [DatedRecord.mk 100 Scenario.observation;
               DatedRecord.mk 200 Scenario.foreign] in
  ClinicalRecords.getClinicalRecords
    (Scenario.replies 0.82 "HIGH" "id-1" 1) rows "pat-9" Scenario.fresh
  = (Throw (NotFoundException "Patient with ID pat-9 not found"),
     Scenario.fresh)
  /\ ClinicalRecords.getLatestClinicalRecord rows "pat-9" Scenario.fresh
     = (Ok None, Scenario.fresh).
Proof.
  cbn zeta.
  destruct (clinical_records_of_patient
              (Scenario.replies 0.82 "HIGH" "id-1" 1)
              [DatedRecord.mk 100 Scenario.observation;
               DatedRecord.mk 200 Scenario.foreign] "pat-9" Scenario.fresh)
    as (H1 & _ & _).
  split; [|reflexivity].
  apply H1. intros q [<- | [<- | []]]; discriminate.
Defined.

(** X24: listing, then predicting.  Every record that the listing of a
    known patient returns passes the ownership check of a prediction run
    for that patient: the run sends the features of exactly that record,
    and so it does not end in NotFound.  The prediction module reads the
    same clinical record table, whose ids are primary keys. *)
Theorem listed_record_is_accepted (env : Env) (rows : list DatedRecord.t)
  (patientId userId : string) (kind : PredictionType) (w w1 : World)
  (l : list DatedRecord.t) (r : DatedRecord.t) :
  clinicalRecords env = map DatedRecord.record rows ->
  NoDup (map ClinicalRecord.id (clinicalRecords env)) ->
  ClinicalRecords.getClinicalRecords env rows patientId w = (Ok l, w1) ->
  In r l ->
  let dto :=
    {| RequestPredictionDto.patientId := patientId;
       RequestPredictionDto.clinicalRecordId :=
         ClinicalRecord.id (DatedRecord.record r);
       RequestPredictionDto.predictionType := kind |} in
  sent (world_after (PredictionsService.requestPrediction env dto userId) w1)
  = sent w1
    ++ [POST_predict (PredictionType_value kind)
          (PredictionsService.prepareFeatures (DatedRecord.record r))]
  /\ forall msg,
       result_of (PredictionsService.requestPrediction env dto userId) w1
       <> Throw (NotFoundException msg).
Proof.
  intros Htable Hnd Hlist Hin dto.
  unfold ClinicalRecords.getClinicalRecords, PatientsService.findById in Hlist.
  unfold bind at 1 in Hlist.
  destruct (find (fun p => String.eqb (Patient.id p) patientId)
              (patients env)) as [q|] eqn:Eq; [|discriminate].
  cbn in Hlist. inversion Hlist; subst l w1. clear Hlist.
  apply order_recordDate_desc_In in Hin. destruct Hin as [Hrow Hp].
  assert (Hcr : In (DatedRecord.record r) (clinicalRecords env)).
  { rewrite Htable. now apply in_map. }
  assert (Hfind : Repository.findOne_clinicalRecord env
                    (ClinicalRecord.id (DatedRecord.record r)) patientId
                  = Some (DatedRecord.record r)).
  { unfold Repository.findOne_clinicalRecord.
    destruct (find_In_Some
      (fun x => String.eqb (ClinicalRecord.id x)
                  (ClinicalRecord.id (DatedRecord.record r))
                && String.eqb (ClinicalRecord.patientId x) patientId)
      (clinicalRecords env) (DatedRecord.record r) Hcr) as [cr Hcr'].
    { rewrite Hp, !String.eqb_refl. reflexivity. }
    rewrite Hcr'. f_equal.
    pose proof (find_some _ _ Hcr') as [Hin' Hb].
    apply andb_true_iff in Hb. destruct Hb as [Hb _].
    apply String.eqb_eq in Hb.
    exact (NoDup_map_eq ClinicalRecord.id (clinicalRecords env) cr
             (DatedRecord.record r) Hnd Hin' Hcr Hb). }
  unfold result_of, world_after. rewrite requestPrediction_run.
  cbn zeta. subst dto.
  cbn [RequestPredictionDto.patientId RequestPredictionDto.clinicalRecordId
       RequestPredictionDto.predictionType].
  rewrite Eq, Hfind.
  pose proof (predict_world env (PredictionType_value kind)
    (PredictionsService.prepareFeatures (DatedRecord.record r)) w) as Hw.
  destruct (MLServiceClient.predict env (PredictionType_value kind)
              (PredictionsService.prepareFeatures (DatedRecord.record r)) w)
    as [[data|e] w2] eqn:E; cbn [fst snd] in *; subst w2.
  - destruct (Repository.saved_entity env _);
      (split; [reflexivity|discriminate]).
  - split; [reflexivity|].
    apply predict_throw_inv in E. destruct E as [_ [m ->]]. discriminate.
Qed.

Lemma listed_record_is_accepted_witness :
  let env := Scenario.replies 0.82 "HIGH" "id-1" 1 in
  let r := DatedRecord.mk 100 Scenario.observation in
  sent (world_after
          (PredictionsService.requestPrediction env Scenario.dto "user-1")
          Scenario.fresh)
  = sent Scenario.fresh
    ++ [POST_predict "READMISSION_RISK"
          (PredictionsService.prepareFeatures Scenario.observation)]
  /\ forall msg,
       result_of
         (PredictionsService.requestPrediction env Scenario.dto "user-1")
         Scenario.fresh
       <> Throw (NotFoundException msg).
Proof.
  cbn zeta.
  apply (listed_record_is_accepted
           (Scenario.replies 0.82 "HIGH" "id-1" 1)
           [DatedRecord.mk 100 Scenario.observation;
            DatedRecord.mk 200 Scenario.foreign]
           "pat-1" "user-1" READMISSION_RISK Scenario.fresh Scenario.fresh
           [DatedRecord.mk 100 Scenario.observation]
           (DatedRecord.mk 100 Scenario.observation)).
  - reflexivity.
  - cbn. constructor; [|constructor; [|constructor]].
    + intros [H | []]. discriminate H.
    + intros [].
  - vm_compute. reflexivity.
  - left. reflexivity.
Defined.
